(** * chatserver: state store, action log, replay driver, subscription engine

    A shallow embedding of the Go packages [chatserver/model/subs],
    [chatserver/model/actions] and [chatserver/model], followed by the
    properties of the specification that were checked against them.

    Conventions of the embedding:
    - a method with a pointer receiver becomes a function that takes the
      receiver's state and returns the new state (explicit state passing);
      the mutex every method takes makes each call atomic, so a call is one
      step of the sequential model;
    - a Go [map] is a [gmap], a slice is a [list], a Go [string] is a Rocq
      [string] (both are sequences of bytes);
    - a nil interface or pointer is [None];
    - Go's [int] is a 64-bit two's complement integer, written as a [Z] with
      the wrap-around of each arithmetic operation spelled out;
    - [time.Time], its text and [time.Parse] are not part of the
      repository; they are taken as parameters (class [Clock]). The
      readings of the wall clock are an input of each process. *)

From Stdlib Require Import ZArith Lia.
From stdpp Require Import base decidable option list strings gmap fin_maps.

#[local] Open Scope string_scope.
#[local] Open Scope Z_scope.

(* ===================================================================== *)
(** * Part I: definitions *)
(* ===================================================================== *)

(** ** Go primitives used by the packages *)

(** A Go [error] value as built by [errors.New]. *)
Inductive error : Type :=
  | errors_New (msg : string).

(** How a call ends: it returns a value, or it panics (a failed unchecked
    type assertion, for instance, unwinds the goroutine instead of
    returning). *)
Inductive completion (R : Type) : Type :=
  | Return (r : R)
  | Panic (reason : string).
Arguments Return {R} r.
Arguments Panic {R} reason.

(** The result of a binary [int] operation is reduced to 64 bits. *)
Definition int_wrap (z : Z) : Z := (z + 2 ^ 63) mod 2 ^ 64 - 2 ^ 63.

Definition int_sub (a b : Z) : Z := int_wrap (a - b).

(** The values an [int] can hold. *)
Definition is_int (z : Z) : Prop := - 2 ^ 63 <= z < 2 ^ 63.

(** [len(s)] of a slice, as an [int]. *)
Definition len {A : Type} (s : list A) : Z := Z.of_nat (length s).

(** [strings.HasPrefix] and [strings.Contains] on byte strings. *)
Fixpoint strings_HasPrefix (s prefix : string) : bool :=
  match prefix, s with
  | EmptyString, _ => true
  | String _ _, EmptyString => false
  | String c prefix', String d s' =>
      if Ascii.eqb c d then strings_HasPrefix s' prefix' else false
  end.

Fixpoint strings_Contains (s substr : string) : bool :=
  strings_HasPrefix s substr
  || match s with
     | EmptyString => false
     | String _ s' => strings_Contains s' substr
     end.

(** The loop
    [for _, x := range xs { if x == name { found = true; break } }]. *)
Fixpoint slice_contains (xs : list string) (name : string) : bool :=
  match xs with
  | [] => false
  | x :: xs' => if decide (x = name) then true else slice_contains xs' name
  end.

(** The loop
    [for i, x := range xs { if x == name { index = i; break } }]
    with [index] initialised to [-1]; [i] is the position of the head. *)
Fixpoint slice_index_from (i : Z) (xs : list string) (name : string) : Z :=
  match xs with
  | [] => -1
  | x :: xs' => if decide (x = name) then i else slice_index_from (i + 1) xs' name
  end.

Definition slice_index (xs : list string) (name : string) : Z :=
  slice_index_from 0 xs name.

(** [append(xs[:i], xs[i+1:]...)]. *)
Definition slice_remove_at (xs : list string) (i : Z) : list string :=
  take (Z.to_nat i) xs ++ drop (Z.to_nat (i + 1)) xs.

(** ** Strings as [encoding/json] writes and reads them

    [json.Marshal] writes a Go string as a JSON string. It goes through
    the bytes with [utf8.DecodeRuneInString]: where that finds no
    well-formed encoding (it returns [RuneError] with width 1) the byte is
    written as [\ufffd]; all else is written, escaped or not, so that
    [json.Unmarshal] reads it back as it was. The string read back is
    therefore the string written with every such byte replaced by the
    three bytes of U+FFFD. *)

Definition byte_value (c : Ascii.ascii) : N := Ascii.N_of_ascii c.

Definition byte_between (lo hi : N) (c : Ascii.ascii) : bool :=
  ((lo <=? byte_value c) && (byte_value c <=? hi))%N.

(** The width of the well-formed encoding at the head of [s], as the
    tables [first] and [acceptRanges] of package [utf8] have it; [None]
    where [utf8.DecodeRuneInString] returns [RuneError] with width 1 (and
    for the empty string). *)
Definition utf8_width (s : string) : option nat :=
  match s with
  | EmptyString => None
  | String c0 rest =>
      let b0 := byte_value c0 in
      if (b0 <? 128)%N then Some 1%nat
      else if (b0 <? 194)%N then None
      else if (b0 <? 224)%N then
        match rest with
        | String c1 _ => if byte_between 128 191 c1 then Some 2%nat else None
        | _ => None
        end
      else if (b0 <? 240)%N then
        let lo := if (b0 =? 224)%N then 160%N else 128%N in
        let hi := if (b0 =? 237)%N then 159%N else 191%N in
        match rest with
        | String c1 (String c2 _) =>
            if byte_between lo hi c1 && byte_between 128 191 c2
            then Some 3%nat else None
        | _ => None
        end
      else if (b0 <? 245)%N then
        let lo := if (b0 =? 240)%N then 144%N else 128%N in
        let hi := if (b0 =? 244)%N then 143%N else 191%N in
        match rest with
        | String c1 (String c2 (String c3 _)) =>
            if byte_between lo hi c1 && byte_between 128 191 c2
               && byte_between 128 191 c3
            then Some 4%nat else None
        | _ => None
        end
      else None
  end.

(** The UTF-8 encoding of U+FFFD: the bytes EF BF BD. *)
Definition replacement_character : string :=
  String (Ascii.ascii_of_nat 239)
    (String (Ascii.ascii_of_nat 191) (String (Ascii.ascii_of_nat 189) EmptyString)).

(** [pending] counts the bytes still to copy of the encoding the walk is
    in. *)
Fixpoint json_string_from (pending : nat) (s : string) : string :=
  match s with
  | EmptyString => EmptyString
  | String c rest =>
      match pending with
      | S pending' => String c (json_string_from pending' rest)
      | O =>
          match utf8_width s with
          | Some width => String c (json_string_from (Nat.pred width) rest)
          | None => replacement_character +:+ json_string_from 0 rest
          end
      end
  end.

(** What [json.Unmarshal] reads back of a string [json.Marshal] wrote. *)
Definition json_string (s : string) : string := json_string_from 0 s.

(** [utf8.ValidString]. *)
Fixpoint utf8_valid_from (pending : nat) (s : string) : bool :=
  match s with
  | EmptyString => true
  | String c rest =>
      match pending with
      | S pending' => utf8_valid_from pending' rest
      | O =>
          match utf8_width s with
          | Some width => utf8_valid_from (Nat.pred width) rest
          | None => false
          end
      end
  end.

Definition utf8_ValidString (s : string) : bool := utf8_valid_from 0 s.

(** ** Package subs: the subscription engine *)

Module subs.

(** A [Client] is an interface value; the transports register pointers
    ([*TelnetConn], [*WebConn]), which Go compares and hashes by address.
    Only that identity matters to the engine's bookkeeping. *)
Definition Client : Type := positive.

(** The four callbacks of the [Client] interface, as the event a dispatch
    goroutine delivers to every registered client. *)
Inductive Notification : Type :=
  | OnUsersChanged
  | OnUserChanged (username : string)
  | OnChannelsChanged
  | OnChannelChanged (channelname : string).

Record clientInfo : Type := mkClientInfo { client : Client }.

(** [clients] is the Go map. [spawned] is ghost state: the dispatch
    goroutines started so far by the four triggers, oldest first. The Go
    engine keeps no such list; it is what makes "a notification was
    triggered" observable in a sequential model. *)
Record Engine : Type := mkEngine {
  clients : gmap Client clientInfo;
  spawned : list Notification
}.

Definition NewEngine : Engine :=
  {| clients := ∅; spawned := [] |}.

Definition Connect (c : Client) (e : Engine) : Engine * option error :=
  match clients e !! c with
  | Some _ => (e, Some (errors_New "Client already exists"))
  | None =>
      let newClient := {| client := c |} in
      ({| clients := <[c := newClient]> (clients e); spawned := spawned e |}, None)
  end.

Definition Disconnect (c : Client) (e : Engine) : Engine * option error :=
  match clients e !! c with
  | None => (e, Some (errors_New "Client doesn't exist"))
  | Some _ =>
      ({| clients := delete c (clients e); spawned := spawned e |}, None)
  end.

(** Each trigger only starts a goroutine and returns. *)
Definition go (n : Notification) (e : Engine) : Engine :=
  {| clients := clients e; spawned := spawned e ++ [n] |}.

Definition UsersChanged (e : Engine) : Engine := go OnUsersChanged e.
Definition UserChanged (username : string) (e : Engine) : Engine :=
  go (OnUserChanged username) e.
Definition ChannelsChanged (e : Engine) : Engine := go OnChannelsChanged e.
Definition ChannelChanged (channelname : string) (e : Engine) : Engine :=
  go (OnChannelChanged channelname) e.

(** The observers that are currently registered. *)
Definition registered (e : Engine) : gset Client := dom (clients e).

End subs.

(** ** Time and the wall clock

    [time.Time], the text [encoding/json] writes for a [time.Time] (its
    [MarshalJSON], RFC 3339 with nanoseconds) and
    [time.Parse(time.RFC3339, _)] belong to the Go standard library. They
    are parameters of the development. (Every time is taken to have a
    text; [MarshalJSON] refuses a year beyond 9999.) *)
Class Clock : Type := mkClock {
  Time : Type;
  time_Format : Time → string;
  time_Parse : string → option Time
}.

(** ** Package actions: the action log and the replay driver *)

Module actions.

(** A decoded JSON value, as [json.Unmarshal] stores it in an
    [interface{}]: [nil], [bool], [float64] (kept as its literal),
    [string], [[]interface{}] and [map[string]interface{}]. *)
#[local] Unset Elimination Schemes.
Inductive JSON : Type :=
  | JNull
  | JBool (b : bool)
  | JNumber (literal : string)
  | JString (s : string)
  | JArray (elements : list JSON)
  | JObject (fields : gmap string JSON).
#[local] Set Elimination Schemes.

Section WithClock.
Context `{Clock}.

(** The [Actor] interface. *)
Class Actor (A : Type) : Type := mkActor {
  CreateUser : string → A → A;
  DeleteUser : string → A → A;
  BlockUser : string → string → A → A;
  UnblockUser : string → string → A → A;
  CreateChannel : string → A → A;
  DeleteChannel : string → A → A;
  PostMessage : string → string → Time → string → A → A
}.

Record Action : Type := mkAction { Name : string; Timestamp : Time }.

(** The seven action structs; [commitAction] takes any of them as an
    [interface{}]. *)
Inductive ActionStruct : Type :=
  | CreateUserAction (action : Action) (Username : string)
  | DeleteUserAction (action : Action) (Username : string)
  | BlockUserAction (action : Action) (Username UsernameToBlock : string)
  | UnblockUserAction (action : Action) (Username UsernameToUnblock : string)
  | CreateChannelAction (action : Action) (Channelname : string)
  | DeleteChannelAction (action : Action) (Channelname : string)
  | PostMessageAction (action : Action) (Channelname Username : string)
      (timestamp : Time) (Text : string).

(** What [json.Unmarshal] reads back from the text [json.Marshal] writes
    for an action struct: one key per exported field, a string as
    [json_string] has it, a time as its text. *)
Definition json_of_Action (a : Action) : JSON :=
  JObject {[ "Name" := JString (json_string (Name a));
             "Timestamp" := JString (time_Format (Timestamp a)) ]}.

Definition json_Marshal (a : ActionStruct) : gmap string JSON :=
  match a with
  | CreateUserAction act username =>
      {[ "Action" := json_of_Action act;
         "Username" := JString (json_string username) ]}
  | DeleteUserAction act username =>
      {[ "Action" := json_of_Action act;
         "Username" := JString (json_string username) ]}
  | BlockUserAction act username usernameToBlock =>
      {[ "Action" := json_of_Action act;
         "Username" := JString (json_string username);
         "UsernameToBlock" := JString (json_string usernameToBlock) ]}
  | UnblockUserAction act username usernameToUnblock =>
      {[ "Action" := json_of_Action act;
         "Username" := JString (json_string username);
         "UsernameToUnblock" := JString (json_string usernameToUnblock) ]}
  | CreateChannelAction act channelname =>
      {[ "Action" := json_of_Action act;
         "Channelname" := JString (json_string channelname) ]}
  | DeleteChannelAction act channelname =>
      {[ "Action" := json_of_Action act;
         "Channelname" := JString (json_string channelname) ]}
  | PostMessageAction act channelname username timestamp text =>
      {[ "Action" := json_of_Action act;
         "Channelname" := JString (json_string channelname);
         "Username" := JString (json_string username);
         "Timestamp" := JString (time_Format timestamp);
         "Text" := JString (json_string text) ]}
  end.

(** *** The log file

    What [json.Unmarshal(wholeFile, &result)] makes of a file, with
    [result] of type [[]map[string]interface{}]: an error, or the maps (a
    [null] entry of the array is a nil map, which has no key and is the
    empty map here). *)
Inductive FileContent : Type :=
  | Malformed
  | Sequence (result : list (gmap string JSON)).

(** The log file is a text. [Replay] reads the whole of it, and
    [commitAction] writes over it from two bytes before its end. Of a
    file of two bytes or more, what the two find there is kept:
    - [whole], the result of [json.Unmarshal] on the file;
    - [before_tail], the entries (there is at least one) of the text
      that is left of the file without its last two bytes, when that text
      is a JSON array of objects still open after an entry (["[\n{}"] of
      the file ["[\n{}\n]"]), and [None] when it is anything else (["[{"]
      of the file ["[{}]"], the empty text of the file ["[]"]).
    A file of one byte is [Short]; [json.Unmarshal] makes a slice of maps
    of no such file. *)
Inductive LogFile : Type :=
  | Short
  | Text (whole : FileContent) (before_tail : option (list (gmap string JSON))).

Definition file_content (file : LogFile) : FileContent :=
  match file with
  | Short => Malformed
  | Text whole _ => whole
  end.

(** The text ["[\n{}\n]"]: an array holding one empty object. *)
Definition initial_file : LogFile := Text (Sequence [∅]) (Some [∅]).

(** *** Logger

    A [Logger] holds the path of the log file. Its state here is the file
    at that path, the readings [time.Now] returns in this process, one
    after the other, with the number of them read so far, and whether
    [log.Fatal] has ended the process (after which nothing that a store
    with this logger is made to do here has a counterpart in the code). *)
Record Logger : Type := mkLogger {
  logFile : LogFile;
  wallclock : nat → Time;
  reads : nat;
  exited : bool
}.

(** [NewLogger]: a missing or empty file is initialised to the text
    ["[\n{}\n]"]; any other file is left as it is. ([None] is a missing
    or empty file.) *)
Definition NewLogger (existing : option LogFile) (wallclock : nat → Time)
  : Logger :=
  {| logFile :=
       match existing with
       | None => initial_file
       | Some file => file
       end;
     wallclock := wallclock;
     reads := 0;
     exited := false |}.

(** [commitAction] seeks to two bytes before the end of the file and
    writes [",\n"], the text of the action and ["\n]"] there. On a file
    of one byte the seek fails and [log.Fatal] ends the process. On any
    other file the text that was there up to its last two bytes is now
    followed by a comma, one more object and a closing bracket: when that
    text was an array open after an entry the file is that array with
    one more entry, and otherwise it is no JSON text. *)
Definition commitAction (action : ActionStruct) (l : Logger) : Logger :=
  match logFile l with
  | Short =>
      {| logFile := Short; wallclock := wallclock l; reads := reads l;
         exited := true |}
  | Text _ before_tail =>
      let written :=
        (λ entries, (entries ++ [json_Marshal action])%list) <$> before_tail in
      {| logFile :=
           Text
             match written with
             | Some entries => Sequence entries
             | None => Malformed
             end
             written;
         wallclock := wallclock l;
         reads := reads l;
         exited := exited l |}
  end.

(** [time.Now()]: the next reading of the wall clock, and the logger once
    it is read. *)
Definition now (l : Logger) : Time := wallclock l (reads l).

Definition tick (l : Logger) : Logger :=
  {| logFile := logFile l; wallclock := wallclock l; reads := S (reads l);
     exited := exited l |}.

Definition Logger_CreateUser (username : string) (l : Logger) : Logger :=
  commitAction
    (CreateUserAction {| Name := "CreateUser"; Timestamp := now l |} username)
    (tick l).

Definition Logger_DeleteUser (username : string) (l : Logger) : Logger :=
  commitAction
    (DeleteUserAction {| Name := "DeleteUser"; Timestamp := now l |} username)
    (tick l).

Definition Logger_BlockUser (username usernameToBlock : string) (l : Logger)
  : Logger :=
  commitAction
    (BlockUserAction {| Name := "BlockUser"; Timestamp := now l |}
       username usernameToBlock) (tick l).

Definition Logger_UnblockUser (username usernameToUnblock : string) (l : Logger)
  : Logger :=
  commitAction
    (UnblockUserAction {| Name := "UnblockUser"; Timestamp := now l |}
       username usernameToUnblock) (tick l).

Definition Logger_CreateChannel (channelname : string) (l : Logger) : Logger :=
  commitAction
    (CreateChannelAction {| Name := "CreateChannel"; Timestamp := now l |}
       channelname) (tick l).

Definition Logger_DeleteChannel (channelname : string) (l : Logger) : Logger :=
  commitAction
    (DeleteChannelAction {| Name := "DeleteChannel"; Timestamp := now l |}
       channelname) (tick l).

Definition Logger_PostMessage (channelname username : string) (timestamp : Time)
    (text : string) (l : Logger) : Logger :=
  commitAction
    (PostMessageAction {| Name := "PostMessage"; Timestamp := now l |}
       channelname username timestamp text) (tick l).

#[global] Instance Logger_Actor : Actor Logger := {|
  CreateUser := Logger_CreateUser;
  DeleteUser := Logger_DeleteUser;
  BlockUser := Logger_BlockUser;
  UnblockUser := Logger_UnblockUser;
  CreateChannel := Logger_CreateChannel;
  DeleteChannel := Logger_DeleteChannel;
  PostMessage := Logger_PostMessage
|}.

(** *** Replayer *)

(** A [Replayer] holds the path of the log file; [Replay] reads the file
    and decodes it. Its state here is what [json.Unmarshal] makes of the
    file. *)
Record Replayer : Type := mkReplayer { wholeFile : FileContent }.

(** [NewReplayer] on a file that is there and not empty. *)
Definition NewReplayer (file : LogFile) : Replayer :=
  {| wholeFile := file_content file |}.

Definition invalid (what : string) : option error :=
  Some (errors_New ("invalid input log file - " +:+ what)).

(** The pair of checks every payload field goes through: the key is
    present, and its value is a string. *)
Definition string_field (action : gmap string JSON) (kind field : string)
  : string + option error :=
  match action !! field with
  | None => inr (invalid (kind +:+ " - missing " +:+ field))
  | Some (JString s) => inl s
  | Some _ => inr (invalid (kind +:+ " - " +:+ field +:+ " not a string"))
  end.

(** The name Go prints for the dynamic type of a decoded value. *)
Definition dynamic_type (v : JSON) : string :=
  match v with
  | JNull => "nil"
  | JBool _ => "bool"
  | JNumber _ => "float64"
  | JString _ => "string"
  | JArray _ => "[]interface {}"
  | JObject _ => "map[string]interface {}"
  end.

(** The value a failed [x.(map[string]interface{})] panics with. *)
Definition conversion_panic (v : JSON) : string :=
  "interface conversion: interface {} is " +:+ dynamic_type v
  +:+ ", not map[string]interface {}".

Section Replay.
Context {A : Type} `{Actor A}.

Definition parseCreateUser (action : gmap string JSON) (actor : A)
  : A * completion (option error) :=
  match string_field action "CreateUser" "Username" with
  | inr err => (actor, Return err)
  | inl username => (CreateUser username actor, Return None)
  end.

Definition parseDeleteUser (action : gmap string JSON) (actor : A)
  : A * completion (option error) :=
  match string_field action "DeleteUser" "Username" with
  | inr err => (actor, Return err)
  | inl username => (DeleteUser username actor, Return None)
  end.

Definition parseBlockUser (action : gmap string JSON) (actor : A)
  : A * completion (option error) :=
  match string_field action "BlockUser" "Username" with
  | inr err => (actor, Return err)
  | inl username =>
      match string_field action "BlockUser" "UsernameToBlock" with
      | inr err => (actor, Return err)
      | inl usernameToBlock =>
          (BlockUser username usernameToBlock actor, Return None)
      end
  end.

Definition parseUnblockUser (action : gmap string JSON) (actor : A)
  : A * completion (option error) :=
  match string_field action "UnblockUser" "Username" with
  | inr err => (actor, Return err)
  | inl username =>
      match string_field action "UnblockUser" "UsernameToUnblock" with
      | inr err => (actor, Return err)
      | inl usernameToUnblock =>
          (UnblockUser username usernameToUnblock actor, Return None)
      end
  end.

Definition parseCreateChannel (action : gmap string JSON) (actor : A)
  : A * completion (option error) :=
  match string_field action "CreateChannel" "Channelname" with
  | inr err => (actor, Return err)
  | inl channelname => (CreateChannel channelname actor, Return None)
  end.

Definition parseDeleteChannel (action : gmap string JSON) (actor : A)
  : A * completion (option error) :=
  match string_field action "DeleteChannel" "Channelname" with
  | inr err => (actor, Return err)
  | inl channelname => (DeleteChannel channelname actor, Return None)
  end.

Definition parsePostMessage (action : gmap string JSON) (actor : A)
  : A * completion (option error) :=
  match string_field action "PostMessage" "Channelname" with
  | inr err => (actor, Return err)
  | inl channelname =>
  match string_field action "PostMessage" "Username" with
  | inr err => (actor, Return err)
  | inl username =>
  match string_field action "PostMessage" "Timestamp" with
  | inr err => (actor, Return err)
  | inl timestampString =>
  match time_Parse timestampString with
  | None => (actor, Return (Some (errors_New "parsing time")))
  | Some timestamp =>
  match string_field action "PostMessage" "Text" with
  | inr err => (actor, Return err)
  | inl text =>
      (PostMessage channelname username timestamp text actor, Return None)
  end end end end end.

(** [parseAction]. The envelope is read with the one-result form of the
    type assertion, [x.(map[string]interface{})] with [x] the value under
    the key "Action", which panics when [x] is anything but an object. *)
Definition parseAction (action : gmap string JSON) (actor : A)
  : A * completion (option error) :=
  match action !! "Action" with
  | None => (actor, Return (invalid "action not found"))
  | Some (JObject actionStruct) =>
      match actionStruct !! "Name" with
      | None => (actor, Return (invalid "name not found"))
      | Some (JString actionName) =>
          if decide (actionName = "CreateUser") then parseCreateUser action actor
          else if decide (actionName = "DeleteUser") then parseDeleteUser action actor
          else if decide (actionName = "BlockUser") then parseBlockUser action actor
          else if decide (actionName = "UnblockUser") then parseUnblockUser action actor
          else if decide (actionName = "CreateChannel") then parseCreateChannel action actor
          else if decide (actionName = "DeleteChannel") then parseDeleteChannel action actor
          else if decide (actionName = "PostMessage") then parsePostMessage action actor
          else (actor, Return (invalid "unknown action"))
      | Some _ => (actor, Return (invalid "name not string"))
      end
  | Some v => (actor, Panic (conversion_panic v))
  end.

(** The loop of [Replay] over the decoded entries. *)
Fixpoint replay_entries (result : list (gmap string JSON)) (actor : A)
  : A * completion (option error) :=
  match result with
  | [] => (actor, Return None)
  | action :: rest =>
      if Nat.eqb (size action) 0 then replay_entries rest actor
      else
        match parseAction action actor with
        | (actor', Return None) => replay_entries rest actor'
        | stopped => stopped
        end
  end.

(** [Replay]. The actor is updated in place, so the state it has reached
    is returned next to the way the call ended. *)
Definition Replay (r : Replayer) (actor : A) : A * completion (option error) :=
  match wholeFile r with
  | Malformed => (actor, Return (invalid "malformed json"))
  | Sequence result => replay_entries result actor
  end.

End Replay.

(** *** The shape of a record, in the words of the log format

    The payload fields of each action kind. *)
Definition payload_fields (kind : string) : option (list string) :=
  if decide (kind = "CreateUser") then Some ["Username"]
  else if decide (kind = "DeleteUser") then Some ["Username"]
  else if decide (kind = "BlockUser") then Some ["Username"; "UsernameToBlock"]
  else if decide (kind = "UnblockUser") then Some ["Username"; "UsernameToUnblock"]
  else if decide (kind = "CreateChannel") then Some ["Channelname"]
  else if decide (kind = "DeleteChannel") then Some ["Channelname"]
  else if decide (kind = "PostMessage")
       then Some ["Channelname"; "Username"; "Timestamp"; "Text"]
  else None.

(** A payload field is there and has the right type: a string, and for
    the timestamp a string that parses as a time. *)
Definition field_typed (action : gmap string JSON) (field : string) : Prop :=
  match action !! field with
  | Some (JString s) => field = "Timestamp" → is_Some (time_Parse s)
  | _ => False
  end.

(** A record has the action envelope, a known kind, and the payload of
    that kind. *)
Definition well_formed (action : gmap string JSON) : Prop :=
  match action !! "Action" with
  | Some (JObject envelope) =>
      match envelope !! "Name" with
      | Some (JString kind) =>
          match payload_fields kind with
          | Some fields => Forall (field_typed action) fields
          | None => False
          end
      | _ => False
      end
  | _ => False
  end.

(** Whatever a record holds under "Action" is an object. *)
Definition envelope_is_object (action : gmap string JSON) : Prop :=
  match action !! "Action" with
  | Some (JObject _) | None => True
  | Some _ => False
  end.

End WithClock.
End actions.

(** ** Package model: the state store *)

Module model.

Section WithClock.
Context `{Clock}.

Record User : Type := mkUser {
  Name : string;
  BlockedUsers : list string
}.

Record Message : Type := mkMessage {
  Username : string;
  Timestamp : Time;
  Text : string
}.

Record ChannelInfo : Type := mkChannelInfo {
  InfoName : string;
  NumMessages : Z
}.

Record Channel : Type := mkChannel {
  ChannelName : string;
  Messages : list Message
}.

(** The store. [actionsLogger] and [subsEngine] are interface values and
    may be nil; the server passes an [actions.Logger] and a [subs.Engine].
    The maps hold pointers to users and channels, one per key, which no
    other key shares; an update through such a pointer is an update of the
    entry. *)
Record Model : Type := mkModel {
  actionsLogger : option actions.Logger;
  subsEngine : option subs.Engine;
  users : gmap string User;
  channels : gmap string Channel
}.

(** The two blocks that close every mutation:
    [if m.actionsLogger != nil { m.actionsLogger.F(args) }] and
    [if m.subsEngine != nil { m.subsEngine.G(args) }]. *)
Definition logged (f : actions.Logger → actions.Logger) (m : Model) : Model :=
  {| actionsLogger :=
       match actionsLogger m with
       | Some l => Some (f l)
       | None => None
       end;
     subsEngine := subsEngine m;
     users := users m;
     channels := channels m |}.

Definition notified (g : subs.Engine → subs.Engine) (m : Model) : Model :=
  {| actionsLogger := actionsLogger m;
     subsEngine :=
       match subsEngine m with
       | Some e => Some (g e)
       | None => None
       end;
     users := users m;
     channels := channels m |}.

Definition set_users (us : gmap string User) (m : Model) : Model :=
  {| actionsLogger := actionsLogger m;
     subsEngine := subsEngine m;
     users := us;
     channels := channels m |}.

Definition set_channels (cs : gmap string Channel) (m : Model) : Model :=
  {| actionsLogger := actionsLogger m;
     subsEngine := subsEngine m;
     users := users m;
     channels := cs |}.

Definition CreateUser (username : string) (m : Model) : Model :=
  match users m !! username with
  | Some _ => m
  | None =>
      if decide (username = "") then m
      else if strings_Contains username " " then m
      else
        let newUser := {| Name := username; BlockedUsers := [] |} in
        let m := set_users (<[Name newUser := newUser]> (users m)) m in
        let m := logged (actions.CreateUser username) m in
        notified subs.UsersChanged m
  end.

(** The body of the loop of [DeleteUser] over the remaining users. *)
Definition unblock_deleted (username : string) (user : User) : User :=
  let removalIndex := slice_index (BlockedUsers user) username in
  if decide (removalIndex ≠ -1)
  then {| Name := Name user;
          BlockedUsers := slice_remove_at (BlockedUsers user) removalIndex |}
  else user.

Definition DeleteUser (username : string) (m : Model) : Model :=
  match users m !! username with
  | None => m
  | Some _ =>
      if decide (username = "Anonymous") then m
      else
        let m := set_users (delete username (users m)) m in
        let m := set_users (unblock_deleted username <$> users m) m in
        let m := logged (actions.DeleteUser username) m in
        notified subs.UsersChanged m
  end.

Definition GetUserInfo (username : string) (m : Model) : User :=
  match users m !! username with
  | None => {| Name := ""; BlockedUsers := [] |}
  | Some user => {| Name := Name user; BlockedUsers := BlockedUsers user |}
  end.

Definition GetUsers (m : Model) : gset string :=
  list_to_set (Name <$> (map_to_list (users m)).*2).

Definition BlockUser (username usernameToBlock : string) (m : Model) : Model :=
  match users m !! username with
  | None => m
  | Some user =>
      match users m !! usernameToBlock with
      | None => m
      | Some _ =>
          if decide (username = "Anonymous") then m
          else if decide (username = usernameToBlock) then m
          else
            let found := slice_contains (BlockedUsers user) usernameToBlock in
            let m :=
              if found then m
              else
                set_users
                  (<[username :=
                       {| Name := Name user;
                          BlockedUsers := BlockedUsers user ++ [usernameToBlock] |}]>
                     (users m)) m in
            let m := logged (actions.BlockUser username usernameToBlock) m in
            notified (subs.UserChanged username) m
      end
  end.

Definition UnblockUser (username usernameToUnblock : string) (m : Model) : Model :=
  match users m !! username with
  | None => m
  | Some user =>
      match users m !! usernameToUnblock with
      | None => m
      | Some _ =>
          let foundIndex := slice_index (BlockedUsers user) usernameToUnblock in
          let m :=
            if decide (foundIndex ≠ -1)
            then
              set_users
                (<[username :=
                     {| Name := Name user;
                        BlockedUsers :=
                          slice_remove_at (BlockedUsers user) foundIndex |}]>
                   (users m)) m
            else m in
          let m := logged (actions.UnblockUser username usernameToUnblock) m in
          notified (subs.UserChanged username) m
      end
  end.

Definition CreateChannel (channelname : string) (m : Model) : Model :=
  match channels m !! channelname with
  | Some _ => m
  | None =>
      if decide (channelname = "") then m
      else if strings_Contains channelname " " then m
      else
        let newChannel := {| ChannelName := channelname; Messages := [] |} in
        let m := set_channels (<[channelname := newChannel]> (channels m)) m in
        let m := logged (actions.CreateChannel channelname) m in
        notified subs.ChannelsChanged m
  end.

Definition DeleteChannel (channelname : string) (m : Model) : Model :=
  match channels m !! channelname with
  | None => m
  | Some _ =>
      if decide (channelname = "General") then m
      else
        let m := set_channels (delete channelname (channels m)) m in
        let m := logged (actions.DeleteChannel channelname) m in
        notified subs.ChannelsChanged m
  end.

Definition GetChannelInfo (channelname : string) (m : Model) : ChannelInfo :=
  match channels m !! channelname with
  | None => {| InfoName := ""; NumMessages := 0 |}
  | Some channel =>
      {| InfoName := ChannelName channel; NumMessages := len (Messages channel) |}
  end.

(** The copying loop of [GetChannelHistory], over the messages from
    [startingMessageIndex] on. *)
Fixpoint copy_messages (blockedUsers : list string) (messages : list Message)
  : list Message :=
  match messages with
  | [] => []
  | message :: rest =>
      let fromBlockedUser := slice_contains blockedUsers (Username message) in
      if fromBlockedUser then copy_messages blockedUsers rest
      else message :: copy_messages blockedUsers rest
  end.

Definition GetChannelHistory (channelname username : string) (numMessages : Z)
    (m : Model) : list Message :=
  match channels m !! channelname with
  | None => []
  | Some channel =>
      match users m !! username with
      | None => []
      | Some user =>
          let startingMessageIndex := int_sub (len (Messages channel)) numMessages in
          let startingMessageIndex :=
            if startingMessageIndex <? 0 then 0 else startingMessageIndex in
          let startingMessageIndex :=
            if numMessages =? -1 then 0 else startingMessageIndex in
          copy_messages (BlockedUsers user)
            (drop (Z.to_nat startingMessageIndex) (Messages channel))
      end
  end.

Definition GetChannels (m : Model) : gset string :=
  list_to_set (ChannelName <$> (map_to_list (channels m)).*2).

Definition PostMessage (channelname username : string) (timestamp : Time)
    (text : string) (m : Model) : Model :=
  match channels m !! channelname with
  | None => m
  | Some channel =>
      match users m !! username with
      | None => m
      | Some _ =>
          if Nat.eqb (String.length text) 0 then m
          else
            let newMessage :=
              {| Username := username; Timestamp := timestamp; Text := text |} in
            let m :=
              set_channels
                (<[channelname :=
                     {| ChannelName := ChannelName channel;
                        Messages := Messages channel ++ [newMessage] |}]>
                   (channels m)) m in
            let m := logged (actions.PostMessage channelname username timestamp text) m in
            notified (subs.ChannelChanged channelname) m
      end
  end.

(** [*Model] implements [actions.Actor]; this is what lets the replayer
    drive a store. *)
#[global] Instance Model_Actor : actions.Actor Model := {|
  actions.CreateUser := CreateUser;
  actions.DeleteUser := DeleteUser;
  actions.BlockUser := BlockUser;
  actions.UnblockUser := UnblockUser;
  actions.CreateChannel := CreateChannel;
  actions.DeleteChannel := DeleteChannel;
  actions.PostMessage := PostMessage
|}.

(** [model.actionsLogger = nil; model.subsEngine = nil] and the two
    assignments that undo it. *)
Definition detach (m : Model) : Model :=
  {| actionsLogger := None; subsEngine := None;
     users := users m; channels := channels m |}.

Definition attach (actionsLogger : option actions.Logger)
    (subsEngine : option subs.Engine) (m : Model) : Model :=
  {| actionsLogger := actionsLogger; subsEngine := subsEngine;
     users := users m; channels := channels m |}.

(** [NewModel] returns a pointer to the store and an error. Without a
    replayer the store is seeded through its own operations; with one,
    logging and notification are switched off while the log is replayed
    onto the empty store. *)
Definition NewModel (actionsReplayer : option actions.Replayer)
    (actionsLogger : option actions.Logger) (subsEngine : option subs.Engine)
  : completion (option Model * option error) :=
  let model :=
    {| actionsLogger := actionsLogger; subsEngine := subsEngine;
       users := ∅; channels := ∅ |} in
  match actionsReplayer with
  | None =>
      let model := CreateUser "Anonymous" model in
      let model := CreateChannel "General" model in
      Return (Some model, None)
  | Some replayer =>
      let model := detach model in
      match actions.Replay replayer model with
      | (_, Panic reason) => Panic reason
      | (_, Return (Some err)) => Return (None, Some err)
      | (model, Return None) =>
          Return (Some (attach actionsLogger subsEngine model), None)
      end
  end.

(** *** Call sequences

    A transport calls the mutations of the store one after the other; a
    sequence of such calls is a list of [Call]s. The queries return a
    value and leave the store as it is, so they have no place in it. *)
Inductive Call : Type :=
  | CallCreateUser (username : string)
  | CallDeleteUser (username : string)
  | CallBlockUser (username usernameToBlock : string)
  | CallUnblockUser (username usernameToUnblock : string)
  | CallCreateChannel (channelname : string)
  | CallDeleteChannel (channelname : string)
  | CallPostMessage (channelname username : string) (timestamp : Time)
      (text : string).

Definition call (c : Call) (m : Model) : Model :=
  match c with
  | CallCreateUser username => CreateUser username m
  | CallDeleteUser username => DeleteUser username m
  | CallBlockUser username usernameToBlock => BlockUser username usernameToBlock m
  | CallUnblockUser username usernameToUnblock =>
      UnblockUser username usernameToUnblock m
  | CallCreateChannel channelname => CreateChannel channelname m
  | CallDeleteChannel channelname => DeleteChannel channelname m
  | CallPostMessage channelname username timestamp text =>
      PostMessage channelname username timestamp text m
  end.

Definition calls (cs : list Call) (m : Model) : Model :=
  fold_left (λ m c, call c m) cs m.

(** *** Calls and the log

    [read_back t t']: the text [json.Marshal] writes for [t] parses, and
    [t'] is the time [time.Parse] makes of it. *)
Definition read_back (t t' : Time) : Prop :=
  time_Parse (time_Format t) = Some t'.

Definition reread (t : Time) : Time :=
  default t (time_Parse (time_Format t)).

(** The text written for the timestamp a call carries parses. *)
Definition timestamp_parses (c : Call) : Prop :=
  match c with
  | CallPostMessage _ _ timestamp _ => is_Some (time_Parse (time_Format timestamp))
  | _ => True
  end.

(** The timestamp a call carries is read back from the log as it was
    written: [time.Parse] of the text [json.Marshal] wrote for it gives the
    same time. *)
Definition timestamp_survives (c : Call) : Prop :=
  match c with
  | CallPostMessage _ _ timestamp _ =>
      time_Parse (time_Format timestamp) = Some timestamp
  | _ => True
  end.

(** The names and texts a call carries. *)
Definition strings_of (c : Call) : list string :=
  match c with
  | CallCreateUser username | CallDeleteUser username => [username]
  | CallBlockUser username usernameToBlock => [username; usernameToBlock]
  | CallUnblockUser username usernameToUnblock => [username; usernameToUnblock]
  | CallCreateChannel channelname | CallDeleteChannel channelname => [channelname]
  | CallPostMessage channelname username _ text => [channelname; username; text]
  end.

(** The names and texts of a call are valid UTF-8. *)
Definition strings_valid (c : Call) : Prop :=
  Forall (λ s, utf8_ValidString s = true) (strings_of c).

(** The call as the replayer reads it from the record the logger wrote
    for it. *)
Definition as_logged (c : Call) : Call :=
  match c with
  | CallCreateUser username => CallCreateUser (json_string username)
  | CallDeleteUser username => CallDeleteUser (json_string username)
  | CallBlockUser username usernameToBlock =>
      CallBlockUser (json_string username) (json_string usernameToBlock)
  | CallUnblockUser username usernameToUnblock =>
      CallUnblockUser (json_string username) (json_string usernameToUnblock)
  | CallCreateChannel channelname => CallCreateChannel (json_string channelname)
  | CallDeleteChannel channelname => CallDeleteChannel (json_string channelname)
  | CallPostMessage channelname username timestamp text =>
      CallPostMessage (json_string channelname) (json_string username)
        (reread timestamp) (json_string text)
  end.

(** Two calls that differ at most in the timestamp they carry, the two
    timestamps being related by [T]. *)
Definition same_call (T : Time → Time → Prop) (c c' : Call) : Prop :=
  match c, c' with
  | CallPostMessage channelname username timestamp text,
    CallPostMessage channelname' username' timestamp' text' =>
      channelname = channelname' ∧ username = username' ∧ text = text'
      ∧ T timestamp timestamp'
  | CallPostMessage _ _ _ _, _ | _, CallPostMessage _ _ _ _ => False
  | _, _ => c = c'
  end.

(** Two stores with the same users and blocked-sets and the same
    channels, holding messages by the same authors with the same texts in
    the same order, the timestamps of each two being related by [T]. *)
Definition same_message (T : Time → Time → Prop) (a b : Message) : Prop :=
  Username a = Username b ∧ Text a = Text b ∧ T (Timestamp a) (Timestamp b).

Definition same_channel (T : Time → Time → Prop) (a b : Channel) : Prop :=
  ChannelName a = ChannelName b
  ∧ Forall2 (same_message T) (Messages a) (Messages b).

Definition same_state (T : Time → Time → Prop) (m1 m2 : Model) : Prop :=
  users m1 = users m2
  ∧ ∀ name,
      option_Forall2 (same_channel T) (channels m1 !! name) (channels m2 !! name).

(** The store [NewModel(nil, actionsLogger, subsEngine)] returns. *)
Definition seeded (actionsLogger : option actions.Logger)
    (subsEngine : option subs.Engine) : Model :=
  CreateChannel "General"
    (CreateUser "Anonymous"
       {| actionsLogger := actionsLogger; subsEngine := subsEngine;
          users := ∅; channels := ∅ |}).

(** The log file of the store, when a logger is attached. *)
Definition log_file (m : Model) : option actions.LogFile :=
  actions.logFile <$> actionsLogger m.

(** The records the log file of the store holds, and the notifications
    the store has triggered ([[]] when no logger or engine is attached, or
    the file holds no sequence of records). *)
Definition log_of (m : Model) : list (gmap string actions.JSON) :=
  match log_file m with
  | Some (actions.Text (actions.Sequence entries) _) => entries
  | _ => []
  end.

Definition triggered (m : Model) : list subs.Notification :=
  match subsEngine m with
  | Some e => subs.spawned e
  | None => []
  end.

(** The blocked-set of a user, empty when the user is unknown. *)
Definition blocked (m : Model) (username : string) : list string :=
  match users m !! username with
  | Some user => BlockedUsers user
  | None => []
  end.

(** The store the replayer starts from. *)
Definition blank : Model :=
  {| actionsLogger := None; subsEngine := None; users := ∅; channels := ∅ |}.

(** The log file of a store is an array the logger can extend, and it
    replays to a store without logger and engine that is the same as this
    one, the timestamps being related by [T]. *)
Definition in_step_with_log (T : Time → Time → Prop) (m : Model) : Prop :=
  ∃ entries replayed,
    log_file m = Some (actions.Text (actions.Sequence entries) (Some entries))
    ∧ actions.replay_entries entries blank = (replayed, Return None)
    ∧ actionsLogger replayed = None
    ∧ subsEngine replayed = None
    ∧ same_state T m replayed.

(** No name occurs twice in a blocked-set. *)
Definition blocked_sets_distinct (m : Model) : Prop :=
  ∀ name user, users m !! name = Some user → NoDup (BlockedUsers user).

(** The stores a process can hold: what [NewModel] returned, and what the
    calls made since have turned it into. *)
Inductive reachable : Model → Prop :=
  | reachable_new replayer logger engine m :
      NewModel replayer logger engine = Return (Some m, None) → reachable m
  | reachable_call c m :
      reachable m → reachable (call c m).

End WithClock.
End model.

(** ** Concrete inputs *)

(** A clock to run the definitions on concrete inputs: a time is its own
    text. *)
Definition text_clock : Clock :=
  {| Time := string;
     time_Format := λ t, t;
     time_Parse := λ s, Some s |}.

(** A wall clock that reads ["2020-01-01T00:00:00Z"] whenever it is
    asked. *)
Definition stopped_wallclock : nat → string := λ _, "2020-01-01T00:00:00Z".

(** A clock whose times carry, as those [time.Now] returns do, a reading
    of the monotonic clock next to the wall time; the text of a time is
    that of its wall time, and a time parsed from a text has no such
    reading. *)
Definition monotonic_clock : Clock :=
  {| Time := string * option nat;
     time_Format := fst;
     time_Parse := λ s, Some (s, None) |}.

(** A wall clock of that kind, and a time it has returned. *)
Definition monotonic_wallclock : nat → string * option nat :=
  λ n, ("2020-01-01T00:00:00Z", Some n).

Definition monotonic_reading : string * option nat :=
  ("2020-01-01T00:00:01Z", Some 1%nat).

(** A name of one byte, [0xFF], which is not valid UTF-8. *)
Definition invalid_name : string :=
  String (Ascii.ascii_of_nat 255) EmptyString.

Section ConcreteInputs.
#[local] Existing Instance text_clock.

(** A fresh store that logs to a new file and notifies a new engine. *)
Definition fresh_store : model.Model :=
  model.seeded (Some (actions.NewLogger None stopped_wallclock))
    (Some subs.NewEngine).

(** The scenario of the specification: alice joins, opens "dev", alice
    and Anonymous each post there, and alice blocks Anonymous. *)
Definition dev_scenario : list model.Call :=
  [ model.CallCreateUser "alice";
    model.CallCreateChannel "dev";
    model.CallPostMessage "dev" "alice" "2020-01-01T00:00:01Z" "hi";
    model.CallPostMessage "dev" "Anonymous" "2020-01-01T00:00:02Z" "yo";
    model.CallBlockUser "alice" "Anonymous" ].

Definition dev_store : model.Model :=
  model.calls dev_scenario fresh_store.

Definition dev_channel : model.Channel :=
  {| model.ChannelName := "dev";
     model.Messages :=
       [ {| model.Username := "alice"; model.Timestamp := "2020-01-01T00:00:01Z";
            model.Text := "hi" |};
         {| model.Username := "Anonymous"; model.Timestamp := "2020-01-01T00:00:02Z";
            model.Text := "yo" |} ] |}.

Definition alice : model.User :=
  {| model.Name := "alice"; model.BlockedUsers := ["Anonymous"] |}.

Definition Anonymous : model.User :=
  {| model.Name := "Anonymous"; model.BlockedUsers := [] |}.

(** After the scenario, bob joins and blocks alice. *)
Definition cascade_store : model.Model :=
  model.calls [model.CallCreateUser "bob"; model.CallBlockUser "bob" "alice"]
    dev_store.

End ConcreteInputs.

(** The tab character, and a name that holds one. *)
Definition tab : Ascii.ascii := Ascii.ascii_of_nat 9.

Definition tabbed_name : string := "a" +:+ String tab "b".

(** ** Vocabulary of the specification *)

(** "Whitespace": the ASCII white space characters, as [unicode.IsSpace]
    has them (tab, line feed, vertical tab, form feed, carriage return,
    space). *)
Definition is_whitespace (c : Ascii.ascii) : bool :=
  let n := Ascii.nat_of_ascii c in
  ((Nat.leb 9 n) && (Nat.leb n 13)) || Nat.eqb n 32.

Fixpoint contains_whitespace (s : string) : bool :=
  match s with
  | EmptyString => false
  | String c s' => is_whitespace c || contains_whitespace s'
  end.

(** ** Calls on any actor, sessions and restarts *)

Section Sessions.
Context `{Clock}.

(** A call made on any implementation of the [Actor] interface. *)
Definition perform {A : Type} `{!actions.Actor A} (c : model.Call) (actor : A) : A :=
  match c with
  | model.CallCreateUser username => actions.CreateUser username actor
  | model.CallDeleteUser username => actions.DeleteUser username actor
  | model.CallBlockUser username usernameToBlock =>
      actions.BlockUser username usernameToBlock actor
  | model.CallUnblockUser username usernameToUnblock =>
      actions.UnblockUser username usernameToUnblock actor
  | model.CallCreateChannel channelname => actions.CreateChannel channelname actor
  | model.CallDeleteChannel channelname => actions.DeleteChannel channelname actor
  | model.CallPostMessage channelname username timestamp text =>
      actions.PostMessage channelname username timestamp text actor
  end.

Definition performs {A : Type} `{!actions.Actor A} (cs : list model.Call)
    (actor : A) : A :=
  fold_left (λ actor c, perform c actor) cs actor.

(** The action struct the logger builds for a call, stamped with the
    reading of the wall clock. *)
Definition action_of (c : model.Call) (stamp : Time) : actions.ActionStruct :=
  match c with
  | model.CallCreateUser username =>
      actions.CreateUserAction
        {| actions.Name := "CreateUser"; actions.Timestamp := stamp |} username
  | model.CallDeleteUser username =>
      actions.DeleteUserAction
        {| actions.Name := "DeleteUser"; actions.Timestamp := stamp |} username
  | model.CallBlockUser username usernameToBlock =>
      actions.BlockUserAction
        {| actions.Name := "BlockUser"; actions.Timestamp := stamp |}
        username usernameToBlock
  | model.CallUnblockUser username usernameToUnblock =>
      actions.UnblockUserAction
        {| actions.Name := "UnblockUser"; actions.Timestamp := stamp |}
        username usernameToUnblock
  | model.CallCreateChannel channelname =>
      actions.CreateChannelAction
        {| actions.Name := "CreateChannel"; actions.Timestamp := stamp |} channelname
  | model.CallDeleteChannel channelname =>
      actions.DeleteChannelAction
        {| actions.Name := "DeleteChannel"; actions.Timestamp := stamp |} channelname
  | model.CallPostMessage channelname username timestamp text =>
      actions.PostMessageAction
        {| actions.Name := "PostMessage"; actions.Timestamp := stamp |}
        channelname username timestamp text
  end.

(** The notification each mutation of the store ends with, when it goes
    through. *)
Definition notification_of (c : model.Call) : subs.Notification :=
  match c with
  | model.CallCreateUser _ | model.CallDeleteUser _ => subs.OnUsersChanged
  | model.CallBlockUser username _ | model.CallUnblockUser username _ =>
      subs.OnUserChanged username
  | model.CallCreateChannel _ | model.CallDeleteChannel _ => subs.OnChannelsChanged
  | model.CallPostMessage channelname _ _ _ => subs.OnChannelChanged channelname
  end.

(** What the server does when it starts and finds the log file of an
    earlier run ([main]): a replayer and a logger are opened on that one
    file, and [NewModel] is given both, with the engine of the new
    process. [m] is the store the earlier run ended with; only its log
    file is used. [wallclock] holds the readings of the wall clock in the
    new process. (A server that is configured without a log file has
    neither replayer nor logger.) *)
Definition restart (engine : option subs.Engine) (wallclock : nat → Time)
    (m : model.Model) : completion (option model.Model * option error) :=
  match model.log_file m with
  | Some file =>
      model.NewModel (Some (actions.NewReplayer file))
        (Some (actions.NewLogger (Some file) wallclock)) engine
  | None => model.NewModel None None engine
  end.

(** The first run of the server on a machine without a log file makes the
    calls of the first session on a seeded store; every later run restarts
    from the log file and makes the calls of its session, under the
    readings of its own wall clock. [None] when a restart does not return
    a store. *)
Fixpoint later_runs (engine : option subs.Engine)
    (sessions : list ((nat → Time) * list model.Call)) (m : model.Model)
  : option model.Model :=
  match sessions with
  | [] => Some m
  | (wallclock, cs) :: sessions' =>
      match restart engine wallclock m with
      | Return (Some m', None) => later_runs engine sessions' (model.calls cs m')
      | _ => None
      end
  end.

Definition runs (engine : option subs.Engine) (wallclock : nat → Time)
    (first : list model.Call) (sessions : list ((nat → Time) * list model.Call))
  : option model.Model :=
  later_runs engine sessions
    (model.calls first
       (model.seeded (Some (actions.NewLogger None wallclock)) engine)).

(** *** Invariants of the store *)

(** A name [CreateUser] and [CreateChannel] accept. *)
Definition valid_name (name : string) : Prop :=
  name ≠ "" ∧ strings_Contains name " " = false.

(** Every user and channel is stored under its own, valid, name. *)
Definition names_ok (m : model.Model) : Prop :=
  (∀ name user, model.users m !! name = Some user →
     model.Name user = name ∧ valid_name name)
  ∧ (∀ name channel, model.channels m !! name = Some channel →
       model.ChannelName channel = name ∧ valid_name name).

(** A blocked-set holds no name twice, not its owner's name, and only
    names of users; "Anonymous" blocks nobody. *)
Definition blocked_sets_ok (m : model.Model) : Prop :=
  ∀ name user, model.users m !! name = Some user →
    NoDup (model.BlockedUsers user)
    ∧ (name ∉ model.BlockedUsers user)
    ∧ (∀ b, b ∈ model.BlockedUsers user → is_Some (model.users m !! b))
    ∧ (name = "Anonymous" → model.BlockedUsers user = []).

(** Every message has a text and an author with a valid name. *)
Definition messages_ok (m : model.Model) : Prop :=
  ∀ name channel message,
    model.channels m !! name = Some channel →
    message ∈ model.Messages channel →
    model.Text message ≠ "" ∧ valid_name (model.Username message).

Definition store_ok (m : model.Model) : Prop :=
  names_ok m ∧ blocked_sets_ok m ∧ messages_ok m.

End Sessions.

(** ** Package telnetconn: how a telnet connection follows its channel

    A [TelnetConn] holds a pointer to the store, which every connection
    shares. Its methods take the lock of the connection, not that of the
    store, so between two calls a method makes on the store another
    connection may change the store. A method is therefore given the
    store as each of its calls finds it, one argument per call, in the
    order of the calls. The callback that writes to the client is not
    modelled; the lines it is called with are recorded in [printed]. *)

Module telnetconn.

Section WithClock.
Context `{Clock}.

(** [message.Timestamp.Format("2006-01-02 15:04:05")], of the Go library. *)
Variable layout_Format : Time → string.

Record TelnetConn : Type := mkTelnetConn {
  currentUser : string;
  currentChannel : string;
  currentChannelMessageIndex : Z;
  printed : list (list string)
}.

Definition printLinesCallback (lines : list string) (t : TelnetConn) : TelnetConn :=
  {| currentUser := currentUser t;
     currentChannel := currentChannel t;
     currentChannelMessageIndex := currentChannelMessageIndex t;
     printed := printed t ++ [lines] |}.

(** The line a message is shown as. *)
Definition message_line (message : model.Message) : string :=
  "[" +:+ layout_Format (model.Timestamp message) +:+ " - "
  +:+ model.Username message +:+ "] " +:+ model.Text message.

(** [showChannelHistory]: the store is read twice, by [GetChannelInfo] and
    then by [GetChannelHistory]. *)
Definition showChannelHistory (numMessages : Z)
    (at_GetChannelInfo at_GetChannelHistory : model.Model) (t : TelnetConn)
  : TelnetConn :=
  let channelInfo := model.GetChannelInfo (currentChannel t) at_GetChannelInfo in
  let t :=
    {| currentUser := currentUser t;
       currentChannel := currentChannel t;
       currentChannelMessageIndex := model.NumMessages channelInfo;
       printed := printed t |} in
  let messages :=
    model.GetChannelHistory (currentChannel t) (currentUser t) numMessages
      at_GetChannelHistory in
  printLinesCallback (message_line <$> messages) t.

(** [ShowChannelHistory], the command of the client. *)
Definition ShowChannelHistory (numMessages : Z)
    (at_GetChannelInfo at_GetChannelHistory : model.Model) (t : TelnetConn)
  : TelnetConn :=
  showChannelHistory numMessages at_GetChannelInfo at_GetChannelHistory t.

(** [OnChannelChanged], which the engine calls after a post: the store is
    read by [GetChannelInfo] to count the new messages, and then twice
    more by [showChannelHistory]. *)
Definition OnChannelChanged (channelname : string)
    (at_first_GetChannelInfo at_GetChannelInfo at_GetChannelHistory : model.Model)
    (t : TelnetConn) : TelnetConn :=
  if decide (currentChannel t = channelname) then
    let channelInfo := model.GetChannelInfo channelname at_first_GetChannelInfo in
    let numNewMessages :=
      int_sub (model.NumMessages channelInfo) (currentChannelMessageIndex t) in
    showChannelHistory numNewMessages at_GetChannelInfo at_GetChannelHistory t
  else t.

Definition defaultHistoricalMessages : Z := 10.

Definition defaultSeparator : string := "-----------------".

(** [switchChannel]: the store is read by [GetChannels], and then twice by
    [showChannelHistory]. *)
Definition switchChannel (channelname : string)
    (at_GetChannels at_GetChannelInfo at_GetChannelHistory : model.Model)
    (t : TelnetConn) : TelnetConn :=
  let channels := model.GetChannels at_GetChannels in
  if decide (channelname ∈ channels) then
    let t :=
      {| currentUser := currentUser t;
         currentChannel := channelname;
         currentChannelMessageIndex := currentChannelMessageIndex t;
         printed := printed t |} in
    let t :=
      printLinesCallback
        [ defaultSeparator;
          "User: " +:+ currentUser t;
          "Channel: " +:+ currentChannel t;
          defaultSeparator ] t in
    showChannelHistory defaultHistoricalMessages at_GetChannelInfo
      at_GetChannelHistory t
  else printLinesCallback ["error: <channel> not found"] t.

(** [switchUser]: the store is read by [GetUsers], and then three times by
    [switchChannel]. *)
Definition switchUser (username : string)
    (at_GetUsers at_GetChannels at_GetChannelInfo at_GetChannelHistory : model.Model)
    (t : TelnetConn) : TelnetConn :=
  let users := model.GetUsers at_GetUsers in
  if decide (username ∈ users) then
    let t :=
      {| currentUser := username;
         currentChannel := currentChannel t;
         currentChannelMessageIndex := currentChannelMessageIndex t;
         printed := printed t |} in
    switchChannel "General" at_GetChannels at_GetChannelInfo at_GetChannelHistory t
  else printLinesCallback ["error: <user> not found"] t.

(** [SwitchUser] and [SwitchChannel], the commands of the client. *)
Definition SwitchUser (username : string)
    (at_GetUsers at_GetChannels at_GetChannelInfo at_GetChannelHistory : model.Model)
    (t : TelnetConn) : TelnetConn :=
  switchUser username at_GetUsers at_GetChannels at_GetChannelInfo
    at_GetChannelHistory t.

Definition SwitchChannel (channelname : string)
    (at_GetChannels at_GetChannelInfo at_GetChannelHistory : model.Model)
    (t : TelnetConn) : TelnetConn :=
  switchChannel channelname at_GetChannels at_GetChannelInfo at_GetChannelHistory t.

(** [NewTelnetConn]: a connection that has printed nothing, switched to
    "Anonymous". *)
Definition NewTelnetConn
    (at_GetUsers at_GetChannels at_GetChannelInfo at_GetChannelHistory : model.Model)
  : TelnetConn :=
  SwitchUser "Anonymous" at_GetUsers at_GetChannels at_GetChannelInfo
    at_GetChannelHistory
    {| currentUser := "None";
       currentChannel := "None";
       currentChannelMessageIndex := 0;
       printed := [] |}.

(** [OnUsersChanged], which the engine calls after a user is created or
    deleted. *)
Definition OnUsersChanged
    (at_first_GetUsers at_GetUsers at_GetChannels at_GetChannelInfo
       at_GetChannelHistory : model.Model)
    (t : TelnetConn) : TelnetConn :=
  let users := model.GetUsers at_first_GetUsers in
  if decide (currentUser t ∈ users) then t
  else
    switchUser "Anonymous" at_GetUsers at_GetChannels at_GetChannelInfo
      at_GetChannelHistory t.

(** [OnUserChanged], which the engine calls after a block or unblock. *)
Definition OnUserChanged (username : string)
    (at_GetChannelInfo at_GetChannelHistory : model.Model) (t : TelnetConn)
  : TelnetConn :=
  if decide (currentUser t = username) then
    showChannelHistory defaultHistoricalMessages at_GetChannelInfo
      at_GetChannelHistory t
  else t.

(** [OnChannelsChanged], which the engine calls after a channel is created
    or deleted. *)
Definition OnChannelsChanged
    (at_first_GetChannels at_GetChannels at_GetChannelInfo at_GetChannelHistory
       : model.Model)
    (t : TelnetConn) : TelnetConn :=
  let channels := model.GetChannels at_first_GetChannels in
  if decide (currentChannel t ∈ channels) then t
  else
    switchChannel "General" at_GetChannels at_GetChannelInfo at_GetChannelHistory t.

End WithClock.
End telnetconn.

(** ** More concrete inputs *)

Section MoreConcreteInputs.
#[local] Existing Instance text_clock.

(** A store before its defaults are made, with a new log and a new
    engine. *)
Definition unseeded_store : model.Model :=
  {| model.actionsLogger := Some (actions.NewLogger None stopped_wallclock);
     model.subsEngine := Some subs.NewEngine;
     model.users := ∅; model.channels := ∅ |}.

(** The calls of two later runs of the server, the wall clock of each
    run stopped at another time. *)
Definition later_sessions : list ((nat → string) * list model.Call) :=
  [ ((λ _, "2020-01-02T00:00:00Z"),
     [model.CallCreateUser "bob"; model.CallBlockUser "bob" "alice"]);
    ((λ _, "2020-01-03T00:00:00Z"), [model.CallDeleteUser "alice"]) ].

(** A log file of the text ["[{}]"]: an array of one empty object, with
    no byte between the object and the closing bracket. *)
Definition compact_file : actions.LogFile :=
  actions.Text (actions.Sequence [∅]) None.

(** The store a server holds that has started on that file: the replay
    of its one empty record has made nothing. *)
Definition compact_store : model.Model :=
  {| model.actionsLogger :=
       Some (actions.NewLogger (Some compact_file) stopped_wallclock);
     model.subsEngine := Some subs.NewEngine;
     model.users := ∅; model.channels := ∅ |}.

(** A record whose envelope names no action. *)
Definition nameless_record : gmap string actions.JSON :=
  {[ "Action" := actions.JObject ∅ ]}.

(** Anonymous on "dev", having been shown the first of its messages. *)
Definition dev_connection : telnetconn.TelnetConn :=
  {| telnetconn.currentUser := "Anonymous";
     telnetconn.currentChannel := "dev";
     telnetconn.currentChannelMessageIndex := 1;
     telnetconn.printed := [] |}.

(** alice on "General", having been shown nothing. *)
Definition alice_connection : telnetconn.TelnetConn :=
  {| telnetconn.currentUser := "alice";
     telnetconn.currentChannel := "General";
     telnetconn.currentChannelMessageIndex := 0;
     telnetconn.printed := [] |}.

(** The store in which bob has blocked alice, once alice is deleted. *)
Definition store_without_alice : model.Model :=
  model.call (model.CallDeleteUser "alice") cascade_store.

Definition General : model.Channel :=
  {| model.ChannelName := "General"; model.Messages := [] |}.

(** The times of [text_clock] are shown as they are. *)
Definition text_layout : Time → string := λ t, t.

End MoreConcreteInputs.

(* ===================================================================== *)
(** * Part II: properties *)
(* ===================================================================== *)

(** ** Subscription engine *)

(** C9. [Connect] returns an error exactly when the observer is already
    registered and otherwise registers it; [Disconnect] returns an error
    exactly when the observer is not registered and otherwise removes it; a
    call that returns an error leaves the engine as it was. *)
Theorem C9_connect_disconnect (c : subs.Client) (e : subs.Engine) :
  let (e1, err1) := subs.Connect c e in
  let (e2, err2) := subs.Disconnect c e in
  (is_Some err1 ↔ c ∈ subs.registered e)
  ∧ (err1 = None → subs.registered e1 = {[ c ]} ∪ subs.registered e)
  ∧ (is_Some err1 → e1 = e)
  ∧ (is_Some err2 ↔ c ∉ subs.registered e)
  ∧ (err2 = None → subs.registered e2 = subs.registered e ∖ {[ c ]})
  ∧ (is_Some err2 → e2 = e).
Proof.
  unfold subs.Connect, subs.Disconnect, subs.registered.
  destruct (subs.clients e !! c) as [ci|] eqn:Hc; simpl.
  - assert (Hin : c ∈ dom (subs.clients e)) by (apply elem_of_dom; eauto).
    split_and!.
    + split; [done | eauto].
    + done.
    + done.
    + split; [by intros ?%is_Some_None | done].
    + intros _. apply dom_delete_L.
    + by intros ?%is_Some_None.
  - assert (Hout : c ∉ dom (subs.clients e)) by (by apply not_elem_of_dom).
    split_and!.
    + split; [by intros ?%is_Some_None | done].
    + intros _. apply dom_insert_L.
    + by intros ?%is_Some_None.
    + split; [done | eauto].
    + done.
    + done.
Qed.

(** ** Slices, strings and ints *)

Lemma int_wrap_id (z : Z) : is_int z → int_wrap z = z.
Proof.
  unfold is_int, int_wrap. intros Hz.
  rewrite Z.mod_small by lia. lia.
Qed.

Lemma int_wrap_overflow (z : Z) : 2 ^ 63 <= z < 2 ^ 64 → int_wrap z = z - 2 ^ 64.
Proof.
  unfold int_wrap. intros Hz.
  replace (z + 2 ^ 63) with ((z - 2 ^ 63) + 1 * 2 ^ 64) by lia.
  rewrite Z.mod_add by lia. rewrite Z.mod_small by lia. lia.
Qed.

Lemma len_nonneg {A : Type} (s : list A) : 0 <= len s.
Proof. unfold len. lia. Qed.

Lemma filter_keeps_all {A : Type} (P : A → Prop) `{∀ x, Decision (P x)}
    (l : list A) :
  (∀ x, x ∈ l → P x) → filter P l = l.
Proof.
  induction l as [|a l IH]; intros Hall; [done |].
  rewrite filter_cons_True by (apply Hall; left).
  f_equal. apply IH. intros x Hx. apply Hall. by right.
Qed.

Lemma slice_contains_true (xs : list string) (name : string) :
  slice_contains xs name = true ↔ name ∈ xs.
Proof.
  induction xs as [|x xs IH]; simpl.
  - split; [done | by intros ?%elem_of_nil].
  - rewrite elem_of_cons. destruct (decide (x = name)) as [->|Hne].
    + split; [by left | done].
    + rewrite IH. split; [by right | by intros [->|?]].
Qed.

Lemma slice_contains_false (xs : list string) (name : string) :
  slice_contains xs name = false ↔ name ∉ xs.
Proof.
  rewrite <- slice_contains_true.
  destruct (slice_contains xs name); split; congruence.
Qed.

Lemma slice_index_from_range (i : Z) (xs : list string) (name : string) :
  0 <= i →
  slice_index_from i xs name = -1 ∨ i <= slice_index_from i xs name < i + len xs.
Proof.
  revert i. induction xs as [|x xs IH]; intros i Hi; simpl; [by left |].
  unfold len in *. simpl length.
  destruct (decide (x = name)); [right; lia |].
  destruct (IH (i + 1)) as [->|?]; [lia | by left | right; lia].
Qed.

Lemma slice_index_from_shift (i : Z) (xs : list string) (name : string) :
  0 <= i →
  slice_index_from i xs name =
    if decide (slice_index xs name = -1) then -1 else i + slice_index xs name.
Proof.
  unfold slice_index. revert i.
  induction xs as [|x xs IH]; intros i Hi; simpl; [done |].
  destruct (decide (x = name)); [rewrite decide_False by lia; lia |].
  rewrite (IH (i + 1)) by lia. rewrite (IH (0 + 1)) by lia.
  pose proof (slice_index_from_range 0 xs name) as Hrange.
  destruct (decide (slice_index_from 0 xs name = -1)) as [E|E].
  - by rewrite decide_True.
  - rewrite decide_False by lia. lia.
Qed.

Lemma slice_index_missing (xs : list string) (name : string) :
  slice_index xs name = -1 ↔ name ∉ xs.
Proof.
  unfold slice_index. induction xs as [|x xs IH]; simpl.
  - split; [intros _; apply not_elem_of_nil | done].
  - rewrite not_elem_of_cons. destruct (decide (x = name)) as [->|Hne].
    + split; [lia | intros [? _]; done].
    + rewrite slice_index_from_shift by lia. unfold slice_index.
      pose proof (slice_index_from_range 0 xs name) as Hrange.
      destruct (decide (slice_index_from 0 xs name = -1)) as [E|E].
      * split; [intros _; split; [done | by apply IH] | done].
      * split; [lia | intros [_ ?%IH]; done].
Qed.

(** Removing the element at the index the search loop found removes the
    first occurrence; in a list without repetition that is every
    occurrence. *)
Lemma slice_remove_found (xs : list string) (name : string) :
  NoDup xs → slice_index xs name ≠ -1 →
  slice_remove_at xs (slice_index xs name) = filter (λ x, x ≠ name) xs.
Proof.
  unfold slice_remove_at.
  induction xs as [|x xs IH]; intros Hnd Hfound; [done |].
  apply NoDup_cons in Hnd as [Hx Hnd].
  unfold slice_index in *. simpl in *.
  destruct (decide (x = name)) as [->|Hxn].
  - rewrite filter_cons_False by naive_solver. simpl. rewrite drop_0.
    symmetry. apply filter_keeps_all. intros y Hy ->. done.
  - rewrite filter_cons_True by done.
    rewrite slice_index_from_shift in Hfound |- * by lia.
    destruct (decide (slice_index xs name = -1)) as [Hk|Hk]; [done |].
    destruct (slice_index_from_range 0 xs name) as [E|E]; [lia | done |].
    fold (slice_index xs name) in E.
    replace (Z.to_nat (0 + 1 + slice_index xs name))
      with (S (Z.to_nat (slice_index xs name))) by lia.
    replace (Z.to_nat (0 + 1 + slice_index xs name + 1))
      with (S (Z.to_nat (slice_index xs name + 1))) by lia.
    simpl. f_equal. by apply IH.
Qed.

Lemma slice_remove_sublist (xs : list string) (i : Z) :
  slice_remove_at xs i `sublist_of` xs.
Proof.
  unfold slice_remove_at.
  rewrite <- (take_drop (Z.to_nat i) xs) at 3.
  apply sublist_app; [done |].
  replace (Z.to_nat (i + 1)) with (Z.to_nat i + (Z.to_nat (i + 1) - Z.to_nat i))%nat
    by lia.
  rewrite <- drop_drop. apply sublist_drop.
Qed.

Lemma slice_remove_NoDup (xs : list string) (i : Z) :
  NoDup xs → NoDup (slice_remove_at xs i).
Proof. intros Hnd. eapply sublist_NoDup; [done | apply slice_remove_sublist]. Qed.

Lemma append_String (c : Ascii.ascii) (a b : string) :
  String c a +:+ b = String c (a +:+ b).
Proof. reflexivity. Qed.

Lemma append_empty (b : string) : "" +:+ b = b.
Proof. reflexivity. Qed.

Lemma strings_HasPrefix_true (s prefix : string) :
  strings_HasPrefix s prefix = true ↔ ∃ rest, s = prefix +:+ rest.
Proof.
  revert prefix. induction s as [|d s IH]; intros [|c prefix]; simpl.
  - split; [intros _; by exists "" | done].
  - split; [done | intros [rest E]; done].
  - split; [intros _; by exists (String d s) | done].
  - setoid_rewrite append_String.
    destruct (Ascii.eqb_spec c d) as [->|Hcd].
    + rewrite IH. split; intros [rest E]; exists rest; congruence.
    + split; [done | intros [rest E]; congruence].
Qed.

(** [strings.Contains(s, substr)] holds exactly when [substr] occurs in [s]. *)
Lemma strings_Contains_true (s substr : string) :
  strings_Contains s substr = true
  ↔ ∃ before after, s = before +:+ substr +:+ after.
Proof.
  induction s as [|d s IH].
  - change (strings_Contains "" substr)
      with (strings_HasPrefix "" substr || false).
    rewrite orb_false_r, strings_HasPrefix_true. split.
    + intros [rest E]. by exists "", rest.
    + intros (before & after & E). destruct before as [|c before].
      * rewrite append_empty in E. eauto.
      * rewrite append_String in E. done.
  - change (strings_Contains (String d s) substr)
      with (strings_HasPrefix (String d s) substr || strings_Contains s substr).
    rewrite orb_true_iff, strings_HasPrefix_true, IH. split.
    + intros [[rest E] | (before & after & E)].
      * by exists "", rest.
      * exists (String d before), after. rewrite append_String. congruence.
    + intros (before & after & E). destruct before as [|c before].
      * rewrite append_empty in E. left. eauto.
      * rewrite append_String in E. right. exists before, after. congruence.
Qed.

(** ** The state store *)

Import model.

Section StoreProperties.
Context `{Clock}.

Lemma NewModel_fresh (logger : option actions.Logger) (engine : option subs.Engine) :
  NewModel None logger engine = Return (Some (seeded logger engine), None).
Proof. reflexivity. Qed.

(** The copying loop keeps, in order, the messages whose author is not in
    the blocked-set. *)
Lemma copy_messages_filter (blockedUsers : list string) (messages : list Message) :
  copy_messages blockedUsers messages
  = filter (λ message, Username message ∉ blockedUsers) messages.
Proof.
  induction messages as [|message rest IH]; simpl; [done |].
  destruct (slice_contains blockedUsers (Username message)) eqn:E.
  - apply slice_contains_true in E. by rewrite filter_cons_False by naive_solver.
  - apply slice_contains_false in E. rewrite filter_cons_True by done.
    by rewrite IH.
Qed.

(** *** History *)

(** C3. For an existing channel and an existing requesting user,
    [GetChannelHistory] with count [-1] returns every message of the
    channel, in insertion order, less those whose author the user has
    blocked; with a count [>= 0] it takes the window of the last [count]
    messages of the unfiltered sequence (all of them when the channel has
    fewer) and then filters that window, so the answer can be shorter than
    the window. *)
Theorem C3_history_window_then_filter (m : Model) (channelname username : string)
    (channel : Channel) (user : User) :
  channels m !! channelname = Some channel →
  users m !! username = Some user →
  is_int (len (Messages channel)) →
  let visible := filter (λ message, Username message ∉ BlockedUsers user) in
  GetChannelHistory channelname username (-1) m = visible (Messages channel)
  ∧ ∀ count, 0 <= count → is_int count →
      let window :=
        drop (length (Messages channel) - Z.to_nat count)%nat (Messages channel) in
      GetChannelHistory channelname username count m = visible window
      ∧ len window = Z.min count (len (Messages channel))
      ∧ len (GetChannelHistory channelname username count m) <= len window.
Proof.
  intros Hc Hu Hlen visible.
  assert (Hgen : ∀ n,
    GetChannelHistory channelname username n m
    = visible
        (drop
           (Z.to_nat
              (if n =? -1 then 0
               else if int_sub (len (Messages channel)) n <? 0 then 0
                    else int_sub (len (Messages channel)) n))
           (Messages channel))).
  { intros n. unfold GetChannelHistory. rewrite Hc, Hu. cbv zeta.
    apply copy_messages_filter. }
  split.
  - rewrite Hgen. simpl. by rewrite drop_0.
  - intros count Hcount Hint window. rewrite Hgen.
    assert (Hstart :
      Z.to_nat
        (if count =? -1 then 0
         else if int_sub (len (Messages channel)) count <? 0 then 0
              else int_sub (len (Messages channel)) count)
      = (length (Messages channel) - Z.to_nat count)%nat).
    { unfold int_sub. rewrite int_wrap_id by (unfold is_int, len in *; lia).
      destruct (Z.eqb_spec count (-1)); [lia |].
      destruct (Z.ltb_spec (len (Messages channel) - count) 0);
        unfold len in *; lia. }
    rewrite Hstart. fold window. split_and!.
    + done.
    + unfold window, len. rewrite length_drop. lia.
    + unfold visible, len. pose proof (length_filter
        (λ message, Username message ∉ BlockedUsers user) window). lia.
Qed.

(** C10, as the code has it. For an existing channel and user and a count
    below [-1], [GetChannelHistory] returns the empty list as long as the
    subtraction [len(messages) - count] stays within the 64-bit [int], that
    is for [count > len(messages) - 2^63]. *)
Theorem C10_history_below_minus_one (m : Model) (channelname username : string)
    (channel : Channel) (user : User) (count : Z) :
  channels m !! channelname = Some channel →
  users m !! username = Some user →
  is_int count →
  count < -1 →
  len (Messages channel) - 2 ^ 63 < count →
  GetChannelHistory channelname username count m = [].
Proof.
  intros Hc Hu Hint Hlt Hno. unfold GetChannelHistory. rewrite Hc, Hu. cbv zeta.
  pose proof (len_nonneg (Messages channel)) as Hlen.
  unfold int_sub. rewrite int_wrap_id by (unfold is_int in *; lia).
  destruct (Z.eqb_spec count (-1)); [lia |].
  destruct (Z.ltb_spec (len (Messages channel) - count) 0); [lia |].
  rewrite drop_ge by (unfold len in *; lia). done.
Qed.

(** Beyond that bound the subtraction wraps around to a negative index,
    which is clamped to [0]: the whole filtered history comes back. *)
Lemma history_count_overflow (m : Model) (channelname username : string)
    (channel : Channel) (user : User) (count : Z) :
  channels m !! channelname = Some channel →
  users m !! username = Some user →
  is_int count → is_int (len (Messages channel)) →
  count <= len (Messages channel) - 2 ^ 63 →
  GetChannelHistory channelname username count m
  = filter (λ message, Username message ∉ BlockedUsers user) (Messages channel).
Proof.
  intros Hc Hu Hint Hlenint Hover. unfold GetChannelHistory. rewrite Hc, Hu. cbv zeta.
  pose proof (len_nonneg (Messages channel)) as Hlen.
  unfold int_sub. rewrite int_wrap_overflow by (unfold is_int in *; lia).
  destruct (Z.eqb_spec count (-1)).
  - simpl. rewrite drop_0. apply copy_messages_filter.
  - destruct (Z.ltb_spec (len (Messages channel) - count - 2 ^ 64) 0);
      [| unfold is_int in *; lia].
    simpl. rewrite drop_0. apply copy_messages_filter.
Qed.

End StoreProperties.

Section Validation.
Context `{Clock}.

(** *** Rejected calls *)

(** C6, as the code has it. A name that is empty or contains a space
    (the byte 32) is rejected by [CreateUser] and by [CreateChannel]: the
    store, its log and the notifications it has triggered are what they
    were. *)
Theorem C6_create_rejects_empty_and_spaces (m : Model) (name : string) :
  name = "" ∨ (∃ before after, name = before +:+ " " +:+ after) →
  CreateUser name m = m ∧ CreateChannel name m = m.
Proof.
  intros [-> | Hspace].
  - unfold CreateUser, CreateChannel.
    destruct (users m !! ""), (channels m !! ""); done.
  - apply strings_Contains_true in Hspace.
    unfold CreateUser, CreateChannel. rewrite Hspace.
    destruct (users m !! name), (channels m !! name);
      destruct (decide (name = "")); done.
Qed.

(** C5, as the code has it. [BlockUser] changes nothing, logs nothing and
    notifies nobody when either name is unknown, when the two names are
    the same, or when the caller is "Anonymous"; [UnblockUser] does so
    when either name is unknown. *)
Theorem C5_block_unblock_rejections (m : Model) (who target : string) :
  (users m !! who = None ∨ users m !! target = None
   ∨ who = target ∨ who = "Anonymous" →
   BlockUser who target m = m)
  ∧ (users m !! who = None ∨ users m !! target = None →
     UnblockUser who target m = m).
Proof.
  split.
  - intros Hrej. unfold BlockUser.
    destruct (users m !! who) as [user|] eqn:Hwho; [| done].
    destruct (users m !! target) as [tuser|] eqn:Htarget; [| done].
    destruct (decide (who = "Anonymous")); [done |].
    destruct (decide (who = target)); [done |].
    destruct Hrej as [? | [? | [? | ?]]]; done.
  - intros Hrej. unfold UnblockUser.
    destruct (users m !! who) as [user|] eqn:Hwho; [| done].
    destruct (users m !! target) as [tuser|] eqn:Htarget; [| done].
    destruct Hrej as [? | ?]; done.
Qed.

(** C4, as the code has it. Blocking a user who is already in the
    caller's blocked-set, and unblocking one who is not in it, leave every
    user, blocked-set, channel and message sequence as it was. *)
Theorem C4_block_unblock_idempotent_state (m : Model) (who target : string) :
  (target ∈ blocked m who →
   users (BlockUser who target m) = users m
   ∧ channels (BlockUser who target m) = channels m)
  ∧ (target ∉ blocked m who →
     users (UnblockUser who target m) = users m
     ∧ channels (UnblockUser who target m) = channels m).
Proof.
  unfold blocked. split.
  - intros Hin. unfold BlockUser.
    destruct (users m !! who) as [user|] eqn:Hwho; [| done].
    destruct (users m !! target) as [tuser|] eqn:Htarget; [| done].
    destruct (decide (who = "Anonymous")); [done |].
    destruct (decide (who = target)); [done |].
    apply slice_contains_true in Hin. rewrite Hin. done.
  - intros Hout. unfold UnblockUser.
    destruct (users m !! who) as [user|] eqn:Hwho; [| done].
    destruct (users m !! target) as [tuser|] eqn:Htarget; [| done].
    apply slice_index_missing in Hout. rewrite Hout. done.
Qed.

(** What the log and the engine see of a block or unblock that passes
    validation: one record and one notification, whether or not the
    blocked-set changed. *)
Lemma BlockUser_logs_when_valid (m : Model) (who target : string)
    (l : actions.Logger) (e : subs.Engine) :
  actionsLogger m = Some l → subsEngine m = Some e →
  is_Some (users m !! who) → is_Some (users m !! target) →
  who ≠ "Anonymous" → who ≠ target →
  actionsLogger (BlockUser who target m) = Some (actions.Logger_BlockUser who target l)
  ∧ subsEngine (BlockUser who target m) = Some (subs.UserChanged who e).
Proof.
  intros Hl He [user Hwho] [tuser Htarget] Hanon Hself. unfold BlockUser.
  rewrite Hwho, Htarget.
  rewrite decide_False by done. rewrite decide_False by done.
  destruct (slice_contains (BlockedUsers user) target); simpl; by rewrite Hl, He.
Qed.

Lemma UnblockUser_logs_when_valid (m : Model) (who target : string)
    (l : actions.Logger) (e : subs.Engine) :
  actionsLogger m = Some l → subsEngine m = Some e →
  is_Some (users m !! who) → is_Some (users m !! target) →
  actionsLogger (UnblockUser who target m)
    = Some (actions.Logger_UnblockUser who target l)
  ∧ subsEngine (UnblockUser who target m) = Some (subs.UserChanged who e).
Proof.
  intros Hl He [user Hwho] [tuser Htarget]. unfold UnblockUser.
  rewrite Hwho, Htarget.
  destruct (decide (slice_index (BlockedUsers user) target ≠ -1)); simpl;
    by rewrite Hl, He.
Qed.

(** *** The reserved user and channel *)

Lemma call_keeps_Anonymous (c : Call) (m : Model) :
  is_Some (users m !! "Anonymous") → is_Some (users (call c m) !! "Anonymous").
Proof.
  intros Hanon. destruct c; simpl;
    unfold CreateUser, DeleteUser, BlockUser, UnblockUser, CreateChannel,
      DeleteChannel, PostMessage;
    repeat case_match; simpl; try done.
  - apply lookup_insert_is_Some'. by right.
  - rewrite lookup_fmap, lookup_delete_ne by congruence.
    by apply fmap_is_Some.
  - apply lookup_insert_is_Some'. by right.
  - apply lookup_insert_is_Some'. by right.
Qed.

Lemma call_keeps_General (c : Call) (m : Model) :
  is_Some (channels m !! "General") → is_Some (channels (call c m) !! "General").
Proof.
  intros Hgen. destruct c; simpl;
    unfold CreateUser, DeleteUser, BlockUser, UnblockUser, CreateChannel,
      DeleteChannel, PostMessage;
    repeat case_match; simpl; try done.
  - apply lookup_insert_is_Some'. by right.
  - rewrite lookup_delete_ne by congruence. done.
  - apply lookup_insert_is_Some'. by right.
Qed.

Lemma seeded_has_defaults (logger : option actions.Logger)
    (engine : option subs.Engine) :
  is_Some (users (seeded logger engine) !! "Anonymous")
  ∧ is_Some (channels (seeded logger engine) !! "General").
Proof. split; by eexists. Qed.

Lemma calls_snoc (cs : list Call) (c : Call) (m : Model) :
  calls (cs ++ [c]) m = call c (calls cs m).
Proof. unfold calls. by rewrite fold_left_app. Qed.

(** C2. Whatever calls are made on a seeded store, the user "Anonymous"
    and the channel "General" are still there afterwards; deleting either
    of them is refused and leaves the store as it was. *)
Theorem C2_defaults_always_present (logger : option actions.Logger)
    (engine : option subs.Engine) (cs : list Call) :
  let m := calls cs (seeded logger engine) in
  is_Some (users m !! "Anonymous")
  ∧ is_Some (channels m !! "General")
  ∧ DeleteUser "Anonymous" m = m
  ∧ DeleteChannel "General" m = m.
Proof.
  intros m.
  assert (Hdef : is_Some (users m !! "Anonymous") ∧ is_Some (channels m !! "General")).
  { subst m. induction cs as [|c cs IH] using rev_ind.
    - apply seeded_has_defaults.
    - rewrite calls_snoc. destruct IH as [Hu Hc].
      split; [by apply call_keeps_Anonymous | by apply call_keeps_General]. }
  destruct Hdef as [[user Hu] [channel Hc]]. split_and!; eauto.
  - unfold DeleteUser. by rewrite Hu.
  - unfold DeleteChannel. by rewrite Hc.
Qed.

End Validation.

Section Cascade.
Context `{Clock}.

(** *** Blocked-sets hold no name twice *)

Lemma unblock_deleted_NoDup (username : string) (user : User) :
  NoDup (BlockedUsers user) → NoDup (BlockedUsers (unblock_deleted username user)).
Proof.
  intros Hnd. unfold unblock_deleted. case_decide; simpl; [| done].
  by apply slice_remove_NoDup.
Qed.

Lemma call_preserves_distinct (c : Call) (m : Model) :
  blocked_sets_distinct m → blocked_sets_distinct (call c m).
Proof.
  intros Hm name user. destruct c; simpl;
    unfold CreateUser, DeleteUser, BlockUser, UnblockUser, CreateChannel,
      DeleteChannel, PostMessage;
    repeat case_match; simpl; try apply Hm.
  - intros [[_ <-] | [_ Hold]]%lookup_insert_Some; [apply NoDup_nil_2 | by eapply Hm].
  - rewrite lookup_fmap. intros (old & Hold & ->)%fmap_Some.
    apply lookup_delete_Some in Hold as [_ Hold].
    apply unblock_deleted_NoDup. by eapply Hm.
  - intros [[_ <-] | [_ Hold]]%lookup_insert_Some; [| by eapply Hm]. simpl.
    apply NoDup_app. split_and!.
    + by eapply Hm.
    + intros x Hx ->%list_elem_of_singleton.
      by apply slice_contains_true in Hx; congruence.
    + apply NoDup_singleton.
  - intros [[_ <-] | [_ Hold]]%lookup_insert_Some; [| by eapply Hm]. simpl.
    apply slice_remove_NoDup. by eapply Hm.
Qed.

Lemma calls_preserve_distinct (cs : list Call) (m : Model) :
  blocked_sets_distinct m → blocked_sets_distinct (calls cs m).
Proof.
  revert m. induction cs as [|c cs IH]; intros m Hm; [done |].
  apply IH. by apply call_preserves_distinct.
Qed.

(** *** Replay onto a store only ever makes calls *)

Lemma parseAction_calls (action : gmap string actions.JSON) (m : Model) :
  ∃ cs, fst (actions.parseAction action m) = calls cs m.
Proof.
  unfold actions.parseAction, actions.parseCreateUser, actions.parseDeleteUser,
    actions.parseBlockUser, actions.parseUnblockUser, actions.parseCreateChannel,
    actions.parseDeleteChannel, actions.parsePostMessage.
  repeat case_match; simpl;
    first
      [ by exists []
      | by eexists [CallCreateUser _]
      | by eexists [CallDeleteUser _]
      | by eexists [CallBlockUser _ _]
      | by eexists [CallUnblockUser _ _]
      | by eexists [CallCreateChannel _]
      | by eexists [CallDeleteChannel _]
      | by eexists [CallPostMessage _ _ _ _] ].
Qed.

Lemma calls_app (cs1 cs2 : list Call) (m : Model) :
  calls (cs1 ++ cs2) m = calls cs2 (calls cs1 m).
Proof. unfold calls. by rewrite fold_left_app. Qed.

Lemma replay_entries_calls (result : list (gmap string actions.JSON)) (m : Model) :
  ∃ cs, fst (actions.replay_entries result m) = calls cs m.
Proof.
  revert m. induction result as [|action rest IH]; intros m; simpl.
  - by exists [].
  - destruct (Nat.eqb (size action) 0); [apply IH |].
    destruct (parseAction_calls action m) as [cs1 Hcs1].
    destruct (actions.parseAction action m) as [m1 [[err|]|reason]]; simpl in *.
    + by exists cs1.
    + destruct (IH m1) as [cs2 Hcs2]. exists (cs1 ++ cs2)%list.
      by rewrite calls_app, <- Hcs1.
    + by exists cs1.
Qed.

Lemma reachable_distinct (m : Model) : reachable m → blocked_sets_distinct m.
Proof.
  induction 1 as [replayer logger engine m Hnew | c m _ IH].
  - unfold NewModel in Hnew. destruct replayer as [replayer|].
    + unfold actions.Replay in Hnew.
      destruct (actions.wholeFile replayer) as [|result]; [done |].
      destruct (replay_entries_calls result
        (detach {| actionsLogger := logger; subsEngine := engine;
                   users := ∅; channels := ∅ |})) as [cs Hcs].
      destruct (actions.replay_entries result _) as [m1 [[err|]|reason]];
        simplify_eq/=.
      assert (Hm1 : blocked_sets_distinct
        (calls cs
           (detach {| actionsLogger := logger; subsEngine := engine;
                      users := ∅; channels := ∅ |}))).
      { apply calls_preserve_distinct. intros name user Hin. done. }
      intros name user Hin. by eapply Hm1.
    + simplify_eq/=.
      apply (calls_preserve_distinct
               [CallCreateUser "Anonymous"; CallCreateChannel "General"]).
      intros name user Hin. done.
  - by apply call_preserves_distinct.
Qed.

(** *** Deleting a user *)

(** C7. When [DeleteUser(U)] goes through (U exists and is not
    "Anonymous"), U is gone, the other users are the ones there were, and
    for each of them the blocked-set is the one it had with U taken out:
    U is not in it, and every other name is in it exactly when it was
    before, in the same order. *)
Theorem C7_delete_cascade (m : Model) (U : string) :
  reachable m →
  is_Some (users m !! U) →
  U ≠ "Anonymous" →
  let m' := DeleteUser U m in
  users m' !! U = None
  ∧ ∀ X, X ≠ U →
      (is_Some (users m' !! X) ↔ is_Some (users m !! X))
      ∧ (U ∉ blocked m' X)
      ∧ (∀ name, name ≠ U → (name ∈ blocked m' X ↔ name ∈ blocked m X))
      ∧ blocked m' X = filter (λ name, name ≠ U) (blocked m X).
Proof.
  intros Hreach [deleted HU] Hanon m'.
  pose proof (reachable_distinct m Hreach) as Hdistinct.
  assert (Husers : users m' = unblock_deleted U <$> delete U (users m)).
  { subst m'. unfold DeleteUser. rewrite HU. by rewrite decide_False. }
  split.
  - rewrite Husers, lookup_fmap, lookup_delete_eq. done.
  - intros X HX.
    assert (Hblocked : blocked m' X = filter (λ name, name ≠ U) (blocked m X)).
    { unfold blocked. rewrite Husers, lookup_fmap, lookup_delete_ne by done.
      destruct (users m !! X) as [user|] eqn:HXu; simpl; [| done].
      unfold unblock_deleted. case_decide as Hfound; simpl.
      - apply slice_remove_found; [by eapply Hdistinct | done].
      - symmetry. apply filter_keeps_all. intros name Hname ->.
        by apply slice_index_missing in Hfound. }
    split_and!.
    + rewrite Husers, lookup_fmap, lookup_delete_ne by done.
      apply fmap_is_Some.
    + rewrite Hblocked. intros [? _]%list_elem_of_filter. done.
    + intros name Hname. rewrite Hblocked, list_elem_of_filter.
      split; [by intros [_ ?] | by intros; split].
    + done.
Qed.

End Cascade.

Section ReplayProperties.
Context `{Clock}.

(** *** Strings that are written as they are *)

Lemma json_string_from_valid (pending : nat) (s : string) :
  utf8_valid_from pending s = true → json_string_from pending s = s.
Proof.
  revert pending. induction s as [|c s IH]; intros pending Hvalid; [done |].
  destruct pending as [|pending]; cbn [utf8_valid_from json_string_from] in *.
  - destruct (utf8_width (String c s)) as [width|]; [| done].
    f_equal. by apply IH.
  - f_equal. by apply IH.
Qed.

Lemma json_string_valid (s : string) :
  utf8_ValidString s = true → json_string s = s.
Proof. apply json_string_from_valid. Qed.

Lemma as_logged_valid (c : Call) :
  strings_valid c →
  as_logged c
  = match c with
    | CallPostMessage channelname username timestamp text =>
        CallPostMessage channelname username (reread timestamp) text
    | _ => c
    end.
Proof.
  unfold strings_valid. destruct c; simpl; intros Hvalid;
    repeat (apply Forall_cons in Hvalid as [? Hvalid]);
    by rewrite ?json_string_valid.
Qed.

Lemma same_call_read_back (c : Call) :
  strings_valid c → timestamp_parses c → same_call read_back c (as_logged c).
Proof.
  intros Hvalid Hparses. rewrite as_logged_valid by done.
  destruct c; simpl; try done.
  destruct Hparses as [parsed Hparsed]. unfold read_back, reread.
  by rewrite Hparsed.
Qed.

Lemma same_call_survives (c : Call) :
  strings_valid c → timestamp_survives c → same_call eq c (as_logged c).
Proof.
  intros Hvalid Hsurvives. rewrite as_logged_valid by done.
  destruct c; simpl; try done.
  simpl in Hsurvives. unfold reread. by rewrite Hsurvives.
Qed.

Lemma same_call_whatever (c : Call) :
  strings_valid c → same_call (λ _ _, True) c (as_logged c).
Proof.
  intros Hvalid. rewrite as_logged_valid by done. by destruct c.
Qed.

(** *** The log and its replay *)

Lemma replay_entries_app {A : Type} `{actions.Actor A}
    (first rest : list (gmap string actions.JSON)) (actor : A) :
  actions.replay_entries (first ++ rest) actor
  = match actions.replay_entries first actor with
    | (actor', Return None) => actions.replay_entries rest actor'
    | stopped => stopped
    end.
Proof.
  revert actor. induction first as [|action first IH]; intros actor; simpl; [done |].
  destruct (Nat.eqb (size action) 0); [apply IH |].
  destruct (actions.parseAction action actor) as [actor' [[err|]|reason]];
    [done | apply IH | done].
Qed.

Lemma json_Marshal_nonempty (a : actions.ActionStruct) :
  Nat.eqb (size (actions.json_Marshal a)) 0 = false.
Proof. destruct a; reflexivity. Qed.

(** A call does to the users and channels of a store what it does to
    those of the same store with logger and engine detached. *)
Lemma call_detach (c : Call) (m : Model) :
  detach (call c m) = call c (detach m).
Proof.
  destruct c; simpl;
    unfold CreateUser, DeleteUser, BlockUser, UnblockUser, CreateChannel,
      DeleteChannel, PostMessage;
    simpl; repeat case_match; done.
Qed.

Lemma call_keeps_detached (c : Call) (m : Model) :
  actionsLogger m = None → subsEngine m = None →
  actionsLogger (call c m) = None ∧ subsEngine (call c m) = None.
Proof.
  intros Hlogger Hengine.
  assert (Hm : m = detach m) by (destruct m; simpl in *; by subst).
  rewrite Hm, <- call_detach. done.
Qed.

Lemma perform_Logger (c : Call) (l : actions.Logger) :
  perform c l
  = actions.commitAction (action_of c (actions.now l)) (actions.tick l).
Proof. by destruct c. Qed.

Lemma perform_Model (c : Call) (m : Model) : perform c m = call c m.
Proof. by destruct c. Qed.

Lemma performs_snoc {A : Type} `{!actions.Actor A} (cs : list Call) (c : Call)
    (actor : A) :
  performs (cs ++ [c]) actor = perform c (performs cs actor).
Proof. unfold performs. by rewrite fold_left_app. Qed.

Lemma parsePostMessage_marshalled {A : Type} `{!actions.Actor A}
    (act : actions.Action) (channelname username text : string)
    (timestamp : Time) (actor : A) :
  actions.parsePostMessage
    (actions.json_Marshal
       (actions.PostMessageAction act channelname username timestamp text)) actor
  = match time_Parse (time_Format timestamp) with
    | None => (actor, Return (Some (errors_New "parsing time")))
    | Some parsed =>
        (actions.PostMessage (json_string channelname) (json_string username)
           parsed (json_string text) actor,
         Return None)
    end.
Proof. reflexivity. Qed.

(** The record the logger writes for a call is read back by the replayer
    as that call with its names and texts as [encoding/json] has them and
    its timestamp as parsed from its text, whoever the actor is. *)
Lemma parseAction_marshalled {A : Type} `{!actions.Actor A} (c : Call)
    (stamp : Time) (actor : A) :
  timestamp_parses c →
  actions.parseAction (actions.json_Marshal (action_of c stamp)) actor
  = (perform (as_logged c) actor, Return None).
Proof.
  intros Hparses. destruct c; try reflexivity.
  change (actions.parsePostMessage
            (actions.json_Marshal
               (actions.PostMessageAction
                  {| actions.Name := "PostMessage"; actions.Timestamp := stamp |}
                  channelname username timestamp text)) actor
          = (actions.PostMessage (json_string channelname) (json_string username)
               (reread timestamp) (json_string text) actor,
             Return None)).
  rewrite parsePostMessage_marshalled. destruct Hparses as [parsed Hparsed].
  unfold reread. by rewrite Hparsed.
Qed.

(** Every call either leaves the store alone, or is handed on to the
    logger. *)
Lemma call_logged (c : Call) (m : Model) (l : actions.Logger) :
  actionsLogger m = Some l →
  call c m = m ∨ actionsLogger (call c m) = Some (perform c l).
Proof.
  intros Hl.
  destruct c; simpl.
  - unfold CreateUser. repeat case_match; try (by left).
    right. simpl. by rewrite Hl.
  - unfold DeleteUser. repeat case_match; try (by left).
    right. simpl. by rewrite Hl.
  - unfold BlockUser. repeat case_match; try (by left);
      right; simpl; by rewrite Hl.
  - unfold UnblockUser. repeat case_match; try (by left);
      right; simpl; by rewrite Hl.
  - unfold CreateChannel. repeat case_match; try (by left).
    right. simpl. by rewrite Hl.
  - unfold DeleteChannel. repeat case_match; try (by left).
    right. simpl. by rewrite Hl.
  - unfold PostMessage. repeat case_match; try (by left).
    right. simpl. by rewrite Hl.
Qed.

(** *** Stores that differ in their timestamps *)

Lemma same_message_eq (a b : Message) : same_message eq a b → a = b.
Proof. destruct a, b. intros (? & ? & ?). simpl in *. by subst. Qed.

Lemma same_channel_eq (a b : Channel) : same_channel eq a b → a = b.
Proof.
  destruct a as [name messages], b as [name' messages']. intros [Hname Hall].
  simpl in *. subst. f_equal.
  induction Hall as [|a b messages messages' Hab _ IH]; [done |].
  f_equal; [by apply same_message_eq | done].
Qed.

Lemma same_state_eq (m1 m2 : Model) :
  same_state eq m1 m2 → users m1 = users m2 ∧ channels m1 = channels m2.
Proof.
  intros [Husers Hchannels]. split; [done |]. apply map_eq. intros name.
  destruct (Hchannels name) as [a b Hab|]; [| done].
  f_equal. by apply same_channel_eq.
Qed.

Lemma same_state_refl (T : Time → Time → Prop) (m1 m2 : Model) :
  (∀ t, T t t) → users m1 = users m2 → channels m1 = channels m2 →
  same_state T m1 m2.
Proof.
  intros Hrefl Husers Hchannels. split; [done |]. intros name.
  rewrite Hchannels. destruct (channels m2 !! name) as [channel|]; constructor.
  split; [done |]. apply Forall_Forall2_diag, Forall_forall. by intros message _.
Qed.

(** The same call, up to its timestamp, keeps two stores the same, up to
    their timestamps. *)
Lemma call_same_state (T : Time → Time → Prop) (c c' : Call) (m m' : Model) :
  same_call T c c' → same_state T m m' → same_state T (call c m) (call c' m').
Proof.
  intros Hcall [Husers Hchannels].
  destruct c, c'; simpl in Hcall; try done; simplify_eq; simpl.
  - unfold CreateUser. rewrite Husers.
    destruct (users m' !! username0); [done |].
    repeat case_match; first [done | split; simpl; by rewrite ?Husers].
  - unfold DeleteUser. rewrite Husers.
    destruct (users m' !! username0); [| done].
    repeat case_match; first [done | split; simpl; by rewrite ?Husers].
  - unfold BlockUser. rewrite Husers.
    destruct (users m' !! username0); [| done].
    destruct (users m' !! usernameToBlock0); [| done].
    repeat case_match; first [done | split; simpl; by rewrite ?Husers].
  - unfold UnblockUser. rewrite Husers.
    destruct (users m' !! username0); [| done].
    destruct (users m' !! usernameToUnblock0); [| done].
    repeat case_match; first [done | split; simpl; by rewrite ?Husers].
  - unfold CreateChannel. pose proof (Hchannels channelname0) as Hhere.
    destruct (channels m !! channelname0), (channels m' !! channelname0);
      inversion Hhere; subst; [done |].
    repeat case_match; try done.
    split; simpl; [done |]. intros name.
    destruct (decide (channelname0 = name)) as [<- | Hne].
    + rewrite !lookup_insert_eq. constructor. split; [done | constructor].
    + rewrite !lookup_insert_ne by done. apply Hchannels.
  - unfold DeleteChannel. pose proof (Hchannels channelname0) as Hhere.
    destruct (channels m !! channelname0), (channels m' !! channelname0);
      inversion Hhere; subst; [| done].
    repeat case_match; try done.
    split; simpl; [done |]. intros name.
    destruct (decide (channelname0 = name)) as [<- | Hne].
    + rewrite !lookup_delete_eq. constructor.
    + rewrite !lookup_delete_ne by done. apply Hchannels.
  - destruct Hcall as (<- & <- & <- & Htime).
    unfold PostMessage. pose proof (Hchannels channelname) as Hhere.
    rewrite Husers.
    destruct (channels m !! channelname) as [channel|],
      (channels m' !! channelname) as [channel'|];
      inversion Hhere as [? ? [Hname Hmessages]|]; subst; [| done].
    destruct (users m' !! username); [| done].
    destruct (Nat.eqb (String.length text) 0); [done |].
    split; simpl; [done |]. intros name.
    destruct (decide (channelname = name)) as [<- | Hne].
    + rewrite !lookup_insert_eq. constructor. split; [done |]. simpl.
      apply Forall2_app; [done |]. by repeat constructor.
    + rewrite !lookup_insert_ne by done. apply Hchannels.
Qed.

(** *** Stores in step with their log *)

Lemma call_in_step (T : Time → Time → Prop) (c : Call) (m : Model) :
  timestamp_parses c →
  same_call T c (as_logged c) →
  in_step_with_log T m → in_step_with_log T (call c m).
Proof.
  intros Hparses Hcall (entries & replayed & Hfile & Hreplay & Hlogger & Hengine & Hsame).
  unfold log_file in Hfile.
  destruct (actionsLogger m) as [l|] eqn:Hl; [| done].
  simpl in Hfile. injection Hfile as Hfile.
  destruct (call_logged c m l Hl) as [-> | Hl'].
  - exists entries, replayed. unfold log_file. rewrite Hl. simpl. by rewrite Hfile.
  - exists (entries ++ [actions.json_Marshal (action_of c (actions.now l))])%list,
      (call (as_logged c) replayed).
    destruct (call_keeps_detached (as_logged c) replayed Hlogger Hengine).
    split_and!; try done.
    + unfold log_file. rewrite Hl', perform_Logger.
      unfold actions.commitAction. simpl. by rewrite Hfile.
    + rewrite replay_entries_app, Hreplay. simpl.
      by rewrite json_Marshal_nonempty, parseAction_marshalled, perform_Model.
    + by apply call_same_state.
Qed.

Lemma calls_in_step (T : Time → Time → Prop) (cs : list Call) (m : Model) :
  Forall timestamp_parses cs →
  Forall (λ c, same_call T c (as_logged c)) cs →
  in_step_with_log T m → in_step_with_log T (calls cs m).
Proof.
  revert m. induction cs as [|c cs IH]; intros m Hparse Hcalls Hm; [done |].
  apply Forall_cons in Hparse as [Hc Hparse].
  apply Forall_cons in Hcalls as [Hcall Hcalls].
  apply IH; [done | done |]. by apply call_in_step.
Qed.

Lemma seeded_in_step (T : Time → Time → Prop) (wallclock : nat → Time)
    (engine : option subs.Engine) :
  in_step_with_log T (seeded (Some (actions.NewLogger None wallclock)) engine).
Proof.
  apply (calls_in_step T [CallCreateUser "Anonymous"; CallCreateChannel "General"]).
  - by repeat constructor.
  - by repeat constructor.
  - exists [∅], blank. split_and!; try done.
    split; [done |]. intros name. simpl. rewrite !lookup_empty. constructor.
Qed.

Lemma survives_parses (c : Call) : timestamp_survives c → timestamp_parses c.
Proof. destruct c; simpl; first [done | intros ->; by eexists]. Qed.


End ReplayProperties.

Section ReplayFailures.
Context `{Clock}.

(** *** Failures of the replay *)

(** An error of [Replay] is the error of [NewModel], and no store comes
    with it. *)
Lemma NewModel_replay_error (replayer : actions.Replayer)
    (logger : option actions.Logger) (engine : option subs.Engine)
    (partial : Model) (err : error) :
  actions.Replay replayer blank = (partial, Return (Some err)) →
  NewModel (Some replayer) logger engine = Return (None, Some err).
Proof.
  intros Hreplay. unfold NewModel. simpl.
  change (detach {| actionsLogger := logger; subsEngine := engine;
                    users := ∅; channels := ∅ |}) with blank.
  by rewrite Hreplay.
Qed.

(** A store is returned only when the whole log went through. *)
Lemma NewModel_replay_complete (replayer : actions.Replayer)
    (logger : option actions.Logger) (engine : option subs.Engine)
    (m : Model) (err : option error) :
  NewModel (Some replayer) logger engine = Return (Some m, err) →
  err = None
  ∧ ∃ replayed, actions.Replay replayer blank = (replayed, Return None)
                ∧ m = attach logger engine replayed.
Proof.
  unfold NewModel. simpl.
  change (detach {| actionsLogger := logger; subsEngine := engine;
                    users := ∅; channels := ∅ |}) with blank.
  destruct (actions.Replay replayer blank) as [replayed [[e|]|reason]];
    intros Hnew; simplify_eq. eauto.
Qed.

(** Apart from that, the replayer answers as the log format says. As
    long as every record holds an object under "Action" (or nothing), a
    record is replayed when it is well formed and is refused with an error,
    the actor untouched, when it is not. *)
Lemma string_field_typed (action : gmap string actions.JSON) (kind field : string) :
  field ≠ "Timestamp" →
  (actions.field_typed action field
   ∧ ∃ s, actions.string_field action kind field = inl s)
  ∨ (¬ actions.field_typed action field
     ∧ ∃ err, actions.string_field action kind field = inr (Some err)).
Proof.
  intros Hfield. unfold actions.field_typed, actions.string_field, actions.invalid.
  destruct (action !! field) as [[]|]; naive_solver.
Qed.

Lemma timestamp_field_typed (action : gmap string actions.JSON) (kind : string) :
  (actions.field_typed action "Timestamp"
   ∧ ∃ s t, actions.string_field action kind "Timestamp" = inl s
            ∧ time_Parse s = Some t)
  ∨ (¬ actions.field_typed action "Timestamp"
     ∧ ((∃ err, actions.string_field action kind "Timestamp" = inr (Some err))
        ∨ ∃ s, actions.string_field action kind "Timestamp" = inl s
               ∧ time_Parse s = None)).
Proof.
  unfold actions.field_typed, actions.string_field, actions.invalid.
  destruct (action !! "Timestamp") as [[| | |s| |]|]; try naive_solver.
  destruct (time_Parse s) as [t|] eqn:Hparse.
  - left. split; [intros _; by eexists | eauto].
  - right. split; [| eauto]. intros Htyped.
    destruct (Htyped eq_refl) as [? ?]. done.
Qed.

Ltac payload_field action kind field :=
  let Ht := fresh "Ht" in
  destruct (string_field_typed action kind field)
    as [[Ht [? ->]] | [Ht [? ->]]];
  [ done | | right; split; [rewrite ?Forall_cons; tauto | eauto] ].

Lemma parseAction_outcome {A : Type} `{!actions.Actor A}
    (action : gmap string actions.JSON) (actor : A) :
  actions.envelope_is_object action →
  (actions.well_formed action
   ∧ ∃ actor', actions.parseAction action actor = (actor', Return None))
  ∨ (¬ actions.well_formed action
     ∧ ∃ err, actions.parseAction action actor = (actor, Return (Some err))).
Proof.
  unfold actions.envelope_is_object, actions.well_formed, actions.parseAction.
  destruct (action !! "Action") as [[| | | | |envelope]|] eqn:Henv; try done;
    [| right; split; [tauto | unfold actions.invalid; eauto]].
  intros _.
  destruct (envelope !! "Name") as [[| | |kind| |]|] eqn:Hname;
    try (right; split; [tauto | unfold actions.invalid; eauto]).
  unfold actions.payload_fields.
  repeat case_decide; subst.
  - unfold actions.parseCreateUser.
    payload_field action "CreateUser" "Username".
    left. split; [by repeat constructor | eauto].
  - unfold actions.parseDeleteUser.
    payload_field action "DeleteUser" "Username".
    left. split; [by repeat constructor | eauto].
  - unfold actions.parseBlockUser.
    payload_field action "BlockUser" "Username".
    payload_field action "BlockUser" "UsernameToBlock".
    left. split; [by repeat constructor | eauto].
  - unfold actions.parseUnblockUser.
    payload_field action "UnblockUser" "Username".
    payload_field action "UnblockUser" "UsernameToUnblock".
    left. split; [by repeat constructor | eauto].
  - unfold actions.parseCreateChannel.
    payload_field action "CreateChannel" "Channelname".
    left. split; [by repeat constructor | eauto].
  - unfold actions.parseDeleteChannel.
    payload_field action "DeleteChannel" "Channelname".
    left. split; [by repeat constructor | eauto].
  - unfold actions.parsePostMessage.
    payload_field action "PostMessage" "Channelname".
    payload_field action "PostMessage" "Username".
    destruct (timestamp_field_typed action "PostMessage")
      as [[Hts (s & t & -> & ->)] | [Hts [[err ->] | (s & -> & ->)]]];
      [| right; split; [rewrite ?Forall_cons; tauto | eauto] ..].
    payload_field action "PostMessage" "Text".
    left. split; [by repeat constructor | eauto].
  - right. split; [tauto | unfold actions.invalid; eauto].
Qed.

Lemma replay_entries_outcome {A : Type} `{!actions.Actor A}
    (result : list (gmap string actions.JSON)) (actor : A) :
  Forall actions.envelope_is_object result →
  (Forall (λ action, size action = 0%nat ∨ actions.well_formed action) result
   ∧ ∃ actor', actions.replay_entries result actor = (actor', Return None))
  ∨ (Exists (λ action, size action ≠ 0%nat ∧ ¬ actions.well_formed action) result
     ∧ ∃ actor' err,
         actions.replay_entries result actor = (actor', Return (Some err))).
Proof.
  revert actor. induction result as [|action rest IH]; intros actor Hobj; simpl.
  - left. split; [constructor | eauto].
  - apply Forall_cons in Hobj as [Hfirst Hrest].
    destruct (Nat.eqb_spec (size action) 0) as [Hempty|Hfull].
    + destruct (IH actor Hrest) as [[Hall Hdone] | [Hbad Hfail]].
      * left. split; [constructor; auto | done].
      * right. split; [by apply Exists_cons_tl | done].
    + destruct (parseAction_outcome action actor Hfirst)
        as [[Hwf [actor' ->]] | [Hwf [err ->]]].
      * destruct (IH actor' Hrest) as [[Hall Hdone] | [Hbad Hfail]].
        -- left. split; [constructor; auto | done].
        -- right. split; [by apply Exists_cons_tl | done].
      * right. split; [by apply Exists_cons_hd | eauto].
Qed.

(** So on such a log [Replay] returns an error exactly when the content is
    not a sequence or some non-empty record is not well formed. *)
Lemma Replay_error_iff {A : Type} `{!actions.Actor A}
    (replayer : actions.Replayer) (actor : A) :
  (∀ result, actions.wholeFile replayer = actions.Sequence result →
             Forall actions.envelope_is_object result) →
  (∃ err, snd (actions.Replay replayer actor) = Return (Some err))
  ↔ actions.wholeFile replayer = actions.Malformed
    ∨ ∃ result,
        actions.wholeFile replayer = actions.Sequence result
        ∧ Exists (λ action, size action ≠ 0%nat ∧ ¬ actions.well_formed action)
            result.
Proof.
  intros Hobj. unfold actions.Replay.
  destruct (actions.wholeFile replayer) as [|result] eqn:Hfile; simpl.
  - split; [by left | unfold actions.invalid; eauto].
  - destruct (replay_entries_outcome result actor (Hobj result eq_refl))
      as [[Hall [actor' ->]] | [Hbad (actor' & err & ->)]]; simpl.
    + split; [intros [? ?]; done |].
      intros [? | (result' & [= <-] & Hbad)]; [done |].
      apply Exists_exists in Hbad as (action & Hin & Hfull & Hwf).
      rewrite Forall_forall in Hall. destruct (Hall action Hin); done.
    + split; [right; eauto | eauto].
Qed.

(** C8, where the code departs from it. A log whose second record holds a
    string under "Action", and whose third record has no "Action" at all,
    does not make [Replay] return an error: reading the envelope of the
    second record panics, and so does [NewModel]. *)
Theorem C8_replay_panics_on_untyped_envelope :
  let untyped : gmap string actions.JSON :=
    {[ "Action" := actions.JString "CreateUser";
       "Username" := actions.JString "bob" ]} in
  let no_envelope : gmap string actions.JSON :=
    {[ "Username" := actions.JString "bob" ]} in
  let replayer :=
    {| actions.wholeFile := actions.Sequence [∅; untyped; no_envelope] |} in
  let reason :=
    "interface conversion: interface {} is string, not map[string]interface {}" in
  actions.Replay replayer blank = (blank, Panic reason)
  ∧ NewModel (Some replayer) None None = Panic reason.
Proof. split; reflexivity. Qed.

End ReplayFailures.

(** ** Concrete runs *)

Section Concrete.
#[local] Existing Instance text_clock.

Lemma text_clock_survives (cs : list Call) : Forall timestamp_survives cs.
Proof. apply Forall_forall. intros c _. by destruct c. Qed.

Lemma text_clock_parses (cs : list Call) : Forall timestamp_parses cs.
Proof. apply Forall_forall. intros c _. destruct c; simpl; eauto. Qed.

Lemma dev_scenario_valid : Forall strings_valid dev_scenario.
Proof. by repeat constructor. Qed.

Lemma reachable_calls `{Clock} (cs : list Call) (m : Model) :
  reachable m → reachable (calls cs m).
Proof.
  revert m. induction cs as [|c cs IH]; intros m Hm; [done |].
  apply IH. by apply reachable_call.
Qed.

Lemma fresh_store_reachable : reachable fresh_store.
Proof. by eapply reachable_new, NewModel_fresh. Qed.

Lemma cascade_store_reachable : reachable cascade_store.
Proof. do 2 apply reachable_calls. apply fresh_store_reachable. Qed.

(** The scenario of the specification gives alice one message to read. *)
Lemma dev_store_history :
  GetChannelHistory "dev" "alice" (-1) dev_store
  = [ {| Username := "alice"; Timestamp := "2020-01-01T00:00:01Z"; Text := "hi" |} ].
Proof. reflexivity. Qed.

(** The window is taken before the filter: asked for one message, alice
    gets none, because the one message of the window is by Anonymous, whom
    she has blocked, although an older message of her own is there. *)
Lemma history_shorter_than_window :
  GetChannelHistory "dev" "alice" 1 dev_store = []
  ∧ GetChannelHistory "dev" "Anonymous" 1 dev_store
    = [ {| Username := "Anonymous"; Timestamp := "2020-01-01T00:00:02Z";
           Text := "yo" |} ].
Proof. split; reflexivity. Qed.

(** *** The theorems at concrete inputs *)


(** The history theorem on the "dev" channel as alice sees it. *)
Lemma C3_witness :
  channels dev_store !! "dev" = Some dev_channel
  ∧ users dev_store !! "alice" = Some alice
  ∧ is_int (len (Messages dev_channel))
  ∧ GetChannelHistory "dev" "alice" (-1) dev_store
    = filter (λ message, Username message ∉ BlockedUsers alice) (Messages dev_channel)
  ∧ ∀ count, 0 <= count → is_int count →
      GetChannelHistory "dev" "alice" count dev_store
      = filter (λ message, Username message ∉ BlockedUsers alice)
          (drop (length (Messages dev_channel) - Z.to_nat count)%nat
             (Messages dev_channel))
      ∧ len (drop (length (Messages dev_channel) - Z.to_nat count)%nat
               (Messages dev_channel))
        = Z.min count (len (Messages dev_channel))
      ∧ len (GetChannelHistory "dev" "alice" count dev_store)
        <= len (drop (length (Messages dev_channel) - Z.to_nat count)%nat
                  (Messages dev_channel)).
Proof.
  assert (Hc : channels dev_store !! "dev" = Some dev_channel) by reflexivity.
  assert (Hu : users dev_store !! "alice" = Some alice) by reflexivity.
  assert (Hlen : is_int (len (Messages dev_channel))).
  { unfold is_int. vm_compute. split; [discriminate | reflexivity]. }
  refine (conj Hc (conj Hu (conj Hlen _))).
  exact (C3_history_window_then_filter dev_store "dev" "alice" dev_channel alice
           Hc Hu Hlen).
Defined.

(** "user 1" holds a space and is refused on a fresh store. *)
Lemma C6_witness :
  ("user 1" = "" ∨ ∃ before after, "user 1" = before +:+ " " +:+ after)
  ∧ CreateUser "user 1" fresh_store = fresh_store
  ∧ CreateChannel "user 1" fresh_store = fresh_store.
Proof.
  assert (Hname : "user 1" = "" ∨ ∃ before after, "user 1" = before +:+ " " +:+ after).
  { right. by exists "user", "1". }
  split; [exact Hname |].
  exact (C6_create_rejects_empty_and_spaces fresh_store "user 1" Hname).
Defined.

(** bob has blocked alice; deleting alice empties bob's blocked-set. *)
Lemma C7_witness :
  reachable cascade_store
  ∧ is_Some (users cascade_store !! "alice")
  ∧ "alice" ≠ "Anonymous"
  ∧ users (DeleteUser "alice" cascade_store) !! "alice" = None
  ∧ ∀ X, X ≠ "alice" →
      (is_Some (users (DeleteUser "alice" cascade_store) !! X)
       ↔ is_Some (users cascade_store !! X))
      ∧ ("alice" ∉ blocked (DeleteUser "alice" cascade_store) X)
      ∧ (∀ name, name ≠ "alice" →
           (name ∈ blocked (DeleteUser "alice" cascade_store) X
            ↔ name ∈ blocked cascade_store X))
      ∧ blocked (DeleteUser "alice" cascade_store) X
        = filter (λ name, name ≠ "alice") (blocked cascade_store X).
Proof.
  assert (Hexists : is_Some (users cascade_store !! "alice")) by (by eexists).
  assert (Hne : "alice" ≠ "Anonymous") by discriminate.
  refine (conj cascade_store_reachable (conj Hexists (conj Hne _))).
  exact (C7_delete_cascade cascade_store "alice" cascade_store_reachable Hexists Hne).
Defined.

(** Asked for [-2] messages of "dev", Anonymous gets none. *)
Lemma C10_witness :
  channels dev_store !! "dev" = Some dev_channel
  ∧ users dev_store !! "Anonymous" = Some Anonymous
  ∧ is_int (-2) ∧ -2 < -1 ∧ len (Messages dev_channel) - 2 ^ 63 < -2
  ∧ GetChannelHistory "dev" "Anonymous" (-2) dev_store = [].
Proof.
  assert (Hc : channels dev_store !! "dev" = Some dev_channel) by reflexivity.
  assert (Hu : users dev_store !! "Anonymous" = Some Anonymous) by reflexivity.
  assert (Hint : is_int (-2)) by (unfold is_int; lia).
  assert (Hlt : -2 < -1) by lia.
  assert (Hno : len (Messages dev_channel) - 2 ^ 63 < -2) by (vm_compute; reflexivity).
  refine (conj Hc (conj Hu (conj Hint (conj Hlt (conj Hno _))))).
  exact (C10_history_below_minus_one dev_store "dev" "Anonymous" dev_channel
           Anonymous (-2) Hc Hu Hint Hlt Hno).
Defined.

(** *** Where the code does something else *)


(** Against C4: alice has blocked Anonymous; blocking Anonymous again
    changes no blocked-set, and yet a second BlockUser record is written. *)
Lemma C4_counterexample :
  ¬ (∀ (m : Model) (who target : string),
       (target ∈ blocked m who →
        users (BlockUser who target m) = users m
        ∧ channels (BlockUser who target m) = channels m
        ∧ log_of (BlockUser who target m) = log_of m)
       ∧ (target ∉ blocked m who →
          users (UnblockUser who target m) = users m
          ∧ channels (UnblockUser who target m) = channels m
          ∧ log_of (UnblockUser who target m) = log_of m)).
Proof.
  intros Hclaim.
  destruct (Hclaim dev_store "alice" "Anonymous") as [Hblock _].
  assert (Hin : "Anonymous" ∈ blocked dev_store "alice").
  { apply slice_contains_true. reflexivity. }
  destruct (Hblock Hin) as (_ & _ & Hlog).
  apply (f_equal length) in Hlog. vm_compute in Hlog. discriminate.
Qed.

(** Against C5: "Anonymous" unblocking "Anonymous" on a fresh store is not
    rejected; a record is written and a notification is triggered. *)
Lemma C5_counterexample :
  ¬ (∀ (m : Model) (who target : string),
       users m !! who = None ∨ users m !! target = None
       ∨ who = target ∨ who = "Anonymous" →
       BlockUser who target m = m ∧ UnblockUser who target m = m).
Proof.
  intros Hclaim.
  destruct (Hclaim fresh_store "Anonymous" "Anonymous") as [_ Hunblock].
  { right. right. by left. }
  apply (f_equal (λ m, length (log_of m))) in Hunblock.
  vm_compute in Hunblock. discriminate.
Qed.

(** Against C6: a name with a tab in it holds whitespace, and both
    [CreateUser] and [CreateChannel] accept it. *)
Lemma C6_counterexample :
  ¬ (∀ (m : Model) (name : string),
       name = "" ∨ contains_whitespace name = true →
       CreateUser name m = m ∧ CreateChannel name m = m).
Proof.
  intros Hclaim.
  destruct (Hclaim fresh_store tabbed_name) as [Huser _].
  { right. reflexivity. }
  apply (f_equal (λ m, users m !! tabbed_name)) in Huser.
  vm_compute in Huser. discriminate.
Qed.

(** Against C10: with the smallest [int] as count, the subtraction wraps
    around and both messages of "dev" come back. *)
Lemma C10_counterexample :
  ¬ (∀ (m : Model) (channelname username : string) (count : Z),
       is_Some (channels m !! channelname) →
       is_Some (users m !! username) →
       is_int count →
       count < -1 →
       GetChannelHistory channelname username count m = []).
Proof.
  intros Hclaim.
  assert (Hempty : GetChannelHistory "dev" "Anonymous" (- 2 ^ 63) dev_store = []).
  { apply Hclaim.
    - by eexists.
    - by eexists.
    - unfold is_int. lia.
    - lia. }
  vm_compute in Hempty. discriminate.
Qed.

End Concrete.

(** *** Timestamps with a reading of the monotonic clock *)

Section MonotonicReadings.
#[local] Existing Instance monotonic_clock.

(** A message is posted with a timestamp that carries a reading of the
    monotonic clock, as every timestamp of [time.Now] does. The names and
    the text are valid UTF-8, and yet the store replayed from the log does
    not hold the message the first store holds: it holds it with the
    timestamp parsed from the log, which has no such reading. *)
Lemma monotonic_reading_not_replayed :
  ¬ (∀ (cs : list Call) (engine : option subs.Engine)
       (wallclock : nat → string * option nat)
       (logger' : option actions.Logger) (engine' : option subs.Engine),
       Forall strings_valid cs →
       let live :=
         calls cs (seeded (Some (actions.NewLogger None wallclock)) engine) in
       ∃ file replayed,
         log_file live = Some file
         ∧ NewModel (Some (actions.NewReplayer file)) logger' engine'
           = Return (Some replayed, None)
         ∧ users replayed = users live
         ∧ channels replayed = channels live).
Proof.
  intros Hclaim.
  destruct (Hclaim
              [@CallPostMessage monotonic_clock "General" "Anonymous"
                 monotonic_reading "hi"]
              None monotonic_wallclock None None)
    as (file & replayed & Hfile & Hnew & _ & Hchannels).
  { by repeat constructor. }
  vm_compute in Hfile. injection Hfile as <-.
  vm_compute in Hnew. injection Hnew as <-.
  apply (f_equal (λ chs, chs !! "General")) in Hchannels.
  vm_compute in Hchannels. discriminate.
Qed.

End MonotonicReadings.

(** ** More about the state store *)

Section StoreInvariants.
Context `{Clock}.

Ltac unfold_calls :=
  unfold CreateUser, DeleteUser, BlockUser, UnblockUser, CreateChannel,
    DeleteChannel, PostMessage.

Lemma unblock_deleted_Name (username : string) (user : User) :
  Name (unblock_deleted username user) = Name user.
Proof. unfold unblock_deleted. by case_decide. Qed.

(** Taking a name out of a blocked-set without repetition, the way
    [DeleteUser] and [UnblockUser] do it, leaves the other names in place. *)
Lemma slice_remove_filter (xs : list string) (name : string) :
  NoDup xs →
  (if decide (slice_index xs name ≠ -1)
   then slice_remove_at xs (slice_index xs name) else xs)
  = filter (λ x, x ≠ name) xs.
Proof.
  intros Hnd. case_decide as Hfound.
  - by apply slice_remove_found.
  - symmetry. apply filter_keeps_all. intros x Hx ->.
    by apply slice_index_missing in Hfound.
Qed.

Lemma unblock_deleted_filter (username : string) (user : User) :
  NoDup (BlockedUsers user) →
  BlockedUsers (unblock_deleted username user)
  = filter (λ x, x ≠ username) (BlockedUsers user).
Proof.
  intros Hnd. rewrite <- slice_remove_filter by done.
  unfold unblock_deleted. by case_decide.
Qed.

Lemma call_preserves_names_ok (c : Call) (m : Model) :
  names_ok m → names_ok (call c m).
Proof.
  intros [Hu Hc]. unfold names_ok. destruct c; simpl; unfold_calls;
    repeat case_match; simpl; try (by split); split; try done.
  - intros name user [[<- <-] | [_ Hold]]%lookup_insert_Some; [| by eauto].
    unfold valid_name. done.
  - intros name user. rewrite lookup_fmap.
    intros (old & Hold & ->)%fmap_Some.
    apply lookup_delete_Some in Hold as [_ Hold].
    rewrite unblock_deleted_Name. eauto.
  - intros name user [[<- <-] | [_ Hold]]%lookup_insert_Some; [| by eauto].
    simpl. eauto.
  - intros name user [[<- <-] | [_ Hold]]%lookup_insert_Some; [| by eauto].
    simpl. eauto.
  - intros name channel [[<- <-] | [_ Hold]]%lookup_insert_Some; [| by eauto].
    unfold valid_name. done.
  - intros name channel [_ Hold]%lookup_delete_Some. eauto.
  - intros name channel [[<- <-] | [_ Hold]]%lookup_insert_Some; [| by eauto].
    simpl. eauto.
Qed.

Lemma call_preserves_messages_ok (c : Call) (m : Model) :
  names_ok m → messages_ok m → messages_ok (call c m).
Proof.
  intros [Hu Hc] Hm. unfold messages_ok. destruct c; simpl; unfold_calls;
    repeat case_match; simpl; try done.
  - intros name channel message [[<- <-] | [_ Hold]]%lookup_insert_Some Hin;
      [by apply elem_of_nil in Hin | by eauto].
  - intros name channel message [_ Hold]%lookup_delete_Some. eauto.
  - intros name channel message [[<- <-] | [_ Hold]]%lookup_insert_Some Hin;
      [| by eauto].
    simpl in Hin. apply elem_of_app in Hin as [Hin | ->%list_elem_of_singleton].
    + by eauto.
    + simpl. split.
      * intros ->. done.
      * by eapply Hu.
Qed.

Lemma call_preserves_blocked_sets_ok (c : Call) (m : Model) :
  blocked_sets_ok m → blocked_sets_ok (call c m).
Proof.
  intros Hb. unfold blocked_sets_ok. destruct c; simpl; unfold_calls;
    repeat case_match; simpl; try done.
  - (* CreateUser *)
    intros name user [[<- <-] | [Hne Hold]]%lookup_insert_Some; simpl.
    + split_and!; [apply NoDup_nil_2 | apply not_elem_of_nil | | done].
      by intros b ?%elem_of_nil.
    + destruct (Hb name user Hold) as (Hnd & Hself & Hknown & Hanon).
      split_and!; try done.
      intros b Hin. apply lookup_insert_is_Some'. right. by apply Hknown.
  - (* DeleteUser *)
    intros name user. rewrite lookup_fmap.
    intros (old & Hold & ->)%fmap_Some.
    apply lookup_delete_Some in Hold as [Hne Hold].
    destruct (Hb name old Hold) as (Hnd & Hself & Hknown & Hanon).
    rewrite unblock_deleted_filter by done.
    split_and!.
    + by apply NoDup_filter.
    + intros [_ ?]%list_elem_of_filter. done.
    + intros b [Hb1 Hb2]%list_elem_of_filter.
      rewrite lookup_fmap, lookup_delete_ne by done.
      apply fmap_is_Some. by apply Hknown.
    + intros ->. rewrite Hanon by done. done.
  - (* BlockUser, the name is added *)
    intros name user [[<- <-] | [Hne Hold]]%lookup_insert_Some; simpl.
    + destruct (Hb username _ ltac:(eassumption)) as (Hnd & Hself & Hknown & Hanon).
      split_and!.
      * apply NoDup_app. split_and!; [done | | apply NoDup_singleton].
        intros x Hx ->%list_elem_of_singleton.
        apply slice_contains_true in Hx. congruence.
      * intros [?| ->%list_elem_of_singleton]%elem_of_app; done.
      * intros b [Hin | ->%list_elem_of_singleton]%elem_of_app;
          apply lookup_insert_is_Some'; right; [by apply Hknown | by eexists].
      * done.
    + destruct (Hb name user Hold) as (Hnd & Hself & Hknown & Hanon).
      split_and!; try done.
      intros b Hin. apply lookup_insert_is_Some'. right. by apply Hknown.
  - (* UnblockUser, the name is removed *)
    intros name user [[<- <-] | [Hne Hold]]%lookup_insert_Some; simpl.
    + destruct (Hb username _ ltac:(eassumption)) as (Hnd & Hself & Hknown & Hanon).
      pose proof (slice_remove_sublist (BlockedUsers u)
                    (slice_index (BlockedUsers u) usernameToUnblock)) as Hsub.
      split_and!.
      * by apply slice_remove_NoDup.
      * intros Hin. apply Hself. by eapply elem_of_sublist.
      * intros b Hin. apply lookup_insert_is_Some'. right.
        apply Hknown. by eapply elem_of_sublist.
      * intros ->. rewrite Hanon in * by done. done.
    + destruct (Hb name user Hold) as (Hnd & Hself & Hknown & Hanon).
      split_and!; try done.
      intros b Hin. apply lookup_insert_is_Some'. right. by apply Hknown.
Qed.

Lemma call_preserves_store_ok (c : Call) (m : Model) :
  store_ok m → store_ok (call c m).
Proof.
  intros (Hn & Hb & Hm). split_and!.
  - by apply call_preserves_names_ok.
  - by apply call_preserves_blocked_sets_ok.
  - by apply call_preserves_messages_ok.
Qed.

Lemma calls_preserve_store_ok (cs : list Call) (m : Model) :
  store_ok m → store_ok (calls cs m).
Proof.
  revert m. induction cs as [|c cs IH]; intros m Hm; [done |].
  apply IH. by apply call_preserves_store_ok.
Qed.

Lemma empty_store_ok (logger : option actions.Logger) (engine : option subs.Engine) :
  store_ok {| actionsLogger := logger; subsEngine := engine;
              users := ∅; channels := ∅ |}.
Proof. split_and!; [split |..]; intros ? ? ?; done. Qed.

Lemma reachable_store_ok (m : Model) : reachable m → store_ok m.
Proof.
  induction 1 as [replayer logger engine m Hnew | c m _ IH].
  - unfold NewModel in Hnew. destruct replayer as [replayer|].
    + unfold actions.Replay in Hnew.
      destruct (actions.wholeFile replayer) as [|result]; [done |].
      destruct (replay_entries_calls result
        (detach {| actionsLogger := logger; subsEngine := engine;
                   users := ∅; channels := ∅ |})) as [cs Hcs].
      destruct (actions.replay_entries result _) as [m1 [[err|]|reason]];
        simplify_eq/=.
      assert (Hm1 : store_ok
        (calls cs
           (detach {| actionsLogger := logger; subsEngine := engine;
                      users := ∅; channels := ∅ |}))).
      { apply calls_preserve_store_ok, empty_store_ok. }
      exact Hm1.
    + simplify_eq/=.
      apply (calls_preserve_store_ok
               [CallCreateUser "Anonymous"; CallCreateChannel "General"]).
      apply empty_store_ok.
  - by apply call_preserves_store_ok.
Qed.

End StoreInvariants.

Section StoreFacts.
Context `{Clock}.

Lemma GetUsers_dom (m : Model) : names_ok m → GetUsers m = dom (users m).
Proof.
  intros [Hu _]. unfold GetUsers. apply set_eq. intros name.
  rewrite elem_of_list_to_set, list_elem_of_fmap, elem_of_dom. split.
  - intros (user & -> & Hin). apply list_elem_of_fmap in Hin as ([key user'] & -> & Hin).
    apply elem_of_map_to_list in Hin. simpl.
    destruct (Hu key user' Hin) as [Hname _]. rewrite Hname. by eexists.
  - intros [user Hin]. exists user. destruct (Hu name user Hin) as [Hname _].
    split; [done |]. apply list_elem_of_fmap. exists (name, user).
    split; [done |]. by apply elem_of_map_to_list.
Qed.

Lemma GetChannels_dom (m : Model) : names_ok m → GetChannels m = dom (channels m).
Proof.
  intros [_ Hc]. unfold GetChannels. apply set_eq. intros name.
  rewrite elem_of_list_to_set, list_elem_of_fmap, elem_of_dom. split.
  - intros (channel & -> & Hin).
    apply list_elem_of_fmap in Hin as ([key channel'] & -> & Hin).
    apply elem_of_map_to_list in Hin. simpl.
    destruct (Hc key channel' Hin) as [Hname _]. rewrite Hname. by eexists.
  - intros [channel Hin]. exists channel. destruct (Hc name channel Hin) as [Hname _].
    split; [done |]. apply list_elem_of_fmap. exists (name, channel).
    split; [done |]. by apply elem_of_map_to_list.
Qed.

(** X1. In every store a process can hold, [GetUsers] and [GetChannels]
    return exactly the keys of the two maps; every such name is non-empty
    and has no space; and [GetUserInfo] and [GetChannelInfo] answer with
    the empty name exactly for the names that are unknown (which is how
    callers tell "unknown" from "known"). *)
Theorem X1_names_of_a_store (m : Model) :
  reachable m →
  GetUsers m = dom (users m)
  ∧ GetChannels m = dom (channels m)
  ∧ (∀ name, name ∈ GetUsers m →
       name ≠ "" ∧ strings_Contains name " " = false
       ∧ Name (GetUserInfo name m) = name)
  ∧ (∀ name, name ∈ GetChannels m →
       name ≠ "" ∧ strings_Contains name " " = false
       ∧ InfoName (GetChannelInfo name m) = name)
  ∧ (∀ name, Name (GetUserInfo name m) = "" ↔ name ∉ GetUsers m)
  ∧ (∀ name, InfoName (GetChannelInfo name m) = "" ↔ name ∉ GetChannels m).
Proof.
  intros Hreach. destruct (reachable_store_ok m Hreach) as (Hn & _ & _).
  pose proof Hn as [Hu Hc].
  rewrite GetUsers_dom, GetChannels_dom by done.
  unfold GetUserInfo, GetChannelInfo. split_and!; try done.
  - intros name [user Hin]%elem_of_dom. rewrite Hin. simpl.
    destruct (Hu name user Hin) as [Hname [? ?]]. done.
  - intros name [channel Hin]%elem_of_dom. rewrite Hin. simpl.
    destruct (Hc name channel Hin) as [Hname [? ?]]. done.
  - intros name. rewrite not_elem_of_dom.
    destruct (users m !! name) as [user|] eqn:Hin; simpl; [| done].
    destruct (Hu name user Hin) as [Hname [? ?]]. rewrite Hname.
    split; [done | intros [=]].
  - intros name. rewrite not_elem_of_dom.
    destruct (channels m !! name) as [channel|] eqn:Hin; simpl; [| done].
    destruct (Hc name channel Hin) as [Hname [? ?]]. rewrite Hname.
    split; [done | intros [=]].
Qed.

(** X2. In every store a process can hold, a blocked-set holds no name
    twice, never the name of its owner, and only names of users the store
    knows; and "Anonymous" has blocked nobody. *)
Theorem X2_blocked_sets_of_a_store (m : Model) :
  reachable m →
  (∀ name,
     NoDup (blocked m name)
     ∧ (name ∉ blocked m name)
     ∧ (∀ b, b ∈ blocked m name → b ∈ GetUsers m))
  ∧ blocked m "Anonymous" = [].
Proof.
  intros Hreach. destruct (reachable_store_ok m Hreach) as (Hn & Hb & _).
  rewrite GetUsers_dom by done. unfold blocked. split.
  - intros name. destruct (users m !! name) as [user|] eqn:Hin.
    + destruct (Hb name user Hin) as (Hnd & Hself & Hknown & _).
      split_and!; try done. intros b Hbin. apply elem_of_dom. by apply Hknown.
    + split_and!; [apply NoDup_nil_2 | apply not_elem_of_nil |].
      by intros b ?%elem_of_nil.
  - destruct (users m !! "Anonymous") as [user|] eqn:Hin; [| done].
    by destruct (Hb "Anonymous" user Hin) as (_ & _ & _ & ->).
Qed.

(** X3. In every store a process can hold, every message of every channel
    has a non-empty text and an author whose name is non-empty and has no
    space. *)
Theorem X3_messages_of_a_store (m : Model) (name : string) (channel : Channel)
    (message : Message) :
  reachable m →
  channels m !! name = Some channel →
  message ∈ Messages channel →
  Text message ≠ ""
  ∧ Username message ≠ ""
  ∧ strings_Contains (Username message) " " = false.
Proof.
  intros Hreach Hin Hmsg. destruct (reachable_store_ok m Hreach) as (_ & _ & Hm).
  destruct (Hm name channel message Hin Hmsg) as [? [? ?]]. done.
Qed.

(** *** Channels only grow *)

Lemma call_appends (c : Call) (m : Model) (name : string) (channel : Channel) :
  channels m !! name = Some channel →
  c ≠ CallDeleteChannel name →
  ∃ channel', channels (call c m) !! name = Some channel'
              ∧ Messages channel `prefix_of` Messages channel'
              ∧ (length (Messages channel') ≤ S (length (Messages channel)))%nat.
Proof.
  intros Hin Hne. destruct c; simpl; unfold CreateUser, DeleteUser, BlockUser,
    UnblockUser, CreateChannel, DeleteChannel, PostMessage;
    repeat case_match; simpl; try (exists channel; split_and!; [done | done | lia]).
  - rewrite lookup_insert_ne by congruence.
    exists channel. split_and!; [done | done | lia].
  - rewrite lookup_delete_ne by congruence.
    exists channel. split_and!; [done | done | lia].
  - destruct (decide (channelname = name)) as [->|Hother].
    + rewrite lookup_insert_eq. simplify_eq. eexists. split; [done |]. simpl.
      split; [by apply prefix_app_r | rewrite length_app; simpl; lia].
    + rewrite lookup_insert_ne by done.
      exists channel. split_and!; [done | done | lia].
Qed.

(** X4. As long as a channel is not deleted, it stays and keeps its
    messages: after any sequence of calls that does not delete it, the
    messages it had are the first messages it has, in the same order. *)
Theorem X4_channel_append_only (cs : list Call) (m : Model) (name : string)
    (channel : Channel) :
  channels m !! name = Some channel →
  Forall (λ c, c ≠ CallDeleteChannel name) cs →
  ∃ channel', channels (calls cs m) !! name = Some channel'
              ∧ Messages channel `prefix_of` Messages channel'
              ∧ (length (Messages channel')
                 ≤ length (Messages channel) + length cs)%nat.
Proof.
  revert m channel. induction cs as [|c cs IH]; intros m channel Hin Hcs.
  - exists channel. simpl. split_and!; [done | done | lia].
  - apply Forall_cons in Hcs as [Hc Hcs].
    destruct (call_appends c m name channel Hin Hc) as (mid & Hmid & Hpre & Hlen).
    destruct (IH (call c m) mid Hmid Hcs) as (channel' & Hin' & Hpre' & Hlen').
    exists channel'. split; [done |]. split.
    + by etrans.
    + simpl. lia.
Qed.

End StoreFacts.

Section StoreCalls.
Context `{Clock}.

(** *** Posting *)

(** X5. [PostMessage] leaves the store exactly as it was (nothing logged,
    nobody notified) when the channel is unknown, or the author is
    unknown, or the text is empty, and in no other case. *)
Theorem X5_post_rejected_iff (m : Model) (channelname username text : string)
    (timestamp : Time) :
  PostMessage channelname username timestamp text m = m
  ↔ channels m !! channelname = None ∨ users m !! username = None ∨ text = "".
Proof.
  unfold PostMessage.
  destruct (channels m !! channelname) as [channel|] eqn:Hc; [| by split; auto].
  destruct (users m !! username) as [user|] eqn:Hu; [| by split; auto].
  destruct text as [|ch text]; simpl; [by split; auto |].
  split; [| by intros [? | [? | ?]]].
  intros Heq. apply (f_equal (λ m, channels m !! channelname)) in Heq.
  simpl in Heq. rewrite lookup_insert_eq, Hc in Heq. simplify_eq.
  apply (f_equal (λ c, length (Messages c))) in Heq. simpl in Heq.
  rewrite length_app in Heq. simpl in Heq. lia.
Qed.

(** X6. A post that goes through adds one message to the channel: the
    channel counts one message more; every known reader who has not
    blocked the author finds the new message at the end of the full
    history, the others find the history they had; the other channels
    and all users are as before. *)
Theorem X6_post_accepted (m : Model) (channelname username text : string)
    (timestamp : Time) (channel : Channel) :
  channels m !! channelname = Some channel →
  is_Some (users m !! username) →
  text ≠ "" →
  let m' := PostMessage channelname username timestamp text m in
  let message := {| Username := username; Timestamp := timestamp; Text := text |} in
  NumMessages (GetChannelInfo channelname m')
  = NumMessages (GetChannelInfo channelname m) + 1
  ∧ (∀ reader,
       GetChannelHistory channelname reader (-1) m'
       = (GetChannelHistory channelname reader (-1) m
          ++ if decide (is_Some (users m !! reader) ∧ username ∉ blocked m reader)
             then [message] else [])%list)
  ∧ (∀ other reader count, other ≠ channelname →
       GetChannelHistory other reader count m'
       = GetChannelHistory other reader count m)
  ∧ users m' = users m.
Proof.
  intros Hc [author Hu] Htext m' message.
  assert (Hm' : users m' = users m
                ∧ channels m'
                  = <[channelname :=
                        {| ChannelName := ChannelName channel;
                           Messages := (Messages channel ++ [message])%list |}]>
                      (channels m)).
  { subst m'. unfold PostMessage. rewrite Hc, Hu.
    destruct text; [done |]. done. }
  destruct Hm' as [Husers Hchannels]. split_and!.
  - unfold GetChannelInfo. rewrite Hchannels, lookup_insert_eq, Hc. simpl.
    unfold len. rewrite length_app. simpl. lia.
  - intros reader. unfold GetChannelHistory, blocked.
    rewrite Hchannels, lookup_insert_eq, Hc, Husers.
    destruct (users m !! reader) as [user|] eqn:Hr; simpl.
    + rewrite !drop_0, !copy_messages_filter, filter_app.
      f_equal. rewrite filter_cons, filter_nil. simpl.
      destruct (decide (username ∉ BlockedUsers user)).
      * by rewrite decide_True by eauto.
      * by rewrite decide_False by (intros [_ ?]; done).
    + done.
  - intros other reader count Hother. unfold GetChannelHistory.
    by rewrite Hchannels, lookup_insert_ne, Husers by done.
  - done.
Qed.

(** *** Creating and deleting *)

(** X7. Creating and deleting are idempotent: a second [CreateUser],
    [CreateChannel], [DeleteUser] or [DeleteChannel] with the same name
    changes nothing at all, neither the state nor the log nor the
    notifications triggered. *)
Theorem X7_create_delete_idempotent (m : Model) (name : string) :
  CreateUser name (CreateUser name m) = CreateUser name m
  ∧ CreateChannel name (CreateChannel name m) = CreateChannel name m
  ∧ DeleteUser name (DeleteUser name m) = DeleteUser name m
  ∧ DeleteChannel name (DeleteChannel name m) = DeleteChannel name m.
Proof.
  split_and!.
  - assert (Hcases : CreateUser name m = m
                     ∨ is_Some (users (CreateUser name m) !! name)).
    { unfold CreateUser. destruct (users m !! name); [by left |].
      destruct (decide (name = "")); [by left |].
      destruct (strings_Contains name " "); [by left |].
      right. simpl. rewrite lookup_insert_eq. eauto. }
    destruct Hcases as [Hsame | [user Hin]]; [congruence |].
    unfold CreateUser at 1. by rewrite Hin.
  - assert (Hcases : CreateChannel name m = m
                     ∨ is_Some (channels (CreateChannel name m) !! name)).
    { unfold CreateChannel. destruct (channels m !! name); [by left |].
      destruct (decide (name = "")); [by left |].
      destruct (strings_Contains name " "); [by left |].
      right. simpl. rewrite lookup_insert_eq. eauto. }
    destruct Hcases as [Hsame | [channel Hin]]; [congruence |].
    unfold CreateChannel at 1. by rewrite Hin.
  - assert (Hcases : DeleteUser name m = m
                     ∨ users (DeleteUser name m) !! name = None).
    { unfold DeleteUser. destruct (users m !! name); [| by left].
      destruct (decide (name = "Anonymous")); [by left |].
      right. simpl. by rewrite lookup_fmap, lookup_delete_eq. }
    destruct Hcases as [Hsame | Hout]; [congruence |].
    unfold DeleteUser at 1. by rewrite Hout.
  - assert (Hcases : DeleteChannel name m = m
                     ∨ channels (DeleteChannel name m) !! name = None).
    { unfold DeleteChannel. destruct (channels m !! name); [| by left].
      destruct (decide (name = "General")); [by left |].
      right. simpl. by rewrite lookup_delete_eq. }
    destruct Hcases as [Hsame | Hout]; [congruence |].
    unfold DeleteChannel at 1. by rewrite Hout.
Qed.

(** X8. Creating a user or channel that was not there and deleting it
    again gives back the users and channels there were (for a name other
    than the two reserved ones, in a store a process can hold). The
    deletion finds nothing to clean up, since nobody can have blocked a
    user that did not exist. *)
Theorem X8_create_then_delete (m : Model) (name : string) :
  reachable m →
  users m !! name = None →
  channels m !! name = None →
  name ≠ "Anonymous" →
  name ≠ "General" →
  users (DeleteUser name (CreateUser name m)) = users m
  ∧ channels (DeleteUser name (CreateUser name m)) = channels m
  ∧ users (DeleteChannel name (CreateChannel name m)) = users m
  ∧ channels (DeleteChannel name (CreateChannel name m)) = channels m.
Proof.
  intros Hreach Hu Hc Hanon Hgen.
  destruct (reachable_store_ok m Hreach) as (_ & Hb & _).
  assert (Hclean : unblock_deleted name <$> users m = users m).
  { apply map_eq. intros key. rewrite lookup_fmap.
    destruct (users m !! key) as [user|] eqn:Hkey; simpl; [| done].
    f_equal. unfold unblock_deleted. case_decide as Hfound; [| done].
    exfalso. apply Hfound. apply slice_index_missing. intros Hin.
    destruct (Hb key user Hkey) as (_ & _ & Hknown & _).
    destruct (Hknown name Hin) as [? ?]. congruence. }
  split_and!.
  - unfold CreateUser. rewrite Hu.
    destruct (decide (name = "")); [unfold DeleteUser; by rewrite Hu |].
    destruct (strings_Contains name " "); [unfold DeleteUser; by rewrite Hu |].
    unfold DeleteUser. simpl. rewrite lookup_insert_eq.
    rewrite decide_False by done. simpl.
    rewrite delete_insert_eq, delete_id by done. done.
  - unfold CreateUser. rewrite Hu.
    destruct (decide (name = "")); [unfold DeleteUser; by rewrite Hu |].
    destruct (strings_Contains name " "); [unfold DeleteUser; by rewrite Hu |].
    unfold DeleteUser. simpl. rewrite lookup_insert_eq.
    by rewrite decide_False by done.
  - unfold CreateChannel. rewrite Hc.
    destruct (decide (name = "")); [unfold DeleteChannel; by rewrite Hc |].
    destruct (strings_Contains name " "); [unfold DeleteChannel; by rewrite Hc |].
    unfold DeleteChannel. simpl. rewrite lookup_insert_eq.
    by rewrite decide_False by done.
  - unfold CreateChannel. rewrite Hc.
    destruct (decide (name = "")); [unfold DeleteChannel; by rewrite Hc |].
    destruct (strings_Contains name " "); [unfold DeleteChannel; by rewrite Hc |].
    unfold DeleteChannel. simpl. rewrite lookup_insert_eq.
    rewrite decide_False by done. simpl.
    by rewrite delete_insert_eq, delete_id by done.
Qed.

End StoreCalls.

Section LogAndNotify.
Context `{Clock}.


End LogAndNotify.

Section Blocking.
Context `{Clock}.

(** *** Blocking and unblocking *)

(** X10. A block that passes validation puts the target in the caller's
    blocked-set and changes nothing else: the other names of that set,
    the blocked-sets of the other users, the set of users and the
    channels are as before. From then on no history the caller asks for,
    whatever the count, holds a message by the target. *)
Theorem X10_block_accepted (m : Model) (who target : string) :
  is_Some (users m !! who) →
  is_Some (users m !! target) →
  who ≠ "Anonymous" →
  who ≠ target →
  let m' := BlockUser who target m in
  target ∈ blocked m' who
  ∧ (∀ name, name ≠ target → (name ∈ blocked m' who ↔ name ∈ blocked m who))
  ∧ (∀ other, other ≠ who → users m' !! other = users m !! other)
  ∧ dom (users m') = dom (users m)
  ∧ channels m' = channels m
  ∧ (∀ channelname count message,
       message ∈ GetChannelHistory channelname who count m' →
       Username message ≠ target).
Proof.
  intros [user Hwho] [tuser Htarget] Hanon Hself m'.
  assert (Hm' : channels m' = channels m
    ∧ ((slice_contains (BlockedUsers user) target = true ∧ users m' = users m)
       ∨ (slice_contains (BlockedUsers user) target = false
          ∧ users m'
            = <[who := {| Name := Name user;
                          BlockedUsers := (BlockedUsers user ++ [target])%list |}]>
                (users m)))).
  { subst m'. unfold BlockUser. rewrite Hwho, Htarget.
    rewrite decide_False by done. rewrite decide_False by done.
    destruct (slice_contains (BlockedUsers user) target); simpl; auto. }
  destruct Hm' as [Hchannels Husers].
  assert (Hblocked : target ∈ blocked m' who
    ∧ ∀ name, name ≠ target → (name ∈ blocked m' who ↔ name ∈ blocked m who)).
  { unfold blocked. destruct Husers as [[Hfound ->] | [Hfound ->]].
    - rewrite Hwho. split; [by apply slice_contains_true | done].
    - rewrite lookup_insert_eq, Hwho. simpl. split.
      + apply elem_of_app. right. by apply list_elem_of_singleton.
      + intros name Hname. rewrite elem_of_app, list_elem_of_singleton.
        split; [by intros [? | ?] | by left]. }
  destruct Hblocked as [Hin Hrest]. split_and!; try done.
  - intros other Hother. destruct Husers as [[_ ->] | [_ ->]]; [done |].
    by rewrite lookup_insert_ne.
  - destruct Husers as [[_ ->] | [_ ->]]; [done |].
    rewrite dom_insert_L. pose proof (elem_of_dom_2 _ _ _ Hwho) as Hdom.
    apply set_eq. intros x. rewrite elem_of_union, elem_of_singleton.
    split; [by intros [-> | ?] | by right].
  - intros channelname count message. unfold GetChannelHistory.
    rewrite Hchannels.
    destruct (channels m !! channelname) as [channel|]; [| by intros ?%elem_of_nil].
    unfold blocked in Hin.
    destruct (users m' !! who) as [user'|]; [| by intros ?%elem_of_nil].
    rewrite copy_messages_filter.
    intros [Hvisible _]%list_elem_of_filter Heq. apply Hvisible.
    by rewrite Heq.
Qed.

(** X11. After [UnblockUser(who, target)] on a store a process can hold,
    [target] is not in [who]'s blocked-set, whatever the two names are;
    the other names of that set are kept in their order, and no other
    user's entry and no channel changes. *)
Theorem X11_unblock_removes (m : Model) (who target : string) :
  reachable m →
  let m' := UnblockUser who target m in
  (target ∉ blocked m' who)
  ∧ blocked m' who = filter (λ name, name ≠ target) (blocked m who)
  ∧ (∀ other, other ≠ who → users m' !! other = users m !! other)
  ∧ dom (users m') = dom (users m)
  ∧ channels m' = channels m.
Proof.
  intros Hreach m'. destruct (reachable_store_ok m Hreach) as (_ & Hb & _).
  assert (Hfilter : blocked m' who = filter (λ name, name ≠ target) (blocked m who)).
  { subst m'. unfold blocked, UnblockUser.
    destruct (users m !! who) as [user|] eqn:Hwho; [| by rewrite Hwho].
    destruct (Hb who user Hwho) as (Hnd & _ & Hknown & _).
    destruct (users m !! target) as [tuser|] eqn:Htarget.
    - rewrite <- slice_remove_filter by done.
      case_decide; simpl; [by rewrite lookup_insert_eq | by rewrite Hwho].
    - rewrite Hwho. symmetry. apply filter_keeps_all. intros name Hin ->.
      destruct (Hknown target Hin) as [? ?]. congruence. }
  split_and!.
  - rewrite Hfilter. intros [? _]%list_elem_of_filter. done.
  - done.
  - intros other Hother. subst m'. unfold UnblockUser.
    repeat case_match; simpl; try done. by rewrite lookup_insert_ne.
  - subst m'. unfold UnblockUser.
    repeat case_match; simpl; try done.
    rewrite dom_insert_L.
    assert (Hdom : who ∈ dom (users m)) by (by eapply elem_of_dom_2).
    apply set_eq. intros x. rewrite elem_of_union, elem_of_singleton.
    split; [by intros [-> | ?] | by right].
  - subst m'. unfold UnblockUser. repeat case_match; done.
Qed.

Lemma slice_index_from_snoc (i : Z) (xs : list string) (name : string) :
  name ∉ xs → slice_index_from i (xs ++ [name]) name = i + len xs.
Proof.
  revert i. induction xs as [|x xs IH]; intros i Hout; simpl.
  - rewrite decide_True by done. unfold len. simpl. lia.
  - apply not_elem_of_cons in Hout as [Hne Hout].
    rewrite decide_False by done. rewrite IH by done.
    unfold len. simpl length. lia.
Qed.

Lemma slice_remove_last (xs : list string) (name : string) :
  slice_remove_at (xs ++ [name]) (len xs) = xs.
Proof.
  unfold slice_remove_at, len.
  replace (Z.to_nat (Z.of_nat (length xs) + 1)) with (length (xs ++ [name]))
    by (rewrite length_app; simpl; lia).
  rewrite Nat2Z.id, take_app_length, drop_all. apply app_nil_r.
Qed.

(** X12. Blocking somebody who was not blocked and unblocking them again
    gives back the users, with their blocked-sets, and the channels there
    were. *)
Theorem X12_block_then_unblock (m : Model) (who target : string) :
  target ∉ blocked m who →
  users (UnblockUser who target (BlockUser who target m)) = users m
  ∧ channels (UnblockUser who target (BlockUser who target m)) = channels m.
Proof.
  intros Hout. unfold blocked in Hout.
  destruct (users m !! who) as [user|] eqn:Hwho.
  2: { unfold BlockUser, UnblockUser. by rewrite Hwho, Hwho. }
  destruct (users m !! target) as [tuser|] eqn:Htarget.
  2: { unfold BlockUser, UnblockUser. by rewrite Hwho, Htarget, Hwho, Htarget. }
  assert (Hsame : users (UnblockUser who target m) = users m
                  ∧ channels (UnblockUser who target m) = channels m).
  { unfold UnblockUser. rewrite Hwho, Htarget.
    apply slice_index_missing in Hout. by rewrite Hout. }
  unfold BlockUser. rewrite Hwho, Htarget.
  destruct (decide (who = "Anonymous")); [done |].
  destruct (decide (who = target)); [done |].
  apply slice_contains_false in Hout as Hnot. rewrite Hnot. clear Hsame.
  unfold UnblockUser. simpl. rewrite lookup_insert_eq.
  rewrite lookup_insert_ne, Htarget by done. simpl.
  unfold slice_index. rewrite slice_index_from_snoc by done.
  pose proof (len_nonneg (BlockedUsers user)) as Hlen.
  rewrite decide_True by lia. simpl.
  replace (0 + len (BlockedUsers user)) with (len (BlockedUsers user)) by lia.
  rewrite slice_remove_last, insert_insert_eq.
  split; [| done]. apply insert_id. rewrite Hwho. by destruct user.
Qed.

End Blocking.

Section Histories.
Context `{Clock}.

(** *** More about histories *)

Lemma history_is_filtered_suffix (m : Model) (channelname username : string)
    (count : Z) (channel : Channel) (user : User) :
  channels m !! channelname = Some channel →
  users m !! username = Some user →
  ∃ k, GetChannelHistory channelname username count m
       = filter (λ message, Username message ∉ BlockedUsers user)
           (drop k (Messages channel)).
Proof.
  intros Hc Hu. unfold GetChannelHistory. rewrite Hc, Hu. cbv zeta.
  eexists. apply copy_messages_filter.
Qed.

(** X13. Whatever the count, even one that is no sensible count at all,
    [GetChannelHistory] returns messages of the channel in their order,
    none of them by an author the reader has blocked: the answer is the
    filter of some suffix of the channel's messages. For an unknown
    channel or an unknown reader it is empty. *)
Theorem X13_history_never_leaks (m : Model) (channelname reader : string)
    (count : Z) :
  (∀ message, message ∈ GetChannelHistory channelname reader count m →
              Username message ∉ blocked m reader)
  ∧ (∀ channel, channels m !! channelname = Some channel →
       ∃ k, GetChannelHistory channelname reader count m
            = filter (λ message, Username message ∉ blocked m reader)
                (drop k (Messages channel)))
  ∧ (channels m !! channelname = None ∨ users m !! reader = None →
     GetChannelHistory channelname reader count m = []).
Proof.
  unfold blocked. split_and!.
  - intros message. unfold GetChannelHistory.
    destruct (channels m !! channelname) as [channel|]; [| by intros ?%elem_of_nil].
    destruct (users m !! reader) as [user|]; [| by intros ?%elem_of_nil].
    rewrite copy_messages_filter. by intros [? _]%list_elem_of_filter.
  - intros channel Hc. destruct (users m !! reader) as [user|] eqn:Hu.
    + by apply history_is_filtered_suffix.
    + exists (length (Messages channel)). unfold GetChannelHistory.
      rewrite Hc, Hu. by rewrite drop_all.
  - intros Hunknown. unfold GetChannelHistory.
    destruct (channels m !! channelname); [| done].
    destruct (users m !! reader); [| done].
    by destruct Hunknown.
Qed.

Lemma history_window (m : Model) (channelname username : string) (count : Z)
    (channel : Channel) (user : User) :
  channels m !! channelname = Some channel →
  users m !! username = Some user →
  is_int (len (Messages channel)) →
  0 <= count →
  is_int count →
  GetChannelHistory channelname username count m
  = filter (λ message, Username message ∉ BlockedUsers user)
      (drop (length (Messages channel) - Z.to_nat count)%nat (Messages channel)).
Proof.
  intros Hc Hu Hlen Hcount Hint. unfold GetChannelHistory. rewrite Hc, Hu. cbv zeta.
  rewrite copy_messages_filter. f_equal. f_equal.
  unfold int_sub. rewrite int_wrap_id by (unfold is_int, len in *; lia).
  destruct (Z.eqb_spec count (-1)); [lia |].
  destruct (Z.ltb_spec (len (Messages channel) - count) 0); unfold len in *; lia.
Qed.

Lemma filter_suffix {A : Type} (P : A → Prop) `{∀ x, Decision (P x)}
    (l1 l2 : list A) :
  l1 `suffix_of` l2 → filter P l1 `suffix_of` filter P l2.
Proof. intros [k ->]. rewrite filter_app. by apply suffix_app_r. Qed.

Lemma drop_suffix_drop {A : Type} (l : list A) (a b : nat) :
  (b ≤ a)%nat → drop a l `suffix_of` drop b l.
Proof.
  intros Hle. replace a with (b + (a - b))%nat by lia.
  rewrite <- drop_drop. apply suffix_drop.
Qed.

(** X14. Asking for more gives more: for counts [0 <= n <= n'], the
    history for [n] is the end of the history for [n'], and both are the
    end of the full history (count [-1]). *)
Theorem X14_history_grows_with_count (m : Model) (channelname reader : string)
    (channel : Channel) (n n' : Z) :
  channels m !! channelname = Some channel →
  is_int (len (Messages channel)) →
  0 <= n <= n' →
  is_int n' →
  GetChannelHistory channelname reader n m
    `suffix_of` GetChannelHistory channelname reader n' m
  ∧ GetChannelHistory channelname reader n' m
      `suffix_of` GetChannelHistory channelname reader (-1) m.
Proof.
  intros Hc Hlen Hn Hint.
  destruct (users m !! reader) as [user|] eqn:Hu.
  - rewrite (history_window m channelname reader n channel user)
      by (unfold is_int in *; done || lia).
    rewrite (history_window m channelname reader n' channel user)
      by (unfold is_int in *; done || lia).
    split.
    + apply filter_suffix, drop_suffix_drop. lia.
    + unfold GetChannelHistory. rewrite Hc, Hu. simpl.
      rewrite drop_0, copy_messages_filter. apply filter_suffix, suffix_drop.
  - unfold GetChannelHistory. rewrite Hc, Hu. done.
Qed.

(** X15. Deleting a user deletes none of their messages, and takes their
    name out of every blocked-set: a reader who had blocked the deleted
    user finds that user's messages in the history again. *)
Theorem X15_deleted_author_visible (m : Model) (deleted reader channelname : string)
    (channel : Channel) :
  reachable m →
  is_Some (users m !! deleted) →
  deleted ≠ "Anonymous" →
  is_Some (users m !! reader) →
  reader ≠ deleted →
  channels m !! channelname = Some channel →
  let m' := DeleteUser deleted m in
  GetChannelInfo channelname m' = GetChannelInfo channelname m
  ∧ GetChannelHistory channelname reader (-1) m'
    = filter
        (λ message,
           Username message ∉ filter (λ name, name ≠ deleted) (blocked m reader))
        (Messages channel)
  ∧ (∀ message, message ∈ Messages channel → Username message = deleted →
       message ∈ GetChannelHistory channelname reader (-1) m').
Proof.
  intros Hreach [duser Hd] Hanon [ruser Hr] Hne Hc m'.
  destruct (reachable_store_ok m Hreach) as (_ & Hb & _).
  destruct (Hb reader ruser Hr) as (Hnd & _ & _ & _).
  assert (Hm' : users m' = unblock_deleted deleted <$> delete deleted (users m)
                ∧ channels m' = channels m).
  { subst m'. unfold DeleteUser. rewrite Hd. by rewrite decide_False. }
  destruct Hm' as [Husers Hchannels].
  assert (Hhistory : GetChannelHistory channelname reader (-1) m'
    = filter
        (λ message,
           Username message ∉ filter (λ name, name ≠ deleted) (blocked m reader))
        (Messages channel)).
  { unfold GetChannelHistory, blocked.
    rewrite Hchannels, Hc, Husers, lookup_fmap, lookup_delete_ne, Hr by done.
    simpl. rewrite drop_0, copy_messages_filter.
    by rewrite unblock_deleted_filter. }
  split_and!.
  - unfold GetChannelInfo. by rewrite Hchannels.
  - done.
  - intros message Hin Hauthor. rewrite Hhistory.
    apply list_elem_of_filter. split; [| done].
    rewrite Hauthor. intros [? _]%list_elem_of_filter. done.
Qed.

End Histories.

(** ** More about the log, the replay and restarts *)

Section LogRoundTrip.
Context `{Clock}.

Lemma as_logged_survivor (c : Call) :
  strings_valid c → timestamp_survives c → as_logged c = c.
Proof.
  intros Hvalid Hsurvives. rewrite as_logged_valid by done.
  destruct c; try done. simpl in Hsurvives. unfold reread. by rewrite Hsurvives.
Qed.

(** The file a logger has started and written to is an array it can
    extend, and replays as the calls that were made on the logger. *)
Lemma performs_log {A : Type} `{!actions.Actor A} (cs : list Call)
    (wallclock : nat → Time) (actor : A) :
  Forall timestamp_parses cs →
  ∃ entries,
    actions.logFile (performs cs (actions.NewLogger None wallclock))
    = actions.Text (actions.Sequence entries) (Some entries)
    ∧ actions.replay_entries entries actor
      = (performs (as_logged <$> cs) actor, Return None).
Proof.
  intros Hparse. induction cs as [|c cs IH] using rev_ind.
  - by exists [∅].
  - apply Forall_app in Hparse as [Hcs Hc]. rewrite Forall_singleton in Hc.
    destruct (IH Hcs) as (entries & Hfile & Hreplay).
    rewrite performs_snoc, perform_Logger.
    unfold actions.commitAction. simpl. rewrite Hfile. simpl.
    eexists. split; [done |].
    rewrite replay_entries_app, Hreplay. simpl.
    by rewrite json_Marshal_nonempty, parseAction_marshalled, fmap_snoc,
      performs_snoc.
Qed.

(** X16. Make any calls on a logger that starts a new log file, then
    replay the file onto any actor. The replay returns no error, and the
    actor has received the same calls in the same order, each with its
    names and texts as [encoding/json] has written them (every byte that
    is not valid UTF-8 replaced by U+FFFD, all else as it was) and with
    the timestamp parsed from the text written for it: the calls
    themselves, where the names and texts are valid UTF-8 and the
    timestamps parse to themselves. (The texts written for the
    timestamps of the posted messages are taken to parse.) *)
Theorem X16_logger_replayer_round_trip {A : Type} `{!actions.Actor A}
    (cs : list Call) (wallclock : nat → Time) (actor : A) :
  Forall timestamp_parses cs →
  actions.Replay
    (actions.NewReplayer
       (actions.logFile (performs cs (actions.NewLogger None wallclock))))
    actor
  = (performs (as_logged <$> cs) actor, Return None)
  ∧ (Forall strings_valid cs → Forall timestamp_survives cs →
     as_logged <$> cs = cs).
Proof.
  intros Hparse. split.
  - destruct (performs_log cs wallclock actor Hparse) as (entries & Hfile & Hreplay).
    unfold actions.Replay, actions.NewReplayer. rewrite Hfile. simpl. done.
  - intros Hvalid Hsurvive.
    induction cs as [|c cs IH]; [done |].
    apply Forall_cons in Hparse as [_ Hparse].
    apply Forall_cons in Hvalid as [Hc Hvalid].
    apply Forall_cons in Hsurvive as [Hc' Hsurvive].
    rewrite fmap_cons, as_logged_survivor, IH by done. done.
Qed.

(** X17. On a log in which whatever stands under "Action" is an object,
    [Replay] returns an error exactly when the content of the file is not a
    sequence of objects, or some non-empty record of it is not well formed
    (no envelope, no kind or an unknown one, a payload field missing or not
    a string, a timestamp that does not parse). *)
Theorem X17_replay_error_exactly {A : Type} `{!actions.Actor A}
    (replayer : actions.Replayer) (actor : A) :
  (∀ result, actions.wholeFile replayer = actions.Sequence result →
             Forall actions.envelope_is_object result) →
  (∃ err, snd (actions.Replay replayer actor) = Return (Some err))
  ↔ actions.wholeFile replayer = actions.Malformed
    ∨ ∃ result,
        actions.wholeFile replayer = actions.Sequence result
        ∧ Exists (λ action, size action ≠ 0%nat ∧ ¬ actions.well_formed action)
            result.
Proof. apply Replay_error_iff. Qed.

(** X18. The replay stops at the first record it cannot read. The actor
    keeps the calls of the records before it, and the records after it
    are not looked at: the outcome is an error when the record holds an
    object (or nothing) under "Action" and is not well formed, and a panic
    when it holds anything else there. *)
Theorem X18_replay_stops_at_first_bad_record {A : Type} `{!actions.Actor A}
    (good rest : list (gmap string actions.JSON)) (bad : gmap string actions.JSON)
    (actor actor' : A) :
  actions.replay_entries good actor = (actor', Return None) →
  size bad ≠ 0%nat →
  (actions.envelope_is_object bad → ¬ actions.well_formed bad →
   ∃ err, actions.replay_entries (good ++ bad :: rest) actor
          = (actor', Return (Some err)))
  ∧ (¬ actions.envelope_is_object bad →
     ∃ v, bad !! "Action" = Some v
          ∧ actions.replay_entries (good ++ bad :: rest) actor
            = (actor', Panic (actions.conversion_panic v))).
Proof.
  intros Hgood Hfull. rewrite replay_entries_app, Hgood. simpl.
  apply Nat.eqb_neq in Hfull. rewrite Hfull. split.
  - intros Hobj Hwf.
    destruct (parseAction_outcome bad actor' Hobj) as [[? _] | [_ [err ->]]];
      [done | eauto].
  - unfold actions.envelope_is_object, actions.parseAction.
    destruct (bad !! "Action") as [[| | | | |envelope]|]; intros Hobj;
      try (by destruct Hobj); eauto.
Qed.

Lemma marshalled_well_formed (c : Call) (stamp : Time) :
  timestamp_parses c →
  actions.well_formed (actions.json_Marshal (action_of c stamp))
  ∧ actions.envelope_is_object (actions.json_Marshal (action_of c stamp)).
Proof.
  intros Hparses. split; [| by destruct c].
  destruct c; unfold actions.well_formed; simpl;
    repeat (apply Forall_cons; split); try apply Forall_nil;
    unfold actions.field_typed;
    repeat (rewrite lookup_insert_ne by done);
    rewrite ?lookup_insert_eq, ?lookup_singleton_eq;
    done.
Qed.

(** X19. The store writes only records the replayer accepts: after any
    calls on a fresh seeded store that logs to a new file, every record of
    the log is the empty placeholder or is well formed, and holds an
    object under "Action". (The texts written for the timestamps of the
    posted messages are taken to parse; a record of a posted message is
    well formed only if its timestamp does.) *)
Theorem X19_log_is_well_formed (cs : list Call) (wallclock : nat → Time)
    (engine : option subs.Engine) :
  Forall timestamp_parses cs →
  ∃ entries,
    log_file (calls cs (seeded (Some (actions.NewLogger None wallclock)) engine))
    = Some (actions.Text (actions.Sequence entries) (Some entries))
    ∧ Forall
        (λ record,
           (size record = 0%nat ∨ actions.well_formed record)
           ∧ actions.envelope_is_object record)
        entries.
Proof.
  intros Hparse.
  assert (Hstep : ∀ c m,
    timestamp_parses c →
    (∃ entries,
       log_file m = Some (actions.Text (actions.Sequence entries) (Some entries))
       ∧ Forall (λ record, (size record = 0%nat ∨ actions.well_formed record)
                           ∧ actions.envelope_is_object record) entries) →
    ∃ entries,
      log_file (call c m)
      = Some (actions.Text (actions.Sequence entries) (Some entries))
      ∧ Forall (λ record, (size record = 0%nat ∨ actions.well_formed record)
                          ∧ actions.envelope_is_object record) entries).
  { intros c m Hc (entries & Hfile & Hentries). unfold log_file in *.
    destruct (actionsLogger m) as [l|] eqn:Hl; [| done].
    simpl in Hfile. injection Hfile as Hfile.
    destruct (call_logged c m l Hl) as [-> | ->].
    - exists entries. rewrite Hl. simpl. by rewrite Hfile.
    - rewrite perform_Logger. unfold actions.commitAction. simpl.
      rewrite Hfile. simpl. eexists. split; [done |].
      apply Forall_app. split; [done |]. apply Forall_singleton.
      destruct (marshalled_well_formed c (actions.now l) Hc). auto. }
  induction cs as [|c cs IH] using rev_ind.
  - apply (Hstep (CallCreateChannel "General")); [done |].
    apply (Hstep (CallCreateUser "Anonymous")); [done |].
    exists [∅]. split; [done |].
    apply Forall_singleton. split; [by left | done].
  - apply Forall_app in Hparse as [Hcs Hc]. rewrite Forall_singleton in Hc.
    rewrite calls_snoc. apply Hstep; [done | by apply IH].
Qed.

End LogRoundTrip.

Section Restarts.
Context `{Clock}.

Lemma same_call_refl (T : Time → Time → Prop) (c : Call) :
  (∀ t, T t t) → same_call T c c.
Proof. intros Hrefl. by destruct c. Qed.

Lemma same_state_sym (T : Time → Time → Prop) (m1 m2 : Model) :
  (∀ a b, T a b → T b a) → same_state T m1 m2 → same_state T m2 m1.
Proof.
  intros Hsym [Husers Hchannels]. split; [done |]. intros name.
  destruct (Hchannels name) as [a b [Hname Hmessages]|]; constructor.
  split; [done |].
  induction Hmessages as [|x y xs ys (? & ? & ?) _ IH]; constructor; [| done].
  split_and!; auto.
Qed.

Lemma same_state_trans (T : Time → Time → Prop) (m1 m2 m3 : Model) :
  (∀ a b c, T a b → T b c → T a c) →
  same_state T m1 m2 → same_state T m2 m3 → same_state T m1 m3.
Proof.
  intros Htrans [Husers Hchannels] [Husers' Hchannels'].
  split; [congruence |]. intros name.
  specialize (Hchannels name). specialize (Hchannels' name).
  destruct (channels m1 !! name) as [a|], (channels m2 !! name) as [b|],
    (channels m3 !! name) as [c|];
    inversion Hchannels as [? ? [Hname Hmessages]|];
    inversion Hchannels' as [? ? [Hname' Hmessages']|]; subst; constructor.
  split; [congruence |].
  eapply Forall2_trans; [| exact Hmessages | exact Hmessages'].
  intros x y z (? & ? & ?) (? & ? & ?). split_and!; [congruence | congruence | eauto].
Qed.

Lemma calls_same_state (T : Time → Time → Prop) (cs : list Call) (m m' : Model) :
  (∀ t, T t t) →
  same_state T m m' → same_state T (calls cs m) (calls cs m').
Proof.
  intros Hrefl. revert m m'.
  induction cs as [|c cs IH]; intros m m' Hsame; [done |].
  apply IH. apply call_same_state; [by apply same_call_refl | done].
Qed.

(** A restart from the log file of a store that is in step with its log
    returns a store that is the same up to timestamps, itself in step
    with the file, which the restart has left as it was. *)
Lemma restart_in_step (T : Time → Time → Prop) (engine : option subs.Engine)
    (wallclock : nat → Time) (m : Model) :
  (∀ t, T t t) →
  in_step_with_log T m →
  ∃ m', restart engine wallclock m = Return (Some m', None)
        ∧ in_step_with_log T m'
        ∧ same_state T m m'.
Proof.
  intros Hrefl (entries & replayed & Hfile & Hreplay & Hlogger & Hengine & Hsame).
  exists (attach
            (Some (actions.NewLogger
                     (Some (actions.Text (actions.Sequence entries) (Some entries)))
                     wallclock))
            engine replayed).
  split_and!.
  - unfold restart. rewrite Hfile.
    unfold NewModel, actions.NewReplayer, actions.Replay. simpl.
    change (detach {| actionsLogger :=
                        Some (actions.NewLogger
                                (Some (actions.Text (actions.Sequence entries)
                                         (Some entries)))
                                wallclock);
                      subsEngine := engine; users := ∅; channels := ∅ |})
      with blank.
    by rewrite Hreplay.
  - exists entries, replayed. split_and!; try done.
    by apply same_state_refl.
  - destruct Hsame. by split.
Qed.

Lemma later_runs_agree (T : Time → Time → Prop) (engine : option subs.Engine)
    (sessions : list ((nat → Time) * list Call)) (m reference : Model) :
  (∀ t, T t t) →
  (∀ a b, T a b → T b a) →
  (∀ a b c, T a b → T b c → T a c) →
  Forall timestamp_parses (concat sessions.*2) →
  Forall (λ c, same_call T c (as_logged c)) (concat sessions.*2) →
  in_step_with_log T m →
  same_state T m reference →
  ∃ m', later_runs engine sessions m = Some m'
        ∧ in_step_with_log T m'
        ∧ same_state T m' (calls (concat sessions.*2) reference).
Proof.
  intros Hrefl Hsym Htrans. revert m reference.
  induction sessions as [|[wallclock cs] sessions IH];
    intros m reference Hparse Hcalls Hstep Hsame.
  - by exists m.
  - simpl in Hparse, Hcalls.
    apply Forall_app in Hparse as [Hparse_cs Hparse].
    apply Forall_app in Hcalls as [Hcalls_cs Hcalls].
    destruct (restart_in_step T engine wallclock m Hrefl Hstep)
      as (m1 & Hrestart & Hstep1 & Hsame1).
    simpl. rewrite Hrestart, calls_app.
    apply IH; [done | done | by apply calls_in_step |].
    apply calls_same_state; [done |].
    apply (same_state_trans T m1 m reference); [done | | done].
    by apply same_state_sym.
Qed.

(** X20. Restarting changes nothing. Run the server for the first time,
    stop it, start it again from its log file, and so on, any number of
    times, each run making some calls under its own wall clock, the names
    and texts of the calls being valid UTF-8 and the texts written for
    their timestamps being texts that parse. Every restart returns a
    store. The last store has the same users with the same blocked-sets
    as if all the calls had been made in one run without any restart, and
    the same channels, holding messages by the same authors with the same
    texts in the same order; its log file is an array the logger can
    extend, and replays to such a store again. Where every timestamp
    parses to itself, the channels and their message sequences are those
    of the one run. *)
Theorem X20_restarts_change_nothing (engine : option subs.Engine)
    (wallclock : nat → Time) (first : list Call)
    (sessions : list ((nat → Time) * list Call)) :
  Forall strings_valid (first ++ concat sessions.*2) →
  Forall timestamp_parses (first ++ concat sessions.*2) →
  let one_run :=
    calls (first ++ concat sessions.*2)
      (seeded (Some (actions.NewLogger None wallclock)) engine) in
  ∃ m, runs engine wallclock first sessions = Some m
       ∧ users m = users one_run
       ∧ (∀ name,
            option_Forall2 (same_channel (λ _ _, True))
              (channels m !! name) (channels one_run !! name))
       ∧ in_step_with_log (λ _ _, True) m
       ∧ (Forall timestamp_survives (first ++ concat sessions.*2) →
          channels m = channels one_run).
Proof.
  intros Hvalid Hparse one_run.
  assert (Hagree : ∀ T : Time → Time → Prop,
    (∀ t, T t t) → (∀ a b, T a b → T b a) → (∀ a b c, T a b → T b c → T a c) →
    Forall (λ c, same_call T c (as_logged c)) (first ++ concat sessions.*2) →
    ∃ m, runs engine wallclock first sessions = Some m
         ∧ in_step_with_log T m ∧ same_state T m one_run).
  { intros T Hrefl Hsym Htrans Hcalls.
    apply Forall_app in Hparse as [Hparse_first Hparse_later].
    apply Forall_app in Hcalls as [Hcalls_first Hcalls_later].
    subst one_run. rewrite calls_app. unfold runs.
    apply later_runs_agree; try done.
    - apply calls_in_step; [done | done | apply seeded_in_step].
    - by apply same_state_refl. }
  destruct (Hagree (λ _ _, True)) as (m & Hruns & Hstep & Husers & Hchannels);
    try done.
  { apply Forall_forall. intros c Hc. rewrite Forall_forall in Hvalid.
    apply same_call_whatever. auto. }
  exists m. split_and!; try done.
  intros Hsurvive.
  destruct (Hagree eq) as (m' & Hruns' & _ & Hsame); try done.
  { intros ? ? ? -> ->. done. }
  { apply Forall_forall. intros c Hc. rewrite Forall_forall in Hvalid, Hsurvive.
    apply same_call_survives; auto. }
  rewrite Hruns in Hruns'. simplify_eq.
  by apply same_state_eq in Hsame as [_ Hsame].
Qed.

(** X27. A log file that is not laid out as the logger lays it out, one
    whose text up to its last two bytes is not an array open after an
    entry, is destroyed by the first call the store accepts (["[{}]"] and
    ["[]"] are such files, and a replayer reads each of them without
    error). From that call on the file is no JSON text, whatever is
    logged after it, and the next start of the server fails with the
    error of a malformed log. *)
Theorem X27_foreign_log_is_destroyed (c : Call) (cs : list Call) (m : Model)
    (l : actions.Logger) (whole : actions.FileContent)
    (engine : option subs.Engine) (wallclock : nat → Time) :
  actionsLogger m = Some l →
  actions.logFile l = actions.Text whole None →
  call c m ≠ m →
  log_file (calls cs (call c m)) = Some (actions.Text actions.Malformed None)
  ∧ restart engine wallclock (calls cs (call c m))
    = Return (None, actions.invalid "malformed json").
Proof.
  intros Hl Hfile Haccepted.
  assert (Hfirst : log_file (call c m) = Some (actions.Text actions.Malformed None)).
  { destruct (call_logged c m l Hl) as [? | Hl']; [done |].
    unfold log_file. rewrite Hl', perform_Logger.
    unfold actions.commitAction. simpl. by rewrite Hfile. }
  assert (Hlater : ∀ m',
    log_file m' = Some (actions.Text actions.Malformed None) →
    log_file (calls cs m') = Some (actions.Text actions.Malformed None)).
  { induction cs as [|c' cs IH]; intros m' Hm'; [done |].
    simpl. apply IH. unfold log_file in *.
    destruct (actionsLogger m') as [l'|] eqn:Hl''; [| done].
    simpl in Hm'. injection Hm' as Hm'.
    destruct (call_logged c' m' l' Hl'') as [-> | ->].
    - rewrite Hl''. simpl. by rewrite Hm'.
    - rewrite perform_Logger. unfold actions.commitAction. simpl. by rewrite Hm'. }
  split; [by apply Hlater |].
  unfold restart. by rewrite (Hlater _ Hfirst).
Qed.

End Restarts.

(** ** More about the subscription engine *)

(** X21. Connecting an observer that was not registered and disconnecting
    it again gives back the engine as it was; connecting twice fails the
    second time, and so does disconnecting twice; neither call starts a
    dispatch, and no trigger changes who is registered. *)
Theorem X21_connect_disconnect_round_trip (c : subs.Client) (e : subs.Engine)
    (n : subs.Notification) :
  (c ∉ subs.registered e →
   subs.Disconnect c (fst (subs.Connect c e)) = (e, None))
  ∧ is_Some (snd (subs.Connect c (fst (subs.Connect c e))))
  ∧ is_Some (snd (subs.Disconnect c (fst (subs.Disconnect c e))))
  ∧ subs.spawned (fst (subs.Connect c e)) = subs.spawned e
  ∧ subs.spawned (fst (subs.Disconnect c e)) = subs.spawned e
  ∧ subs.registered (subs.go n e) = subs.registered e.
Proof.
  unfold subs.registered, subs.Connect, subs.Disconnect. split_and!.
  - intros Hout%not_elem_of_dom. rewrite Hout. simpl.
    rewrite lookup_insert_eq, delete_insert_eq, delete_id by done.
    by destruct e.
  - destruct (subs.clients e !! c) as [ci|] eqn:Hc; simpl.
    + rewrite Hc. by eexists.
    + rewrite lookup_insert_eq. by eexists.
  - destruct (subs.clients e !! c) as [ci|] eqn:Hc; simpl.
    + rewrite lookup_delete_eq. by eexists.
    + rewrite Hc. by eexists.
  - by destruct (subs.clients e !! c).
  - by destruct (subs.clients e !! c).
  - done.
Qed.

(** ** How a telnet connection follows its channel *)

Section Following.
Context `{Clock}.
Variable layout_Format : Time → string.

Lemma PostMessage_accepted_state (m : Model) (channelname username text : string)
    (timestamp : Time) (channel : Channel) :
  channels m !! channelname = Some channel →
  is_Some (users m !! username) →
  text ≠ "" →
  users (PostMessage channelname username timestamp text m) = users m
  ∧ channels (PostMessage channelname username timestamp text m)
    = <[channelname :=
          {| ChannelName := ChannelName channel;
             Messages :=
               (Messages channel
                ++ [{| Username := username; Timestamp := timestamp;
                       Text := text |}])%list |}]>
        (channels m).
Proof.
  intros Hc [author Hu] Htext. unfold PostMessage. rewrite Hc, Hu.
  by destruct text.
Qed.

(** X22. When nothing else touches the store while it runs,
    [OnChannelChanged] for the channel the connection is on prints exactly
    the messages that came after the ones it had counted, less those by
    authors the current user has blocked, and counts them; called again
    with no new message, it prints an empty batch. *)
Theorem X22_connection_prints_new_messages (t : telnetconn.TelnetConn) (m : Model)
    (channel : Channel) (user : User) :
  channels m !! telnetconn.currentChannel t = Some channel →
  users m !! telnetconn.currentUser t = Some user →
  is_int (len (Messages channel)) →
  0 <= telnetconn.currentChannelMessageIndex t <= len (Messages channel) →
  let t' :=
    telnetconn.OnChannelChanged layout_Format (telnetconn.currentChannel t) m m m t in
  telnetconn.currentChannelMessageIndex t' = len (Messages channel)
  ∧ telnetconn.currentUser t' = telnetconn.currentUser t
  ∧ telnetconn.currentChannel t' = telnetconn.currentChannel t
  ∧ telnetconn.printed t'
    = (telnetconn.printed t
       ++ [telnetconn.message_line layout_Format
             <$> filter (λ message, Username message ∉ BlockedUsers user)
                   (drop (Z.to_nat (telnetconn.currentChannelMessageIndex t))
                      (Messages channel))])%list
  ∧ telnetconn.printed
      (telnetconn.OnChannelChanged layout_Format (telnetconn.currentChannel t)
         m m m t')
    = (telnetconn.printed t' ++ [[]])%list.
Proof.
  intros Hc Hu Hlen Hidx t'.
  assert (Hshow : ∀ s : telnetconn.TelnetConn,
    telnetconn.currentChannel s = telnetconn.currentChannel t →
    telnetconn.currentUser s = telnetconn.currentUser t →
    0 <= telnetconn.currentChannelMessageIndex s <= len (Messages channel) →
    telnetconn.OnChannelChanged layout_Format (telnetconn.currentChannel t) m m m s
    = {| telnetconn.currentUser := telnetconn.currentUser s;
         telnetconn.currentChannel := telnetconn.currentChannel s;
         telnetconn.currentChannelMessageIndex := len (Messages channel);
         telnetconn.printed :=
           (telnetconn.printed s
            ++ [telnetconn.message_line layout_Format
                  <$> filter (λ message, Username message ∉ BlockedUsers user)
                        (drop (Z.to_nat (telnetconn.currentChannelMessageIndex s))
                           (Messages channel))])%list |}).
  { intros s Hsc Hsu Hsi.
    unfold telnetconn.OnChannelChanged, telnetconn.showChannelHistory,
      telnetconn.printLinesCallback. rewrite decide_True by done. simpl.
    rewrite Hsc, Hsu. unfold GetChannelInfo. rewrite Hc. simpl.
    unfold int_sub. rewrite int_wrap_id by (unfold is_int in *; lia).
    rewrite (history_window m _ _ _ channel user)
      by (unfold is_int in *; done || lia).
    do 4 f_equal. unfold len in *. do 2 f_equal. lia. }
  assert (Ht' : t' = _) by (apply Hshow; done).
  split_and!; try (by rewrite Ht').
  rewrite (Hshow t') by (rewrite Ht'; simpl; done || lia).
  rewrite Ht'. simpl. do 3 f_equal.
  by rewrite drop_ge by (unfold len; lia).
Qed.


Lemma showChannelHistory_quiet (t : telnetconn.TelnetConn) (m : Model)
    (channel : Channel) (user : User) (numMessages : Z) :
  channels m !! telnetconn.currentChannel t = Some channel →
  users m !! telnetconn.currentUser t = Some user →
  is_int (len (Messages channel)) →
  0 <= numMessages →
  is_int numMessages →
  telnetconn.showChannelHistory layout_Format numMessages m m t
  = {| telnetconn.currentUser := telnetconn.currentUser t;
       telnetconn.currentChannel := telnetconn.currentChannel t;
       telnetconn.currentChannelMessageIndex := len (Messages channel);
       telnetconn.printed :=
         (telnetconn.printed t
          ++ [telnetconn.message_line layout_Format
                <$> filter (λ message, Username message ∉ BlockedUsers user)
                      (drop (length (Messages channel) - Z.to_nat numMessages)%nat
                         (Messages channel))])%list |}.
Proof.
  intros Hc Hu Hlen Hcount Hint.
  unfold telnetconn.showChannelHistory, telnetconn.printLinesCallback. simpl.
  unfold GetChannelInfo. rewrite Hc. simpl.
  by rewrite (history_window m _ _ _ channel user Hc Hu Hlen Hcount Hint).
Qed.

Lemma last_ten_length (user : User) (messages : list Message) :
  (length
     (telnetconn.message_line layout_Format
        <$> filter (λ message, Username message ∉ BlockedUsers user)
              (drop (length messages
                     - Z.to_nat telnetconn.defaultHistoricalMessages)%nat messages))
   ≤ 10)%nat.
Proof.
  rewrite length_fmap.
  etrans; [apply length_filter |]. rewrite length_drop.
  change (Z.to_nat telnetconn.defaultHistoricalMessages) with 10%nat. lia.
Qed.

Lemma default_count_is_int :
  0 <= telnetconn.defaultHistoricalMessages
  ∧ is_int telnetconn.defaultHistoricalMessages.
Proof. unfold is_int, telnetconn.defaultHistoricalMessages. lia. Qed.

(** X24. Switching to a channel of the store sets the connection on it and
    prints a heading and then, of the last ten messages of the channel,
    those by authors the current user has not blocked (so at most ten
    lines, and fewer when some of the ten are blocked, however many older
    messages there are); the connection then counts all messages of the
    channel as shown. The same batch is printed again when the current
    user blocks or unblocks somebody. Switching to an unknown channel
    prints an error and changes nothing. (No other call changes the store
    meanwhile.) *)
Theorem X24_switch_shows_last_ten (t : telnetconn.TelnetConn) (m : Model)
    (channelname : string) (channel : Channel) (user : User) :
  reachable m →
  channels m !! channelname = Some channel →
  users m !! telnetconn.currentUser t = Some user →
  is_int (len (Messages channel)) →
  let shown :=
    telnetconn.message_line layout_Format
      <$> filter (λ message, Username message ∉ BlockedUsers user)
            (drop (length (Messages channel)
                   - Z.to_nat telnetconn.defaultHistoricalMessages)%nat
               (Messages channel)) in
  telnetconn.SwitchChannel layout_Format channelname m m m t
  = {| telnetconn.currentUser := telnetconn.currentUser t;
       telnetconn.currentChannel := channelname;
       telnetconn.currentChannelMessageIndex := len (Messages channel);
       telnetconn.printed :=
         (telnetconn.printed t
          ++ [[ telnetconn.defaultSeparator;
                "User: " +:+ telnetconn.currentUser t;
                "Channel: " +:+ channelname;
                telnetconn.defaultSeparator ];
              shown])%list |}
  ∧ (length shown ≤ 10)%nat
  ∧ (telnetconn.currentChannel t = channelname →
     telnetconn.OnUserChanged layout_Format (telnetconn.currentUser t) m m t
     = {| telnetconn.currentUser := telnetconn.currentUser t;
          telnetconn.currentChannel := channelname;
          telnetconn.currentChannelMessageIndex := len (Messages channel);
          telnetconn.printed := (telnetconn.printed t ++ [shown])%list |})
  ∧ (∀ unknown, channels m !! unknown = None →
       telnetconn.SwitchChannel layout_Format unknown m m m t
       = {| telnetconn.currentUser := telnetconn.currentUser t;
            telnetconn.currentChannel := telnetconn.currentChannel t;
            telnetconn.currentChannelMessageIndex :=
              telnetconn.currentChannelMessageIndex t;
            telnetconn.printed :=
              (telnetconn.printed t ++ [["error: <channel> not found"]])%list |}).
Proof.
  intros Hm Hc Hu Hlen shown.
  destruct default_count_is_int as [Hcount Hint].
  pose proof (GetChannels_dom m (proj1 (reachable_store_ok m Hm))) as Hdom.
  split_and!.
  - unfold telnetconn.SwitchChannel, telnetconn.switchChannel. rewrite Hdom.
    rewrite decide_True by (by apply elem_of_dom).
    rewrite (showChannelHistory_quiet _ m channel user) by done.
    simpl. by rewrite <- app_assoc.
  - apply last_ten_length.
  - intros Hon. unfold telnetconn.OnUserChanged. rewrite decide_True by done.
    rewrite (showChannelHistory_quiet _ m channel user) by (by rewrite ?Hon).
    by rewrite Hon.
  - intros unknown Hunknown.
    unfold telnetconn.SwitchChannel, telnetconn.switchChannel. rewrite Hdom.
    by rewrite decide_False by (by apply not_elem_of_dom).
Qed.

(** X25. A new connection is that of "Anonymous" on "General", and has
    been shown a heading and the last ten messages of "General", none of
    them held back. On a store without the user "Anonymous" (one replayed
    from a log that never made it) the new connection is left with the
    user "None" and the channel "None", which are no user and no channel,
    and has printed an error; likewise with the channel "None" on a store
    without "General". (No other call changes the store meanwhile.) *)
Theorem X25_new_connection (m : Model) :
  reachable m →
  (∀ general,
     is_Some (users m !! "Anonymous") →
     channels m !! "General" = Some general →
     is_int (len (Messages general)) →
     telnetconn.NewTelnetConn layout_Format m m m m
     = {| telnetconn.currentUser := "Anonymous";
          telnetconn.currentChannel := "General";
          telnetconn.currentChannelMessageIndex := len (Messages general);
          telnetconn.printed :=
            [ [ telnetconn.defaultSeparator;
                "User: Anonymous";
                "Channel: General";
                telnetconn.defaultSeparator ];
              telnetconn.message_line layout_Format
                <$> drop (length (Messages general)
                          - Z.to_nat telnetconn.defaultHistoricalMessages)%nat
                      (Messages general) ] |})
  ∧ (users m !! "Anonymous" = None →
     telnetconn.NewTelnetConn layout_Format m m m m
     = {| telnetconn.currentUser := "None";
          telnetconn.currentChannel := "None";
          telnetconn.currentChannelMessageIndex := 0;
          telnetconn.printed := [["error: <user> not found"]] |})
  ∧ (is_Some (users m !! "Anonymous") →
     channels m !! "General" = None →
     telnetconn.NewTelnetConn layout_Format m m m m
     = {| telnetconn.currentUser := "Anonymous";
          telnetconn.currentChannel := "None";
          telnetconn.currentChannelMessageIndex := 0;
          telnetconn.printed := [["error: <channel> not found"]] |}).
Proof.
  intros Hm.
  destruct default_count_is_int as [Hcount Hint].
  destruct (reachable_store_ok m Hm) as (Hnames & Hblocked & _).
  pose proof (GetUsers_dom m Hnames) as Husers.
  pose proof (GetChannels_dom m Hnames) as Hchannels.
  unfold telnetconn.NewTelnetConn, telnetconn.SwitchUser, telnetconn.switchUser,
    telnetconn.switchChannel.
  rewrite Husers, Hchannels. split_and!.
  - intros general [anonymous Hu] Hc Hlen.
    rewrite decide_True by (by apply elem_of_dom).
    rewrite decide_True by (by apply elem_of_dom).
    rewrite (showChannelHistory_quiet _ m general anonymous) by done.
    destruct (Hblocked "Anonymous" anonymous Hu) as (_ & _ & _ & Hnone).
    rewrite Hnone by done. simpl. rewrite <- ?app_assoc.
    by rewrite filter_keeps_all by (intros ? _; apply not_elem_of_nil).
  - intros Hu. by rewrite decide_False by (by apply not_elem_of_dom).
  - intros Hu Hc. rewrite decide_True by (by apply elem_of_dom).
    by rewrite decide_False by (by apply not_elem_of_dom).
Qed.

(** X26. When the current user of a connection has been deleted,
    [OnUsersChanged] puts the connection on "Anonymous" and on "General",
    whatever channel it was on, and shows it the last ten messages of
    "General"; when the current channel has been deleted,
    [OnChannelsChanged] puts the connection on "General" and shows it
    those of the last ten messages whose authors the current user has not
    blocked. Otherwise the two do nothing. (The store has its two
    defaults, and no other call changes it meanwhile.) *)
Theorem X26_connection_falls_back (t : telnetconn.TelnetConn) (m : Model)
    (general : Channel) :
  reachable m →
  is_Some (users m !! "Anonymous") →
  channels m !! "General" = Some general →
  is_int (len (Messages general)) →
  let last_ten :=
    drop (length (Messages general)
          - Z.to_nat telnetconn.defaultHistoricalMessages)%nat
      (Messages general) in
  telnetconn.OnUsersChanged layout_Format m m m m m t
  = (if decide (is_Some (users m !! telnetconn.currentUser t)) then t
     else
       {| telnetconn.currentUser := "Anonymous";
          telnetconn.currentChannel := "General";
          telnetconn.currentChannelMessageIndex := len (Messages general);
          telnetconn.printed :=
            (telnetconn.printed t
             ++ [[ telnetconn.defaultSeparator;
                   "User: Anonymous";
                   "Channel: General";
                   telnetconn.defaultSeparator ];
                 telnetconn.message_line layout_Format <$> last_ten])%list |})
  ∧ (∀ user, users m !! telnetconn.currentUser t = Some user →
       telnetconn.OnChannelsChanged layout_Format m m m m t
       = if decide (is_Some (channels m !! telnetconn.currentChannel t)) then t
         else
           {| telnetconn.currentUser := telnetconn.currentUser t;
              telnetconn.currentChannel := "General";
              telnetconn.currentChannelMessageIndex := len (Messages general);
              telnetconn.printed :=
                (telnetconn.printed t
                 ++ [[ telnetconn.defaultSeparator;
                       "User: " +:+ telnetconn.currentUser t;
                       "Channel: General";
                       telnetconn.defaultSeparator ];
                     telnetconn.message_line layout_Format
                       <$> filter
                             (λ message, Username message ∉ BlockedUsers user)
                             last_ten])%list |}).
Proof.
  intros Hm [anonymous Ha] Hg Hlen last_ten.
  destruct default_count_is_int as [Hcount Hint].
  destruct (reachable_store_ok m Hm) as (Hnames & Hblocked & _).
  pose proof (GetUsers_dom m Hnames) as Husers.
  pose proof (GetChannels_dom m Hnames) as Hchannels.
  split.
  - unfold telnetconn.OnUsersChanged, telnetconn.switchUser, telnetconn.switchChannel.
    rewrite Husers, Hchannels.
    destruct (decide (is_Some (users m !! telnetconn.currentUser t))) as [Hu|Hu].
    + by rewrite decide_True by (by apply elem_of_dom).
    + rewrite decide_False by (by rewrite elem_of_dom).
      rewrite decide_True by (by apply elem_of_dom).
      rewrite decide_True by (by apply elem_of_dom).
      rewrite (showChannelHistory_quiet _ m general anonymous) by done.
      destruct (Hblocked "Anonymous" anonymous Ha) as (_ & _ & _ & Hnone).
      rewrite Hnone by done. simpl. rewrite <- ?app_assoc.
      by rewrite filter_keeps_all by (intros ? _; apply not_elem_of_nil).
  - intros user Hu.
    unfold telnetconn.OnChannelsChanged, telnetconn.switchChannel.
    rewrite Hchannels.
    destruct (decide (is_Some (channels m !! telnetconn.currentChannel t)))
      as [Hc|Hc].
    + by rewrite decide_True by (by apply elem_of_dom).
    + rewrite decide_False by (by rewrite elem_of_dom).
      rewrite decide_True by (by apply elem_of_dom).
      rewrite (showChannelHistory_quiet _ m general user) by done.
      simpl. by rewrite <- app_assoc.
Qed.

End Following.

(** ** The further theorems at concrete inputs *)

Section ConcreteStores.
#[local] Existing Instance text_clock.

Lemma dev_store_reachable : reachable dev_store.
Proof. apply reachable_calls, fresh_store_reachable. Qed.

Lemma all_sessions_valid :
  Forall strings_valid (dev_scenario ++ concat later_sessions.*2).
Proof. by repeat constructor. Qed.

(** The names of the store in which bob has blocked alice. *)
Lemma X1_witness :
  reachable cascade_store
  ∧ GetUsers cascade_store = dom (users cascade_store)
  ∧ GetChannels cascade_store = dom (channels cascade_store)
  ∧ (∀ name, name ∈ GetUsers cascade_store →
       name ≠ "" ∧ strings_Contains name " " = false
       ∧ Name (GetUserInfo name cascade_store) = name)
  ∧ (∀ name, name ∈ GetChannels cascade_store →
       name ≠ "" ∧ strings_Contains name " " = false
       ∧ InfoName (GetChannelInfo name cascade_store) = name)
  ∧ (∀ name, Name (GetUserInfo name cascade_store) = ""
             ↔ name ∉ GetUsers cascade_store)
  ∧ (∀ name, InfoName (GetChannelInfo name cascade_store) = ""
             ↔ name ∉ GetChannels cascade_store).
Proof.
  refine (conj cascade_store_reachable _).
  exact (X1_names_of_a_store cascade_store cascade_store_reachable).
Defined.

(** The blocked-sets of that store. *)
Lemma X2_witness :
  reachable cascade_store
  ∧ (∀ name,
       NoDup (blocked cascade_store name)
       ∧ (name ∉ blocked cascade_store name)
       ∧ (∀ b, b ∈ blocked cascade_store name → b ∈ GetUsers cascade_store))
  ∧ blocked cascade_store "Anonymous" = [].
Proof.
  refine (conj cascade_store_reachable _).
  exact (X2_blocked_sets_of_a_store cascade_store cascade_store_reachable).
Defined.

(** The first message of "dev". *)
Lemma X3_witness :
  reachable dev_store
  ∧ channels dev_store !! "dev" = Some dev_channel
  ∧ {| Username := "alice"; Timestamp := "2020-01-01T00:00:01Z"; Text := "hi" |}
    ∈ Messages dev_channel
  ∧ "hi" ≠ ""
  ∧ "alice" ≠ ""
  ∧ strings_Contains "alice" " " = false.
Proof.
  assert (Hc : channels dev_store !! "dev" = Some dev_channel) by reflexivity.
  assert (Hin : {| Username := "alice"; Timestamp := "2020-01-01T00:00:01Z";
                   Text := "hi" |} ∈ Messages dev_channel)
    by apply list_elem_of_here.
  refine (conj dev_store_reachable (conj Hc (conj Hin _))).
  exact (X3_messages_of_a_store dev_store "dev" dev_channel _
           dev_store_reachable Hc Hin).
Defined.

(** alice posts once more on "dev" and is deleted: "dev" keeps its two
    messages in front. *)
Lemma X4_witness :
  channels dev_store !! "dev" = Some dev_channel
  ∧ Forall (λ c, c ≠ CallDeleteChannel "dev")
      [CallPostMessage "dev" "alice" "2020-01-01T00:00:03Z" "more";
       CallDeleteUser "alice"]
  ∧ ∃ channel',
      channels
        (calls [CallPostMessage "dev" "alice" "2020-01-01T00:00:03Z" "more";
                CallDeleteUser "alice"] dev_store) !! "dev"
      = Some channel'
      ∧ Messages dev_channel `prefix_of` Messages channel'
      ∧ (length (Messages channel') ≤ length (Messages dev_channel) + 2)%nat.
Proof.
  assert (Hc : channels dev_store !! "dev" = Some dev_channel) by reflexivity.
  assert (Hcs : Forall (λ c, c ≠ CallDeleteChannel "dev")
                  [CallPostMessage "dev" "alice" "2020-01-01T00:00:03Z" "more";
                   CallDeleteUser "alice"])
    by (repeat constructor; discriminate).
  refine (conj Hc (conj Hcs _)).
  exact (X4_channel_append_only _ dev_store "dev" dev_channel Hc Hcs).
Defined.

(** alice posts once more on "dev". *)
Lemma X6_witness :
  channels dev_store !! "dev" = Some dev_channel
  ∧ is_Some (users dev_store !! "alice")
  ∧ "more" ≠ ""
  ∧ NumMessages
      (GetChannelInfo "dev"
         (PostMessage "dev" "alice" "2020-01-01T00:00:03Z" "more" dev_store))
    = NumMessages (GetChannelInfo "dev" dev_store) + 1
  ∧ (∀ reader,
       GetChannelHistory "dev" reader (-1)
         (PostMessage "dev" "alice" "2020-01-01T00:00:03Z" "more" dev_store)
       = (GetChannelHistory "dev" reader (-1) dev_store
          ++ if decide (is_Some (users dev_store !! reader)
                        ∧ "alice" ∉ blocked dev_store reader)
             then [{| Username := "alice"; Timestamp := "2020-01-01T00:00:03Z";
                      Text := "more" |}]
             else [])%list)
  ∧ (∀ other reader count, other ≠ "dev" →
       GetChannelHistory other reader count
         (PostMessage "dev" "alice" "2020-01-01T00:00:03Z" "more" dev_store)
       = GetChannelHistory other reader count dev_store)
  ∧ users (PostMessage "dev" "alice" "2020-01-01T00:00:03Z" "more" dev_store)
    = users dev_store.
Proof.
  assert (Hc : channels dev_store !! "dev" = Some dev_channel) by reflexivity.
  assert (Hu : is_Some (users dev_store !! "alice")) by (by eexists).
  assert (Htext : "more" ≠ "") by discriminate.
  refine (conj Hc (conj Hu (conj Htext _))).
  exact (X6_post_accepted dev_store "dev" "alice" "more" "2020-01-01T00:00:03Z"
           dev_channel Hc Hu Htext).
Defined.

(** bob comes and goes, as a user and as a channel. *)
Lemma X8_witness :
  reachable dev_store
  ∧ users dev_store !! "bob" = None
  ∧ channels dev_store !! "bob" = None
  ∧ "bob" ≠ "Anonymous"
  ∧ "bob" ≠ "General"
  ∧ users (DeleteUser "bob" (CreateUser "bob" dev_store)) = users dev_store
  ∧ channels (DeleteUser "bob" (CreateUser "bob" dev_store)) = channels dev_store
  ∧ users (DeleteChannel "bob" (CreateChannel "bob" dev_store)) = users dev_store
  ∧ channels (DeleteChannel "bob" (CreateChannel "bob" dev_store))
    = channels dev_store.
Proof.
  assert (Hu : users dev_store !! "bob" = None) by reflexivity.
  assert (Hc : channels dev_store !! "bob" = None) by reflexivity.
  assert (Ha : "bob" ≠ "Anonymous") by discriminate.
  assert (Hg : "bob" ≠ "General") by discriminate.
  refine (conj dev_store_reachable (conj Hu (conj Hc (conj Ha (conj Hg _))))).
  exact (X8_create_then_delete dev_store "bob" dev_store_reachable Hu Hc Ha Hg).
Defined.


(** alice, who has blocked Anonymous, blocks bob as well. *)
Lemma X10_witness :
  is_Some (users cascade_store !! "alice")
  ∧ is_Some (users cascade_store !! "bob")
  ∧ "alice" ≠ "Anonymous"
  ∧ "alice" ≠ "bob"
  ∧ "bob" ∈ blocked (BlockUser "alice" "bob" cascade_store) "alice"
  ∧ (∀ name, name ≠ "bob" →
       (name ∈ blocked (BlockUser "alice" "bob" cascade_store) "alice"
        ↔ name ∈ blocked cascade_store "alice"))
  ∧ (∀ other, other ≠ "alice" →
       users (BlockUser "alice" "bob" cascade_store) !! other
       = users cascade_store !! other)
  ∧ dom (users (BlockUser "alice" "bob" cascade_store)) = dom (users cascade_store)
  ∧ channels (BlockUser "alice" "bob" cascade_store) = channels cascade_store
  ∧ (∀ channelname count message,
       message ∈ GetChannelHistory channelname "alice" count
                   (BlockUser "alice" "bob" cascade_store) →
       Username message ≠ "bob").
Proof.
  assert (Hwho : is_Some (users cascade_store !! "alice")) by (by eexists).
  assert (Htarget : is_Some (users cascade_store !! "bob")) by (by eexists).
  assert (Ha : "alice" ≠ "Anonymous") by discriminate.
  assert (Hne : "alice" ≠ "bob") by discriminate.
  refine (conj Hwho (conj Htarget (conj Ha (conj Hne _)))).
  exact (X10_block_accepted cascade_store "alice" "bob" Hwho Htarget Ha Hne).
Defined.

(** bob unblocks alice. *)
Lemma X11_witness :
  reachable cascade_store
  ∧ ("alice" ∉ blocked (UnblockUser "bob" "alice" cascade_store) "bob")
  ∧ blocked (UnblockUser "bob" "alice" cascade_store) "bob"
    = filter (λ name, name ≠ "alice") (blocked cascade_store "bob")
  ∧ (∀ other, other ≠ "bob" →
       users (UnblockUser "bob" "alice" cascade_store) !! other
       = users cascade_store !! other)
  ∧ dom (users (UnblockUser "bob" "alice" cascade_store))
    = dom (users cascade_store)
  ∧ channels (UnblockUser "bob" "alice" cascade_store) = channels cascade_store.
Proof.
  refine (conj cascade_store_reachable _).
  exact (X11_unblock_removes cascade_store "bob" "alice" cascade_store_reachable).
Defined.

(** alice blocks bob and thinks better of it. *)
Lemma X12_witness :
  ("bob" ∉ blocked cascade_store "alice")
  ∧ users (UnblockUser "alice" "bob" (BlockUser "alice" "bob" cascade_store))
    = users cascade_store
  ∧ channels (UnblockUser "alice" "bob" (BlockUser "alice" "bob" cascade_store))
    = channels cascade_store.
Proof.
  assert (Hnot : "bob" ∉ blocked cascade_store "alice").
  { apply slice_contains_false. reflexivity. }
  refine (conj Hnot _).
  exact (X12_block_then_unblock cascade_store "alice" "bob" Hnot).
Defined.

(** Anonymous asks for one and for two messages of "dev". *)
Lemma X14_witness :
  channels dev_store !! "dev" = Some dev_channel
  ∧ is_int (len (Messages dev_channel))
  ∧ 0 <= 1 <= 2
  ∧ is_int 2
  ∧ GetChannelHistory "dev" "Anonymous" 1 dev_store
      `suffix_of` GetChannelHistory "dev" "Anonymous" 2 dev_store
  ∧ GetChannelHistory "dev" "Anonymous" 2 dev_store
      `suffix_of` GetChannelHistory "dev" "Anonymous" (-1) dev_store.
Proof.
  assert (Hc : channels dev_store !! "dev" = Some dev_channel) by reflexivity.
  assert (Hlen : is_int (len (Messages dev_channel))).
  { unfold is_int. vm_compute. split; [discriminate | reflexivity]. }
  assert (Hn : 0 <= 1 <= 2) by lia.
  assert (Hint : is_int 2) by (unfold is_int; lia).
  refine (conj Hc (conj Hlen (conj Hn (conj Hint _)))).
  exact (X14_history_grows_with_count dev_store "dev" "Anonymous" dev_channel 1 2
           Hc Hlen Hn Hint).
Defined.

(** bob has blocked alice; once alice is deleted, bob reads her message. *)
Lemma X15_witness :
  reachable cascade_store
  ∧ is_Some (users cascade_store !! "alice")
  ∧ "alice" ≠ "Anonymous"
  ∧ is_Some (users cascade_store !! "bob")
  ∧ "bob" ≠ "alice"
  ∧ channels cascade_store !! "dev" = Some dev_channel
  ∧ GetChannelInfo "dev" (DeleteUser "alice" cascade_store)
    = GetChannelInfo "dev" cascade_store
  ∧ GetChannelHistory "dev" "bob" (-1) (DeleteUser "alice" cascade_store)
    = filter
        (λ message,
           Username message
           ∉ filter (λ name, name ≠ "alice") (blocked cascade_store "bob"))
        (Messages dev_channel)
  ∧ (∀ message, message ∈ Messages dev_channel → Username message = "alice" →
       message ∈ GetChannelHistory "dev" "bob" (-1)
                   (DeleteUser "alice" cascade_store)).
Proof.
  assert (Hd : is_Some (users cascade_store !! "alice")) by (by eexists).
  assert (Ha : "alice" ≠ "Anonymous") by discriminate.
  assert (Hr : is_Some (users cascade_store !! "bob")) by (by eexists).
  assert (Hne : "bob" ≠ "alice") by discriminate.
  assert (Hc : channels cascade_store !! "dev" = Some dev_channel) by reflexivity.
  refine (conj cascade_store_reachable
            (conj Hd (conj Ha (conj Hr (conj Hne (conj Hc _)))))).
  exact (X15_deleted_author_visible cascade_store "alice" "bob" "dev" dev_channel
           cascade_store_reachable Hd Ha Hr Hne Hc).
Defined.

(** A user under a name that is not valid UTF-8, and then the scenario,
    written by a logger and replayed onto a store without logger. *)
Lemma X16_witness :
  Forall timestamp_parses (CallCreateUser invalid_name :: dev_scenario)
  ∧ actions.Replay
      (actions.NewReplayer
         (actions.logFile
            (@performs _ actions.Logger _
               (CallCreateUser invalid_name :: dev_scenario)
               (actions.NewLogger None stopped_wallclock))))
      blank
    = (performs (CallCreateUser replacement_character :: dev_scenario) blank,
       Return None).
Proof.
  refine (conj (text_clock_parses _) _).
  exact (proj1 (X16_logger_replayer_round_trip
                  (CallCreateUser invalid_name :: dev_scenario) stopped_wallclock
                  blank (text_clock_parses _))).
Defined.

(** A log of one record that names no action. *)
Lemma X17_witness :
  (∀ result,
     actions.Sequence [nameless_record] = actions.Sequence result →
     Forall actions.envelope_is_object result)
  ∧ ((∃ err,
        snd (actions.Replay
               {| actions.wholeFile := actions.Sequence [nameless_record] |} blank)
        = Return (Some err))
     ↔ actions.Sequence [nameless_record] = actions.Malformed
       ∨ ∃ result,
           actions.Sequence [nameless_record] = actions.Sequence result
           ∧ Exists (λ action, size action ≠ 0%nat ∧ ¬ actions.well_formed action)
               result).
Proof.
  assert (Hobjects : ∀ result,
            actions.Sequence [nameless_record] = actions.Sequence result →
            Forall actions.envelope_is_object result).
  { intros result [= <-]. by repeat constructor. }
  exact (conj Hobjects
           (X17_replay_error_exactly
              {| actions.wholeFile := actions.Sequence [nameless_record] |} blank
              Hobjects)).
Defined.

(** The log of the scenario, then a record that names no action, then the
    log once more. *)
Lemma X18_witness :
  actions.replay_entries (log_of dev_store) blank
  = (calls dev_scenario (seeded None None), Return None)
  ∧ size nameless_record ≠ 0%nat
  ∧ (actions.envelope_is_object nameless_record →
     ¬ actions.well_formed nameless_record →
     ∃ err,
       actions.replay_entries
         (log_of dev_store ++ nameless_record :: log_of dev_store) blank
       = (calls dev_scenario (seeded None None), Return (Some err)))
  ∧ (¬ actions.envelope_is_object nameless_record →
     ∃ v, nameless_record !! "Action" = Some v
          ∧ actions.replay_entries
              (log_of dev_store ++ nameless_record :: log_of dev_store) blank
            = (calls dev_scenario (seeded None None),
               Panic (actions.conversion_panic v))).
Proof.
  assert (Hgood : actions.replay_entries (log_of dev_store) blank
                  = (calls dev_scenario (seeded None None), Return None))
    by (vm_compute; reflexivity).
  assert (Hsize : size nameless_record ≠ 0%nat) by (vm_compute; discriminate).
  refine (conj Hgood (conj Hsize _)).
  exact (X18_replay_stops_at_first_bad_record (log_of dev_store) (log_of dev_store)
           nameless_record blank _ Hgood Hsize).
Defined.

(** The log of the scenario. *)
Lemma X19_witness :
  Forall timestamp_parses dev_scenario
  ∧ ∃ entries,
      log_file dev_store
      = Some (actions.Text (actions.Sequence entries) (Some entries))
      ∧ Forall
          (λ record,
             (size record = 0%nat ∨ actions.well_formed record)
             ∧ actions.envelope_is_object record)
          entries.
Proof.
  refine (conj (text_clock_parses dev_scenario) _).
  exact (X19_log_is_well_formed dev_scenario stopped_wallclock
           (Some subs.NewEngine) (text_clock_parses dev_scenario)).
Defined.

(** Three runs of the server: the scenario, then bob joins and blocks
    alice, then alice is deleted. *)
Lemma X20_witness :
  Forall strings_valid (dev_scenario ++ concat later_sessions.*2)
  ∧ Forall timestamp_parses (dev_scenario ++ concat later_sessions.*2)
  ∧ ∃ m,
      runs (Some subs.NewEngine) stopped_wallclock dev_scenario later_sessions
      = Some m
      ∧ users m
        = users (calls (dev_scenario ++ concat later_sessions.*2) fresh_store)
      ∧ (∀ name,
           option_Forall2 (same_channel (λ _ _, True)) (channels m !! name)
             (channels (calls (dev_scenario ++ concat later_sessions.*2)
                          fresh_store) !! name))
      ∧ in_step_with_log (λ _ _, True) m
      ∧ (Forall timestamp_survives (dev_scenario ++ concat later_sessions.*2) →
         channels m
         = channels (calls (dev_scenario ++ concat later_sessions.*2)
                       fresh_store)).
Proof.
  refine (conj all_sessions_valid (conj (text_clock_parses _) _)).
  exact (X20_restarts_change_nothing (Some subs.NewEngine) stopped_wallclock
           dev_scenario later_sessions all_sessions_valid (text_clock_parses _)).
Defined.

(** Anonymous, on "dev", is told of the second message. *)
Lemma X22_witness :
  channels dev_store !! telnetconn.currentChannel dev_connection = Some dev_channel
  ∧ users dev_store !! telnetconn.currentUser dev_connection = Some Anonymous
  ∧ is_int (len (Messages dev_channel))
  ∧ 0 <= telnetconn.currentChannelMessageIndex dev_connection
      <= len (Messages dev_channel)
  ∧ telnetconn.printed
      (telnetconn.OnChannelChanged text_layout "dev" dev_store dev_store dev_store
         dev_connection)
    = [["[2020-01-01T00:00:02Z - Anonymous] yo"]].
Proof.
  assert (Hc : channels dev_store !! telnetconn.currentChannel dev_connection
               = Some dev_channel) by reflexivity.
  assert (Hu : users dev_store !! telnetconn.currentUser dev_connection
               = Some Anonymous) by reflexivity.
  assert (Hlen : is_int (len (Messages dev_channel))).
  { unfold is_int. vm_compute. split; [discriminate | reflexivity]. }
  assert (Hidx : 0 <= telnetconn.currentChannelMessageIndex dev_connection
                 <= len (Messages dev_channel)).
  { vm_compute. split; discriminate. }
  refine (conj Hc (conj Hu (conj Hlen (conj Hidx _)))).
  exact (proj1 (proj2 (proj2 (proj2
           (X22_connection_prints_new_messages text_layout dev_connection dev_store
              dev_channel Anonymous Hc Hu Hlen Hidx))))).
Defined.


(** alice switches from "General" to "dev": of its two messages she is
    shown her own, not that of Anonymous, whom she has blocked. *)
Lemma X24_witness :
  reachable dev_store
  ∧ channels dev_store !! "dev" = Some dev_channel
  ∧ users dev_store !! telnetconn.currentUser alice_connection = Some alice
  ∧ is_int (len (Messages dev_channel))
  ∧ telnetconn.SwitchChannel text_layout "dev" dev_store dev_store dev_store
      alice_connection
    = {| telnetconn.currentUser := "alice";
         telnetconn.currentChannel := "dev";
         telnetconn.currentChannelMessageIndex := 2;
         telnetconn.printed :=
           [ [ "-----------------"; "User: alice"; "Channel: dev";
               "-----------------" ];
             [ "[2020-01-01T00:00:01Z - alice] hi" ] ] |}.
Proof.
  assert (Hc : channels dev_store !! "dev" = Some dev_channel) by reflexivity.
  assert (Hu : users dev_store !! telnetconn.currentUser alice_connection
               = Some alice) by reflexivity.
  assert (Hlen : is_int (len (Messages dev_channel))).
  { unfold is_int. vm_compute. split; [discriminate | reflexivity]. }
  refine (conj dev_store_reachable (conj Hc (conj Hu (conj Hlen _)))).
  exact (proj1 (X24_switch_shows_last_ten text_layout alice_connection dev_store
                  "dev" dev_channel alice dev_store_reachable Hc Hu Hlen)).
Defined.

(** A connection that is opened after the scenario. *)
Lemma X25_witness :
  reachable dev_store
  ∧ telnetconn.NewTelnetConn text_layout dev_store dev_store dev_store dev_store
    = {| telnetconn.currentUser := "Anonymous";
         telnetconn.currentChannel := "General";
         telnetconn.currentChannelMessageIndex := 0;
         telnetconn.printed :=
           [ [ "-----------------"; "User: Anonymous"; "Channel: General";
               "-----------------" ];
             [] ] |}.
Proof.
  assert (Hu : is_Some (users dev_store !! "Anonymous")) by (by eexists).
  assert (Hc : channels dev_store !! "General" = Some General) by reflexivity.
  assert (Hlen : is_int (len (Messages General))).
  { unfold is_int. vm_compute. split; [discriminate | reflexivity]. }
  refine (conj dev_store_reachable _).
  exact (proj1 (X25_new_connection text_layout dev_store dev_store_reachable)
           General Hu Hc Hlen).
Defined.

(** alice is deleted while she is connected. *)
Lemma X26_witness :
  reachable store_without_alice
  ∧ is_Some (users store_without_alice !! "Anonymous")
  ∧ channels store_without_alice !! "General" = Some General
  ∧ is_int (len (Messages General))
  ∧ telnetconn.OnUsersChanged text_layout store_without_alice store_without_alice
      store_without_alice store_without_alice store_without_alice alice_connection
    = {| telnetconn.currentUser := "Anonymous";
         telnetconn.currentChannel := "General";
         telnetconn.currentChannelMessageIndex := 0;
         telnetconn.printed :=
           [ [ "-----------------"; "User: Anonymous"; "Channel: General";
               "-----------------" ];
             [] ] |}.
Proof.
  assert (Hm : reachable store_without_alice)
    by apply reachable_call, cascade_store_reachable.
  assert (Hu : is_Some (users store_without_alice !! "Anonymous")) by (by eexists).
  assert (Hc : channels store_without_alice !! "General" = Some General)
    by reflexivity.
  assert (Hlen : is_int (len (Messages General))).
  { unfold is_int. vm_compute. split; [discriminate | reflexivity]. }
  refine (conj Hm (conj Hu (conj Hc (conj Hlen _)))).
  exact (proj1 (X26_connection_falls_back text_layout alice_connection
                  store_without_alice General Hm Hu Hc Hlen)).
Defined.

(** A server that has started on the file ["[{}]"]; alice joins, and the
    next start fails. *)
Lemma X27_witness :
  actionsLogger compact_store
  = Some (actions.NewLogger (Some compact_file) stopped_wallclock)
  ∧ actions.logFile (actions.NewLogger (Some compact_file) stopped_wallclock)
    = actions.Text (actions.Sequence [∅]) None
  ∧ call (CallCreateUser "alice") compact_store ≠ compact_store
  ∧ log_file (calls [] (call (CallCreateUser "alice") compact_store))
    = Some (actions.Text actions.Malformed None)
  ∧ restart (Some subs.NewEngine) stopped_wallclock
      (calls [] (call (CallCreateUser "alice") compact_store))
    = Return (None, actions.invalid "malformed json").
Proof.
  assert (Haccepted : call (CallCreateUser "alice") compact_store ≠ compact_store).
  { intros Hsame. apply (f_equal (λ m, users m !! "alice")) in Hsame.
    vm_compute in Hsame. discriminate. }
  refine (conj eq_refl (conj eq_refl (conj Haccepted _))).
  exact (X27_foreign_log_is_destroyed (CallCreateUser "alice") [] compact_store
           (actions.NewLogger (Some compact_file) stopped_wallclock)
           (actions.Sequence [∅]) (Some subs.NewEngine) stopped_wallclock
           eq_refl eq_refl Haccepted).
Defined.

End ConcreteStores.
